(** * Workout tracking API: session lifecycle and recommendation engine

    A shallow embedding of [app/models.py], [app/crud.py], the request
    schemas of [app/schemas.py] and the pagination arithmetic of
    [app/routers/users.py] and [app/routers/workouts.py].

    - Python [int] is [Z]; a nullable column is an [option].
    - A table is the list of its rows in insertion order; [.first()] on a
      query without [ORDER BY] is the first matching row of that list, and
      a new primary key is one more than the largest in the table.
    - [datetime.utcnow()] is read from the request environment, one value
      per request.
    - A SQLAlchemy [Session] is a unit of work: it carries the committed
      database and the transaction's own view of it; only [db.commit()]
      publishes the view, and the store may refuse the commit.  An
      exception leaves the committed database as it was at the last
      commit.  [Traced] follows the two operations that write more than
      one row call by call: the store may refuse each flush and each
      commit on its own.
    - Requests are served one at a time. *)

From Stdlib Require Import ZArith List String Bool Lia.
Import ListNotations.
Open Scope Z_scope.

(** ** app/models.py *)

Module User.
Record t := mk {
  id : Z;
  name : string;
  email : option string;
  created_at : Z
}.
End User.

Module WorkoutSession.
Record t := mk {
  id : Z;
  user_id : Z;
  started_at : Z;
  ended_at : option Z;
  is_active : bool
}.
End WorkoutSession.

Module Exercise.
Record t := mk {
  id : Z;
  session_id : Z;
  exercise_name : string;
  assigned_reps : Z;
  completed_reps : option Z;
  created_at : Z
}.
End Exercise.

Module WorkoutRecommendation.
Record t := mk {
  id : Z;
  user_id : Z;
  next_recommended_reps : Z;
  updated_at : Z
}.
End WorkoutRecommendation.

(** The four tables. *)
Record Database := mkDatabase {
  users : list User.t;
  workout_sessions : list WorkoutSession.t;
  exercises : list Exercise.t;
  workout_recommendations : list WorkoutRecommendation.t
}.

Definition empty_db : Database := mkDatabase [] [] [] [].

(** ** app/exceptions.py, plus the Python and store errors the code can hit *)

Inductive Exception :=
| UserNotFoundException (user_id : Z)
| WorkoutSessionNotFoundException (session_id : Z)
| ActiveSessionExistsException (user_id active_session_id : Z)
| SessionNotActiveException (session_id : Z)
| ExerciseNotLoggedException (session_id : Z)
| RequestValidationError (fields : list string)
| TypeError
| AttributeError
| ZeroDivisionError
| IntegrityError
| OperationalError.

(** The error classes of the API: the [status_code] each exception is
    reported with (main.py sends anything that is not an [HTTPException]
    or a validation error as 500). *)
Definition status_code (e : Exception) : Z :=
  match e with
  | UserNotFoundException _ | WorkoutSessionNotFoundException _ => 404
  | ActiveSessionExistsException _ _ | SessionNotActiveException _
  | ExerciseNotLoggedException _ => 409
  | RequestValidationError _ => 422
  | TypeError | AttributeError | ZeroDivisionError
  | IntegrityError | OperationalError => 500
  end.

(** The machine-readable [code] of the error detail. *)
Definition error_code (e : Exception) : string :=
  match e with
  | UserNotFoundException _ => "USER_NOT_FOUND"
  | WorkoutSessionNotFoundException _ => "WORKOUT_SESSION_NOT_FOUND"
  | ActiveSessionExistsException _ _ => "ACTIVE_SESSION_EXISTS"
  | SessionNotActiveException _ => "SESSION_NOT_ACTIVE"
  | ExerciseNotLoggedException _ => "EXERCISE_NOT_LOGGED"
  | RequestValidationError _ => "VALIDATION_ERROR"
  | TypeError | AttributeError | ZeroDivisionError
  | IntegrityError | OperationalError => "INTERNAL_SERVER_ERROR"
  end.

Inductive Result (A : Type) :=
| Ok (a : A)
| Raise (e : Exception).
Arguments Ok {A} a.
Arguments Raise {A} e.

(** ** The unit of work *)

(** What a request reads from outside the database: the clock, and
    whether the store accepts the commit. *)
Record Env := mkEnv {
  utcnow : Z;
  commit_succeeds : bool
}.

Record DbSession := mkDbSession {
  committed : Database;
  pending : Database
}.

Definition Tx (A : Type) : Type := Env -> DbSession -> Result A * DbSession.

Definition ret {A} (a : A) : Tx A := fun _ s => (Ok a, s).

Definition bind {A B} (m : Tx A) (k : A -> Tx B) : Tx B :=
  fun env s =>
    match m env s with
    | (Ok a, s') => k a env s'
    | (Raise e, s') => (Raise e, s')
    end.

Definition raise {A} (e : Exception) : Tx A := fun _ s => (Raise e, s).

Declare Scope tx_scope.
Delimit Scope tx_scope with tx.
Notation "x <- m ;; k" := (bind m (fun x => k))
  (at level 61, m at next level, right associativity) : tx_scope.
Notation "m ;; k" := (bind m (fun _ => k))
  (at level 61, right associativity) : tx_scope.
Open Scope tx_scope.

(** [db.query(...)]: reads the transaction's view. *)
Definition query {A} (f : Database -> A) : Tx A :=
  fun _ s => (Ok (f (pending s)), s).

(** A pending write (an [add], or an attribute set on a loaded row). *)
Definition write (f : Database -> Database) : Tx unit :=
  fun _ s => (Ok tt, mkDbSession (committed s) (f (pending s))).

Definition now : Tx Z := fun env s => (Ok (utcnow env), s).

(** [db.commit()]: all pending writes become visible together, or the
    store refuses and the transaction is rolled back. *)
Definition commit : Tx unit :=
  fun env s =>
    if commit_succeeds env
    then (Ok tt, mkDbSession (pending s) (pending s))
    else (Raise OperationalError, mkDbSession (committed s) (committed s)).

(** One request: a fresh session on the committed database; what the
    next request sees is what was committed. *)
Definition request {A} (m : Tx A) (env : Env) (db : Database)
  : Result A * Database :=
  let (r, s) := m env (mkDbSession db db) in (r, committed s).

(** ** app/crud.py: helper *)

Definition calculate_next_reps (assigned_reps completed_reps : Z) : Z :=
  let next_reps :=
    if completed_reps >=? assigned_reps
    then assigned_reps + 2
    else assigned_reps - 1 in
  Z.max 1 next_reps.

(** ** Store primitives *)

(** A fresh primary key: one more than the largest in the table. *)
Definition next_id {A} (id : A -> Z) (rows : list A) : Z :=
  1 + fold_right (fun r m => Z.max (id r) m) 0 rows.
Arguments next_id {A} id rows : simpl never.

(** [UPDATE ... SET ... WHERE p]. *)
Definition update_where {A} (p : A -> bool) (f : A -> A) (rows : list A)
  : list A :=
  map (fun r => if p r then f r else r) rows.

(** [.order_by(...).first()]: the row no other row comes strictly before;
    among equals, the one met first in the table. *)
Fixpoint first_by {A} (before : A -> A -> bool) (rows : list A) : option A :=
  match rows with
  | [] => None
  | r :: rest =>
      match first_by before rest with
      | Some r' => if before r' r then Some r' else Some r
      | None => Some r
      end
  end.

(** NULL sorts below every value. *)
Definition nullable_ltb (x y : option Z) : bool :=
  match x, y with
  | None, None => false
  | None, Some _ => true
  | Some _, None => false
  | Some a, Some b => a <? b
  end.

Definition set_users (f : list User.t -> list User.t) (db : Database) :=
  mkDatabase (f (users db)) (workout_sessions db) (exercises db)
             (workout_recommendations db).
Definition set_workout_sessions
  (f : list WorkoutSession.t -> list WorkoutSession.t) (db : Database) :=
  mkDatabase (users db) (f (workout_sessions db)) (exercises db)
             (workout_recommendations db).
Definition set_exercises (f : list Exercise.t -> list Exercise.t)
  (db : Database) :=
  mkDatabase (users db) (workout_sessions db) (f (exercises db))
             (workout_recommendations db).
Definition set_workout_recommendations
  (f : list WorkoutRecommendation.t -> list WorkoutRecommendation.t)
  (db : Database) :=
  mkDatabase (users db) (workout_sessions db) (exercises db)
             (f (workout_recommendations db)).

(** The queries of crud.py, as functions of the database. *)

Definition user_by_id (user_id : Z) (db : Database) : option User.t :=
  find (fun u => User.id u =? user_id) (users db).

Definition session_by_id (session_id : Z) (db : Database)
  : option WorkoutSession.t :=
  find (fun s => WorkoutSession.id s =? session_id) (workout_sessions db).

(** [session.exercise] (one-to-one, [uselist=False]). *)
Definition exercise_of (s : WorkoutSession.t) (db : Database)
  : option Exercise.t :=
  find (fun e => Exercise.session_id e =? WorkoutSession.id s) (exercises db).

(** [filter(user_id == u, is_active == True)] *)
Definition active_sessions (user_id : Z) (db : Database)
  : list WorkoutSession.t :=
  filter (fun s => (WorkoutSession.user_id s =? user_id)
                   && Bool.eqb (WorkoutSession.is_active s) true)
         (workout_sessions db).

(** [filter(user_id == u, is_active == False)] *)
Definition ended_sessions (user_id : Z) (db : Database)
  : list WorkoutSession.t :=
  filter (fun s => (WorkoutSession.user_id s =? user_id)
                   && Bool.eqb (WorkoutSession.is_active s) false)
         (workout_sessions db).

Definition recommendation_of (user_id : Z) (db : Database)
  : option WorkoutRecommendation.t :=
  find (fun r => WorkoutRecommendation.user_id r =? user_id)
       (workout_recommendations db).

(** [.order_by(desc(ended_at)).first()] *)
Definition last_ended_session (user_id : Z) (db : Database)
  : option WorkoutSession.t :=
  first_by (fun a b => nullable_ltb (WorkoutSession.ended_at b)
                                    (WorkoutSession.ended_at a))
           (ended_sessions user_id db).

(** [.order_by(asc(started_at)).first()] *)
Definition first_ended_session (user_id : Z) (db : Database)
  : option WorkoutSession.t :=
  first_by (fun a b => WorkoutSession.started_at a
                       <? WorkoutSession.started_at b)
           (ended_sessions user_id db).

Definition email_taken (email : option string) (db : Database) : bool :=
  match email with
  | None => false
  | Some e =>
      existsb (fun u => match User.email u with
                        | Some e' => String.eqb e e'
                        | None => false
                        end) (users db)
  end.

(** [db.refresh(row)]: the row as the database has it now. *)
Definition refresh {A} (lookup : Database -> option A) : Tx A :=
  row <- query lookup ;;
  match row with
  | Some r => ret r
  | None => raise OperationalError
  end.

(** ** app/crud.py: users *)

Definition create_user (name : string) (email : option string)
  : Tx User.t :=
  (* db.add(db_user); [taken]: the email is already in the table *)
  taken <- query (email_taken email) ;;
  t <- now ;;
  uid <- query (fun db => next_id User.id (users db)) ;;
  write (set_users (fun l => l ++ [User.mk uid name email t])) ;;
  (* db.commit(): the INSERT is refused on a duplicate email *)
  (if taken then raise IntegrityError else commit) ;;
  refresh (user_by_id uid).

Definition get_user (user_id : Z) : Tx User.t :=
  user <- query (user_by_id user_id) ;;
  match user with
  | None => raise (UserNotFoundException user_id)
  | Some u => ret u
  end.

(** ** app/crud.py: workout sessions *)

Definition create_workout_session
  (user_id assigned_reps : Z) (exercise_name : string)
  : Tx WorkoutSession.t :=
  (* Verify user exists *)
  _ <- get_user user_id ;;
  (* Check for active session *)
  active_session <- query (fun db => hd_error (active_sessions user_id db)) ;;
  match active_session with
  | Some a =>
      raise (ActiveSessionExistsException user_id (WorkoutSession.id a))
  | None =>
      (* Create session: db.add(db_session); db.flush() *)
      t <- now ;;
      sid <- query (fun db => next_id WorkoutSession.id (workout_sessions db)) ;;
      write (set_workout_sessions
               (fun l => l ++ [WorkoutSession.mk sid user_id t None true])) ;;
      (* Create exercise *)
      eid <- query (fun db => next_id Exercise.id (exercises db)) ;;
      write (set_exercises
               (fun l => l ++ [Exercise.mk eid sid exercise_name
                                           assigned_reps None t])) ;;
      commit ;;
      refresh (session_by_id sid)
  end.

Definition get_workout_session (session_id : Z) : Tx WorkoutSession.t :=
  session <- query (session_by_id session_id) ;;
  match session with
  | None => raise (WorkoutSessionNotFoundException session_id)
  | Some s => ret s
  end.

Definition log_exercise (session_id completed_reps : Z)
  : Tx WorkoutSession.t :=
  session <- get_workout_session session_id ;;
  if negb (WorkoutSession.is_active session)
  then raise (SessionNotActiveException session_id)
  else
    (* Update exercise *)
    exercise <- query (exercise_of session) ;;
    match exercise with
    | None => raise AttributeError
    | Some e =>
        write (set_exercises
                 (update_where
                    (fun r => Exercise.id r =? Exercise.id e)
                    (fun r => Exercise.mk (Exercise.id r)
                                (Exercise.session_id r)
                                (Exercise.exercise_name r)
                                (Exercise.assigned_reps r)
                                (Some completed_reps)
                                (Exercise.created_at r)))) ;;
        commit ;;
        refresh (session_by_id session_id)
    end.

Definition end_workout_session (session_id : Z)
  : Tx (WorkoutSession.t * Z) :=
  session <- get_workout_session session_id ;;
  if negb (WorkoutSession.is_active session)
  then raise (SessionNotActiveException session_id)
  else
    (* Check if exercise was logged *)
    exercise <- query (exercise_of session) ;;
    match exercise with
    | None => raise AttributeError
    | Some e =>
        match Exercise.completed_reps e with
        | None => raise (ExerciseNotLoggedException session_id)
        | Some completed =>
            (* End session *)
            t <- now ;;
            write (set_workout_sessions
                     (update_where
                        (fun r => WorkoutSession.id r
                                  =? WorkoutSession.id session)
                        (fun r => WorkoutSession.mk
                                    (WorkoutSession.id r)
                                    (WorkoutSession.user_id r)
                                    (WorkoutSession.started_at r)
                                    (Some t) false))) ;;
            (* Calculate next recommendation *)
            let next_reps :=
              calculate_next_reps (Exercise.assigned_reps e) completed in
            (* Update or create recommendation *)
            recommendation <-
              query (recommendation_of (WorkoutSession.user_id session)) ;;
            match recommendation with
            | Some r =>
                write (set_workout_recommendations
                         (update_where
                            (fun x => WorkoutRecommendation.id x
                                      =? WorkoutRecommendation.id r)
                            (fun x => WorkoutRecommendation.mk
                                        (WorkoutRecommendation.id x)
                                        (WorkoutRecommendation.user_id x)
                                        next_reps t)))
            | None =>
                rid <- query (fun db =>
                         next_id WorkoutRecommendation.id
                                 (workout_recommendations db)) ;;
                write (set_workout_recommendations
                         (fun l => l ++ [WorkoutRecommendation.mk
                                           rid
                                           (WorkoutSession.user_id session)
                                           next_reps t]))
            end ;;
            commit ;;
            session' <- refresh (session_by_id session_id) ;;
            ret (session', next_reps)
        end
    end.

(** ** app/crud.py: recommendation *)

Record Progression := mkProgression {
  trend : string;
  total_increase : Z;
  sessions_count : Z
}.

Record RecommendationData := mkRecommendationData {
  recommended_reps : Z;
  reason : string;
  last_session : option WorkoutSession.t;
  progression : Progression
}.

(** [completed_reps >= assigned_reps] on a nullable column: comparing
    [None] with an [int] raises [TypeError]. *)
Definition completed_or_TypeError (e : Exercise.t) : Tx Z :=
  match Exercise.completed_reps e with
  | Some c => ret c
  | None => raise TypeError
  end.

Definition get_recommendation (user_id : Z) : Tx RecommendationData :=
  (* Verify user exists *)
  _ <- get_user user_id ;;
  (* Get recommendation *)
  recommendation <- query (recommendation_of user_id) ;;
  (* Get last workout *)
  last <- query (last_ended_session user_id) ;;
  last_exercise <-
    match last with
    | Some s => query (exercise_of s)
    | None => ret None
    end ;;
  (* Calculate progression *)
  completed_sessions <-
    query (fun db => Z.of_nat (List.length (ended_sessions user_id db))) ;;
  recommended <-
    match recommendation with
    | Some r => ret (WorkoutRecommendation.next_recommended_reps r)
    | None =>
        match last_exercise with
        | Some e =>
            (* Calculate from last session if no recommendation exists *)
            c <- completed_or_TypeError e ;;
            ret (calculate_next_reps (Exercise.assigned_reps e) c)
        | None =>
            (* Default for new users *)
            ret 10
        end
    end ;;
  (* Determine reason *)
  reason_trend <-
    match last_exercise with
    | Some e =>
        c <- completed_or_TypeError e ;;
        if c >=? Exercise.assigned_reps e
        then ret ("Completed all reps in last session"%string,
                  "improving"%string)
        else ret ("Did not complete all reps in last session"%string,
                  "adjusting"%string)
    | None => ret ("Starting recommendation"%string, "new"%string)
    end ;;
  (* Calculate total increase *)
  first <- query (first_ended_session user_id) ;;
  first_exercise <-
    match first with
    | Some s => query (exercise_of s)
    | None => ret None
    end ;;
  let increase :=
    match first_exercise with
    | Some e => recommended - Exercise.assigned_reps e
    | None => 0
    end in
  ret (mkRecommendationData recommended (fst reason_trend) last
         (mkProgression (snd reason_trend) increase completed_sessions)).

(** ** app/schemas.py: request bodies *)

(** [WorkoutSessionCreate]: [assigned_reps] with [gt=0], [exercise_name]
    optional with [max_length=100].  The failing fields are reported. *)
Definition WorkoutSessionCreate_errors
  (assigned_reps : Z) (exercise_name : option string) : list string :=
  (if assigned_reps >? 0 then [] else ["body.assigned_reps"%string])
  ++ match exercise_name with
     | Some n =>
         if (String.length n <=? 100)%nat then []
         else ["body.exercise_name"%string]
     | None => []
     end.

(** [ExerciseLog]: [completed_reps] with [ge=0]. *)
Definition ExerciseLog_errors (completed_reps : Z) : list string :=
  if completed_reps >=? 0 then [] else ["body.completed_reps"%string].

(** [email: Optional[EmailStr]]: what pydantic makes of the [email] of
    the body.  The format check and the normalisation are those of the
    email-validator library, so a request carries their outcome: no
    email, an email the library refuses, or the address as the library
    accepts and normalises it. *)
Inductive EmailField :=
| NoEmail
| RejectedEmail (raw : string)
| AcceptedEmail (address : string).

(** [user.email] of a body that passed the schema. *)
Definition email_value (email : EmailField) : option string :=
  match email with
  | AcceptedEmail address => Some address
  | NoEmail | RejectedEmail _ => None
  end.

(** [UserCreate]: [name] with [min_length=2], [max_length=100], [email]
    an optional [EmailStr].  The failing fields are reported. *)
Definition UserCreate_errors (name : string) (email : EmailField)
  : list string :=
  (if ((2 <=? String.length name) && (String.length name <=? 100))%nat
   then [] else ["body.name"%string])
  ++ match email with
     | RejectedEmail _ => ["body.email"%string]
     | NoEmail | AcceptedEmail _ => []
     end.

Definition validate (errors : list string) : Tx unit :=
  match errors with
  | [] => ret tt
  | _ => raise (RequestValidationError errors)
  end.

(** ** app/routers: the public operations *)

(** [workout.exercise_name or "Push-ups"] *)
Definition or_default (exercise_name : option string) : string :=
  match exercise_name with
  | Some n => if String.eqb n ""%string then "Push-ups"%string else n
  | None => "Push-ups"%string
  end.

(** POST /api/v1/users/{user_id}/workouts *)
Definition start_workout
  (user_id assigned_reps : Z) (exercise_name : option string)
  : Tx WorkoutSession.t :=
  validate (WorkoutSessionCreate_errors assigned_reps exercise_name) ;;
  create_workout_session user_id assigned_reps (or_default exercise_name).

(** PATCH /api/v1/workouts/{session_id}/log *)
Definition log_exercise_result (session_id completed_reps : Z)
  : Tx WorkoutSession.t :=
  validate (ExerciseLog_errors completed_reps) ;;
  log_exercise session_id completed_reps.

(** PATCH /api/v1/workouts/{session_id}/end *)
Definition end_workout (session_id : Z) : Tx (WorkoutSession.t * Z) :=
  end_workout_session session_id.

(** ** Pagination (routers/users.py, routers/workouts.py) *)

Record PaginationMeta := mkPaginationMeta {
  current_page : Z;
  total_pages : Z;
  total_items : Z;
  items_per_page : Z
}.

(** [math.ceil(total / limit)]: the quotient rounded up.  Python divides
    in floating point; the result is the integer one as long as the
    quotient stays far below 2^53 / 100, as any row count does. *)
Definition math_ceil_div (total limit : Z) : Tx Z :=
  if limit =? 0 then raise ZeroDivisionError
  else ret (- ((- total) / limit)).

(** Lines shared by [list_users] and [list_user_workouts]: clamp the page
    size, derive the offset, and compute the metadata from the count the
    crud query returned. *)
Definition page_size (limit : Z) : Z := Z.min limit 100.

Definition page_skip (page limit : Z) : Z := (page - 1) * page_size limit.

Definition pagination (page limit total : Z) : Tx PaginationMeta :=
  let limit := page_size limit in
  pages <- (if total >? 0 then math_ceil_div total limit else ret 1) ;;
  ret (mkPaginationMeta page pages total limit).

(** crud.get_users: [query.count()] *)
Definition count_users : Tx Z :=
  query (fun db => Z.of_nat (List.length (users db))).

(** crud.get_user_workout_sessions: the status filter, then
    [query.count()] *)
Definition count_user_workout_sessions (user_id : Z) (status : string)
  : Tx Z :=
  _ <- get_user user_id ;;
  query (fun db =>
    let of_user :=
      filter (fun s => WorkoutSession.user_id s =? user_id)
             (workout_sessions db) in
    let filtered :=
      if String.eqb status "active"%string
      then filter (fun s => Bool.eqb (WorkoutSession.is_active s) true)
                  of_user
      else if String.eqb status "completed"%string
      then filter (fun s => Bool.eqb (WorkoutSession.is_active s) false)
                  of_user
      else of_user in
    Z.of_nat (List.length filtered)).

(** GET /api/v1/users: the pagination metadata of the response. *)
Definition list_users (page limit : Z) : Tx PaginationMeta :=
  total <- count_users ;;
  pagination page limit total.

(** GET /api/v1/users/{user_id}/workouts: the pagination metadata of the
    response. *)
Definition list_user_workouts
  (user_id : Z) (status_filter : string) (page limit : Z)
  : Tx PaginationMeta :=
  total <- count_user_workout_sessions user_id status_filter ;;
  pagination page limit total.

(** ** The service as a state machine *)

Inductive Request :=
| CreateUser (name : string) (email : EmailField)
| StartSession (user_id assigned_reps : Z) (exercise_name : option string)
| LogExercise (session_id completed_reps : Z)
| EndSession (session_id : Z)
| GetRecommendation (user_id : Z).

(** The committed database after a request, whether it succeeded or not. *)
Definition handle (env : Env) (db : Database) (r : Request) : Database :=
  match r with
  | CreateUser name email =>
      snd (request (validate (UserCreate_errors name email) ;;
                    create_user name (email_value email)) env db)
  | StartSession u a n => snd (request (start_workout u a n) env db)
  | LogExercise s c => snd (request (log_exercise_result s c) env db)
  | EndSession s => snd (request (end_workout s) env db)
  | GetRecommendation u => snd (request (get_recommendation u) env db)
  end.

Inductive reachable : Database -> Prop :=
| reachable_empty : reachable empty_db
| reachable_step env db r :
    reachable db -> reachable (handle env db r).

(** ** Invariants of the data model *)

(** At most one session per user has [is_active = True]. *)
Definition single_active (db : Database) : Prop :=
  forall user_id, (List.length (active_sessions user_id db) <= 1)%nat.

(** Every session has its exercise. *)
Definition paired (db : Database) : Prop :=
  forall s, In s (workout_sessions db) -> exercise_of s db <> None.

(** The exercise of an ended session has its completed reps. *)
Definition ended_logged (db : Database) : Prop :=
  forall s e,
    In s (workout_sessions db) ->
    WorkoutSession.is_active s = false ->
    exercise_of s db = Some e ->
    Exercise.completed_reps e <> None.

(** No exercise points to a session id the table has not issued yet. *)
Definition exercises_bounded (db : Database) : Prop :=
  forall e, In e (exercises db) ->
    Exercise.session_id e < next_id WorkoutSession.id (workout_sessions db).

Definition well_formed (db : Database) : Prop :=
  paired db /\ ended_logged db /\ exercises_bounded db.

(** ** Reachability under a clock that never goes back *)

(** [reachable_by t db]: [db] is reached by requests served at
    non-decreasing times, the last one at [t] or before. *)
Inductive reachable_by : Z -> Database -> Prop :=
| reachable_by_empty t : reachable_by t empty_db
| reachable_by_step t env db r :
    reachable_by t db ->
    t <= utcnow env ->
    reachable_by (utcnow env) (handle env db r).

(** No session started after [t]; an ended session has its [ended_at],
    between its start and [t]. *)
Definition stamped (t : Z) (rows : list WorkoutSession.t) : Prop :=
  forall s, In s rows ->
    WorkoutSession.started_at s <= t
    /\ (WorkoutSession.is_active s = false ->
        exists e, WorkoutSession.ended_at s = Some e
                  /\ WorkoutSession.started_at s <= e <= t).

(** In table order, a session has ended before a later session of the
    same user starts. *)
Fixpoint consecutive (rows : list WorkoutSession.t) : Prop :=
  match rows with
  | [] => True
  | s1 :: rest =>
      (forall s2, In s2 rest ->
         WorkoutSession.user_id s1 = WorkoutSession.user_id s2 ->
         WorkoutSession.is_active s1 = false
         /\ exists e1, WorkoutSession.ended_at s1 = Some e1
                       /\ e1 <= WorkoutSession.started_at s2)
      /\ consecutive rest
  end.

Definition in_time (t : Z) (db : Database) : Prop :=
  stamped t (workout_sessions db)
  /\ consecutive (workout_sessions db)
  /\ NoDup (map WorkoutSession.id (workout_sessions db)).

(** ** test_api_flow.py *)

(** The flow of the test: create a user, start a workout of 10 reps, log
    10 of 10, end the session.  The clock ticks once per request and the
    store accepts every commit. *)
Definition api_flow_user : Database :=
  handle (mkEnv 0 true) empty_db
         (CreateUser "Test User" (AcceptedEmail "test@example.com")).

Definition api_flow_started : Database :=
  handle (mkEnv 1 true) api_flow_user
         (StartSession 1 10 (Some "Push-ups"%string)).

Definition api_flow_logged : Database :=
  handle (mkEnv 2 true) api_flow_started (LogExercise 1 10).

Definition api_flow_ended : Database :=
  handle (mkEnv 3 true) api_flow_logged (EndSession 1).

(** A second user joins once the first has finished that workout. *)
Definition two_users_created : Database :=
  handle (mkEnv 4 true) api_flow_ended (CreateUser "Second User" NoEmail).

(** The second user has started a workout of 8 and logged 3; the first,
    with a finished workout and a recommendation of 12, has started the
    next one. *)
Definition two_users_logged : Database :=
  handle (mkEnv 7 true)
    (handle (mkEnv 6 true)
       (handle (mkEnv 5 true) two_users_created (StartSession 2 8 None))
       (LogExercise 2 3))
    (StartSession 1 12 None).

(** A database that has an ended session, 5 of 10 reps, for user 1 and
    no stored recommendation. *)
Definition db_without_recommendation : Database :=
  mkDatabase
    [User.mk 1 "Test User" None 0]
    [WorkoutSession.mk 1 1 1 (Some 3) false]
    [Exercise.mk 1 1 "Push-ups" 10 (Some 5) 1]
    [].

(** The same history with a stored recommendation of 50 for user 1 (the
    last session alone would give 9) and one of 7 for another user. *)
Definition db_with_recommendation : Database :=
  mkDatabase
    [User.mk 1 "Test User" None 0; User.mk 2 "Other User" None 0]
    [WorkoutSession.mk 1 1 1 (Some 3) false]
    [Exercise.mk 1 1 "Push-ups" 10 (Some 5) 1]
    [WorkoutRecommendation.mk 1 2 7 2; WorkoutRecommendation.mk 2 1 50 3].

(** ** app/routers/users.py: creating a user *)

(** POST /api/v1/users *)
Definition create_user_endpoint (name : string) (email : EmailField)
  : Tx User.t :=
  validate (UserCreate_errors name email) ;;
  create_user name (email_value email).

(** ** app/crud.py: user statistics *)

Module UserStats.
Record t := mk {
  total_workouts : Z;
  total_exercises : Z;
  active_sessions : Z;
  current_recommended_reps : Z
}.
End UserStats.

(** [db.query(Exercise).join(WorkoutSession).filter(user_id == u)]: the
    pairs of an exercise and the session its foreign key names, for the
    sessions of the user. *)
Definition exercises_joined (user_id : Z) (db : Database)
  : list (Exercise.t * WorkoutSession.t) :=
  flat_map
    (fun e =>
       map (fun s => (e, s))
           (filter (fun s => (WorkoutSession.id s =? Exercise.session_id e)
                             && (WorkoutSession.user_id s =? user_id))
                   (workout_sessions db)))
    (exercises db).

Definition get_user_stats (user_id : Z) : Tx UserStats.t :=
  _ <- get_user user_id ;;
  total_workouts <-
    query (fun db =>
      Z.of_nat (List.length
                  (filter (fun s => WorkoutSession.user_id s =? user_id)
                          (workout_sessions db)))) ;;
  total_exercises <-
    query (fun db => Z.of_nat (List.length (exercises_joined user_id db))) ;;
  active <-
    query (fun db => Z.of_nat (List.length (active_sessions user_id db))) ;;
  (* Get current recommendation *)
  recommendation <- query (recommendation_of user_id) ;;
  let current_recommended_reps :=
    match recommendation with
    | Some r => WorkoutRecommendation.next_recommended_reps r
    | None => 10
    end in
  ret (UserStats.mk total_workouts total_exercises active
                    current_recommended_reps).

(** ** app/routers/workouts.py: the summary of an ended workout *)

Module WorkoutSummary.
Record t := mk {
  assigned_reps : Z;
  completed_reps : Z;
  performance : string;
  next_recommended_reps : Z
}.
End WorkoutSummary.

(** PATCH /api/v1/workouts/{session_id}/end: the [summary] of the
    response.  ([duration_minutes] is a float and is left out.) *)
Definition end_workout_summary (session_id : Z) : Tx WorkoutSummary.t :=
  result <- end_workout_session session_id ;;
  let session := fst result in
  let next_reps := snd result in
  exercise <- query (exercise_of session) ;;
  match exercise with
  | None => raise AttributeError
  | Some e =>
      (* Determine performance *)
      c <- completed_or_TypeError e ;;
      let performance :=
        if c >=? Exercise.assigned_reps e
        then "completed"%string else "incomplete"%string in
      ret (WorkoutSummary.mk (Exercise.assigned_reps e) c performance
                             next_reps)
  end.

(** ** app/routers/recommendations.py *)

Module LastWorkoutInfo.
Record t := mk {
  session_id : Z;
  assigned_reps : Z;
  completed_reps : option Z;
  date : Z
}.
End LastWorkoutInfo.

Module RecommendationResponse.
Record t := mk {
  user_id : Z;
  recommended_reps : Z;
  recommendation_reason : string;
  last_workout : option LastWorkoutInfo.t;
  progression : Progression
}.
End RecommendationResponse.

(** GET /api/v1/users/{user_id}/recommendations *)
Definition get_workout_recommendation (user_id : Z)
  : Tx RecommendationResponse.t :=
  recommendation_data <- get_recommendation user_id ;;
  (* Add last workout info if available *)
  last_workout <-
    match last_session recommendation_data with
    | Some s =>
        exercise <- query (exercise_of s) ;;
        match exercise with
        | None => raise AttributeError
        | Some e =>
            ret (Some (LastWorkoutInfo.mk
                         (WorkoutSession.id s)
                         (Exercise.assigned_reps e)
                         (Exercise.completed_reps e)
                         (* last_session.ended_at or last_session.started_at *)
                         match WorkoutSession.ended_at s with
                         | Some t => t
                         | None => WorkoutSession.started_at s
                         end))
        end
    | None => ret None
    end ;;
  ret (RecommendationResponse.mk user_id
         (recommended_reps recommendation_data)
         (reason recommendation_data)
         last_workout
         (progression recommendation_data)).

(** ** The writes, one by one *)

(** The four ways a request changes the committed database, each with
    the checks the code makes before it writes. *)
Inductive transition (env : Env) (db : Database) : Database -> Prop :=
| transition_create_user name email :
    UserCreate_errors name email = [] ->
    email_taken (email_value email) db = false ->
    transition env db
      (mkDatabase
         (users db ++ [User.mk (next_id User.id (users db)) name
                               (email_value email) (utcnow env)])
         (workout_sessions db) (exercises db) (workout_recommendations db))
| transition_start u a n usr :
    WorkoutSessionCreate_errors a n = [] ->
    user_by_id u db = Some usr ->
    active_sessions u db = [] ->
    transition env db
      (mkDatabase (users db)
         (workout_sessions db
          ++ [WorkoutSession.mk
                (next_id WorkoutSession.id (workout_sessions db))
                u (utcnow env) None true])
         (exercises db
          ++ [Exercise.mk (next_id Exercise.id (exercises db))
                (next_id WorkoutSession.id (workout_sessions db))
                (or_default n) a None (utcnow env)])
         (workout_recommendations db))
| transition_log sid c s e :
    ExerciseLog_errors c = [] ->
    session_by_id sid db = Some s ->
    WorkoutSession.is_active s = true ->
    exercise_of s db = Some e ->
    transition env db
      (mkDatabase (users db) (workout_sessions db)
         (update_where
            (fun r => Exercise.id r =? Exercise.id e)
            (fun r => Exercise.mk (Exercise.id r) (Exercise.session_id r)
                        (Exercise.exercise_name r)
                        (Exercise.assigned_reps r) (Some c)
                        (Exercise.created_at r))
            (exercises db))
         (workout_recommendations db))
| transition_end sid s e c :
    session_by_id sid db = Some s ->
    WorkoutSession.is_active s = true ->
    exercise_of s db = Some e ->
    Exercise.completed_reps e = Some c ->
    transition env db
      (mkDatabase (users db)
         (update_where
            (fun r => WorkoutSession.id r =? WorkoutSession.id s)
            (fun r => WorkoutSession.mk (WorkoutSession.id r)
                        (WorkoutSession.user_id r)
                        (WorkoutSession.started_at r)
                        (Some (utcnow env)) false)
            (workout_sessions db))
         (exercises db)
         match recommendation_of (WorkoutSession.user_id s) db with
         | Some r =>
             update_where
               (fun x => WorkoutRecommendation.id x
                         =? WorkoutRecommendation.id r)
               (fun x => WorkoutRecommendation.mk
                           (WorkoutRecommendation.id x)
                           (WorkoutRecommendation.user_id x)
                           (calculate_next_reps (Exercise.assigned_reps e) c)
                           (utcnow env))
               (workout_recommendations db)
         | None =>
             workout_recommendations db
             ++ [WorkoutRecommendation.mk
                   (next_id WorkoutRecommendation.id
                            (workout_recommendations db))
                   (WorkoutSession.user_id s)
                   (calculate_next_reps (Exercise.assigned_reps e) c)
                   (utcnow env)]
         end).

(** ** More invariants of reachable databases *)

(** Primary keys are unique. *)
Definition unique_ids (db : Database) : Prop :=
  NoDup (map User.id (users db))
  /\ NoDup (map WorkoutSession.id (workout_sessions db))
  /\ NoDup (map Exercise.id (exercises db))
  /\ NoDup (map WorkoutRecommendation.id (workout_recommendations db)).

(** The exercises are those of the sessions, one each, in the same
    order. *)
Definition one_exercise_per_session (db : Database) : Prop :=
  map Exercise.session_id (exercises db)
  = map WorkoutSession.id (workout_sessions db).

Definition one_recommendation_per_user (db : Database) : Prop :=
  NoDup (map WorkoutRecommendation.user_id (workout_recommendations db)).

Definition ended_have_recommendation (db : Database) : Prop :=
  forall s, In s (workout_sessions db) ->
    WorkoutSession.is_active s = false ->
    recommendation_of (WorkoutSession.user_id s) db <> None.

Definition sessions_of_users (db : Database) : Prop :=
  forall s, In s (workout_sessions db) ->
    user_by_id (WorkoutSession.user_id s) db <> None.

Definition active_iff_open (db : Database) : Prop :=
  forall s, In s (workout_sessions db) ->
    (WorkoutSession.is_active s = true
     <-> WorkoutSession.ended_at s = None).

(** What the request schemas and the floor of [calculate_next_reps]
    let into the tables. *)
Definition valid_values (db : Database) : Prop :=
  (forall u, In u (users db) ->
     (2 <= String.length (User.name u) <= 100)%nat)
  /\ (forall e, In e (exercises db) ->
        0 < Exercise.assigned_reps e
        /\ forall c, Exercise.completed_reps e = Some c -> 0 <= c)
  /\ (forall r, In r (workout_recommendations db) ->
        1 <= WorkoutRecommendation.next_recommended_reps r).

(** The emails in the table. *)
Definition emails (db : Database) : list string :=
  flat_map (fun u => match User.email u with
                     | Some e => [e]
                     | None => []
                     end) (users db).

Definition unique_emails (db : Database) : Prop := NoDup (emails db).

Definition consistent (db : Database) : Prop :=
  unique_ids db
  /\ one_exercise_per_session db
  /\ one_recommendation_per_user db
  /\ ended_have_recommendation db
  /\ sessions_of_users db
  /\ active_iff_open db
  /\ valid_values db
  /\ unique_emails db.

(** ** The unit of work, call by call *)

(** The two operations that write more than one row, with every call
    that sends writes to the store as a point of failure of its own.
    [db.flush()] sends the pending rows inside the open transaction;
    [db.commit()] flushes what is still pending and then commits.  The
    store answers each of these calls in turn: it accepts the call, or
    refuses it, and then the call raises and the transaction is rolled
    back.  Reads are answered.  [published] lists every database the
    request has made visible to other connections, in order. *)
Module Traced.

Record Transaction := mkTransaction {
  visible : Database;
  working : Database;
  published : list Database;
  answers : list bool
}.

Definition Steps (A : Type) : Type :=
  Z -> Transaction -> Result A * Transaction.

Definition ret {A} (a : A) : Steps A := fun _ st => (Ok a, st).

Definition bind {A B} (m : Steps A) (k : A -> Steps B) : Steps B :=
  fun t st =>
    match m t st with
    | (Ok a, st') => k a t st'
    | (Raise e, st') => (Raise e, st')
    end.

Definition raise {A} (e : Exception) : Steps A := fun _ st => (Raise e, st).

Declare Scope steps_scope.
Delimit Scope steps_scope with steps.
Notation "x <- m ;; k" := (bind m (fun x => k))
  (at level 61, m at next level, right associativity) : steps_scope.
Notation "m ;; k" := (bind m (fun _ => k))
  (at level 61, right associativity) : steps_scope.
Open Scope steps_scope.

Definition query {A} (f : Database -> A) : Steps A :=
  fun _ st => (Ok (f (working st)), st).

Definition write (f : Database -> Database) : Steps unit :=
  fun _ st =>
    (Ok tt, mkTransaction (visible st) (f (working st)) (published st)
              (answers st)).

Definition now : Steps Z := fun t st => (Ok t, st).

(** One call answered by the store: [true] accepts it, [false] refuses
    it and the transaction is rolled back.  A call beyond the recorded
    answers is accepted. *)
Definition store_call : Steps unit :=
  fun _ st =>
    match answers st with
    | [] => (Ok tt, st)
    | true :: rest =>
        (Ok tt, mkTransaction (visible st) (working st) (published st) rest)
    | false :: rest =>
        (Raise OperationalError,
         mkTransaction (visible st) (visible st) (published st) rest)
    end.

(** [db.flush()] *)
Definition flush : Steps unit := store_call.

(** [db.commit()]: flush, then COMMIT; once the store has accepted that,
    the transaction's view is what everyone reads. *)
Definition commit : Steps unit :=
  flush ;;
  store_call ;;
  fun _ st =>
    (Ok tt, mkTransaction (working st) (working st)
              (published st ++ [working st]) (answers st)).

(** A query issued while rows are pending: a session configured with
    [autoflush] flushes first.  The session factory is not among the
    sources, so the setting is a parameter. *)
Definition query_pending {A} (autoflush : bool) (f : Database -> A)
  : Steps A :=
  (if autoflush then flush else ret tt) ;;
  query f.

Definition refresh {A} (lookup : Database -> option A) : Steps A :=
  row <- query lookup ;;
  match row with
  | Some r => ret r
  | None => raise OperationalError
  end.

Definition validate (errors : list string) : Steps unit :=
  match errors with
  | [] => ret tt
  | _ => raise (RequestValidationError errors)
  end.

Definition get_user (user_id : Z) : Steps User.t :=
  user <- query (user_by_id user_id) ;;
  match user with
  | None => raise (UserNotFoundException user_id)
  | Some u => ret u
  end.

Definition create_workout_session
  (user_id assigned_reps : Z) (exercise_name : string)
  : Steps WorkoutSession.t :=
  (* Verify user exists *)
  _ <- get_user user_id ;;
  (* Check for active session *)
  active_session <- query (fun db => hd_error (active_sessions user_id db)) ;;
  match active_session with
  | Some a =>
      raise (ActiveSessionExistsException user_id (WorkoutSession.id a))
  | None =>
      (* Create session *)
      t <- now ;;
      sid <- query (fun db => next_id WorkoutSession.id (workout_sessions db)) ;;
      write (set_workout_sessions
               (fun l => l ++ [WorkoutSession.mk sid user_id t None true])) ;;
      (* Get session ID without committing *)
      flush ;;
      (* Create exercise *)
      eid <- query (fun db => next_id Exercise.id (exercises db)) ;;
      write (set_exercises
               (fun l => l ++ [Exercise.mk eid sid exercise_name
                                           assigned_reps None t])) ;;
      commit ;;
      refresh (session_by_id sid)
  end.

Definition get_workout_session (session_id : Z) : Steps WorkoutSession.t :=
  session <- query (session_by_id session_id) ;;
  match session with
  | None => raise (WorkoutSessionNotFoundException session_id)
  | Some s => ret s
  end.

Definition end_workout_session (autoflush : bool) (session_id : Z)
  : Steps (WorkoutSession.t * Z) :=
  session <- get_workout_session session_id ;;
  if negb (WorkoutSession.is_active session)
  then raise (SessionNotActiveException session_id)
  else
    (* Check if exercise was logged *)
    exercise <- query (exercise_of session) ;;
    match exercise with
    | None => raise AttributeError
    | Some e =>
        match Exercise.completed_reps e with
        | None => raise (ExerciseNotLoggedException session_id)
        | Some completed =>
            (* End session *)
            t <- now ;;
            write (set_workout_sessions
                     (update_where
                        (fun r => WorkoutSession.id r
                                  =? WorkoutSession.id session)
                        (fun r => WorkoutSession.mk
                                    (WorkoutSession.id r)
                                    (WorkoutSession.user_id r)
                                    (WorkoutSession.started_at r)
                                    (Some t) false))) ;;
            (* Calculate next recommendation *)
            let next_reps :=
              calculate_next_reps (Exercise.assigned_reps e) completed in
            (* Update or create recommendation *)
            recommendation <-
              query_pending autoflush
                (recommendation_of (WorkoutSession.user_id session)) ;;
            match recommendation with
            | Some r =>
                write (set_workout_recommendations
                         (update_where
                            (fun x => WorkoutRecommendation.id x
                                      =? WorkoutRecommendation.id r)
                            (fun x => WorkoutRecommendation.mk
                                        (WorkoutRecommendation.id x)
                                        (WorkoutRecommendation.user_id x)
                                        next_reps t)))
            | None =>
                rid <- query (fun db =>
                         next_id WorkoutRecommendation.id
                                 (workout_recommendations db)) ;;
                write (set_workout_recommendations
                         (fun l => l ++ [WorkoutRecommendation.mk
                                           rid
                                           (WorkoutSession.user_id session)
                                           next_reps t]))
            end ;;
            commit ;;
            session' <- refresh (session_by_id session_id) ;;
            ret (session', next_reps)
        end
    end.

(** POST /api/v1/users/{user_id}/workouts *)
Definition start_workout
  (user_id assigned_reps : Z) (exercise_name : option string)
  : Steps WorkoutSession.t :=
  validate (WorkoutSessionCreate_errors assigned_reps exercise_name) ;;
  create_workout_session user_id assigned_reps (or_default exercise_name).

(** PATCH /api/v1/workouts/{session_id}/end *)
Definition end_workout (autoflush : bool) (session_id : Z)
  : Steps (WorkoutSession.t * Z) :=
  end_workout_session autoflush session_id.



Close Scope steps_scope.

End Traced.



(** * Properties *)

(** ** Lists as tables *)

Section Tables.
Context {A : Type}.

Lemma next_id_above (id : A -> Z) (rows : list A) (r : A) :
  In r rows -> id r < next_id id rows.
Proof.
  unfold next_id. induction rows as [|x rows IH]; cbn [fold_right In].
  - tauto.
  - intros [->|Hin]; [lia|]. specialize (IH Hin). lia.
Qed.

Lemma find_fresh (id : A -> Z) (rows : list A) :
  find (fun r => id r =? next_id id rows) rows = None.
Proof.
  destruct (find _ rows) as [r|] eqn:Hf; [|reflexivity].
  apply find_some in Hf. destruct Hf as [Hin Heq].
  apply next_id_above with (id := id) in Hin.
  apply Z.eqb_eq in Heq. lia.
Qed.

Lemma find_snoc (p : A -> bool) (rows : list A) (x : A) :
  find p (rows ++ [x]) =
  match find p rows with
  | Some r => Some r
  | None => if p x then Some x else None
  end.
Proof.
  induction rows as [|r rows IH]; simpl; [reflexivity|].
  destruct (p r); [reflexivity|exact IH].
Qed.

Lemma find_update_where (q p : A -> bool) (f : A -> A) (rows : list A)
      (r0 : A) :
  (forall r, q (f r) = q r) ->
  find q rows = Some r0 ->
  p r0 = true ->
  find q (update_where p f rows) = Some (f r0).
Proof.
  intros Hq. induction rows as [|r rows IH]; simpl; [discriminate|].
  intros Hf Hp. destruct (q r) eqn:Hqr.
  - injection Hf as ->. rewrite Hp, Hq, Hqr. reflexivity.
  - destruct (p r); [rewrite Hq|]; rewrite Hqr; auto.
Qed.

Lemma filter_snoc (p : A -> bool) (rows : list A) (x : A) :
  filter p (rows ++ [x]) = filter p rows ++ (if p x then [x] else []).
Proof. rewrite filter_app. reflexivity. Qed.

Lemma hd_error_nil (rows : list A) : hd_error rows = None -> rows = [].
Proof. destruct rows; [reflexivity|discriminate]. Qed.

Lemma first_by_none (before : A -> A -> bool) (rows : list A) :
  first_by before rows = None <-> rows = [].
Proof.
  split; [|intros ->; reflexivity].
  destruct rows as [|r rows]; [reflexivity|]. simpl.
  destruct (first_by before rows) as [r'|]; [|discriminate].
  destruct (before r' r); discriminate.
Qed.

Lemma first_by_in (before : A -> A -> bool) (rows : list A) (m : A) :
  first_by before rows = Some m -> In m rows.
Proof.
  revert m. induction rows as [|r rows IH]; simpl; [discriminate|].
  intros m. destruct (first_by before rows) as [r'|].
  - destruct (before r' r); intros [= <-]; auto.
  - intros [= <-]; auto.
Qed.

(** When rows are ordered by a key, the first row has the least key. *)
Lemma first_by_least (key : A -> Z) (rows : list A) (m : A) :
  first_by (fun a b => key a <? key b) rows = Some m ->
  forall r, In r rows -> key m <= key r.
Proof.
  revert m. induction rows as [|x rows IH]; simpl; [discriminate|].
  intros m. destruct (first_by _ rows) as [r'|] eqn:Hrest.
  - specialize (IH r' eq_refl).
    destruct (key r' <? key x) eqn:Hlt; intros [= <-] r [<-|Hin];
      try (specialize (IH r Hin)); lia.
  - apply first_by_none in Hrest. subst rows.
    intros [= <-] r [<-|[]]. lia.
Qed.
End Tables.

(** Descending order on a nullable column, through an integer key. *)
Lemma first_by_greatest_nullable {A} (key : A -> option Z) (rows : list A)
      (m : A) :
  first_by (fun a b => nullable_ltb (key b) (key a)) rows = Some m ->
  forall r, In r rows -> nullable_ltb (key m) (key r) = false.
Proof.
  revert m. induction rows as [|x rows IH]; simpl; [discriminate|].
  intros m. destruct (first_by _ rows) as [r'|] eqn:Hrest.
  - specialize (IH r' eq_refl).
    destruct (nullable_ltb (key x) (key r')) eqn:Hlt; intros [= <-] r [<-|Hin];
      try (specialize (IH r Hin)); unfold nullable_ltb in *;
      repeat match goal with
             | |- context [match ?o with _ => _ end] => destruct o
             | H : context [match ?o with _ => _ end] |- _ => destruct o
             end; try reflexivity; try discriminate; lia.
  - apply first_by_none in Hrest. subst rows.
    intros [= <-] r [<-|[]]. unfold nullable_ltb.
    destruct (key x); [apply Z.ltb_irrefl|reflexivity].
Qed.

(** ** What each operation does to the committed database *)

Ltac tx_unfold :=
  unfold request, validate, refresh, get_user, get_workout_session,
    bind, query, write, now, commit, ret, raise; cbn [pending committed].

Ltac tx_case c := destruct c eqn:?; cbn [pending committed]; try reflexivity.

Ltac tx_cases :=
  repeat (cbn [pending committed fst snd];
          match goal with
          | |- context [match ?x with _ => _ end] =>
              lazymatch x with
              | context [match _ with _ => _ end] => fail
              | _ => destruct x eqn:?
              end
          end);
  cbn [pending committed fst snd]; try reflexivity.

Lemma start_workout_run env db u a n :
  request (start_workout u a n) env db =
  match WorkoutSessionCreate_errors a n with
  | (_ :: _) as errors => (Raise (RequestValidationError errors), db)
  | [] =>
    match user_by_id u db with
    | None => (Raise (UserNotFoundException u), db)
    | Some _ =>
      match hd_error (active_sessions u db) with
      | Some s =>
          (Raise (ActiveSessionExistsException u (WorkoutSession.id s)), db)
      | None =>
          if commit_succeeds env then
            let sid := next_id WorkoutSession.id (workout_sessions db) in
            let s := WorkoutSession.mk sid u (utcnow env) None true in
            let e := Exercise.mk (next_id Exercise.id (exercises db)) sid
                       (or_default n) a None (utcnow env) in
            (Ok s, mkDatabase (users db) (workout_sessions db ++ [s])
                     (exercises db ++ [e]) (workout_recommendations db))
          else (Raise OperationalError, db)
      end
    end
  end.
Proof.
  unfold start_workout, create_workout_session. tx_unfold.
  tx_case (WorkoutSessionCreate_errors a n).
  tx_case (user_by_id u db).
  tx_case (hd_error (active_sessions u db)).
  tx_case (commit_succeeds env).
  unfold session_by_id. cbn.
  rewrite find_snoc, find_fresh. cbn. rewrite Z.eqb_refl. reflexivity.
Qed.


Lemma session_by_id_id sid db s :
  session_by_id sid db = Some s -> WorkoutSession.id s = sid.
Proof.
  unfold session_by_id. intros H. apply find_some in H.
  apply Z.eqb_eq. exact (proj2 H).
Qed.

Lemma session_by_id_in sid db s :
  session_by_id sid db = Some s -> In s (workout_sessions db).
Proof.
  unfold session_by_id. intros H. apply find_some in H. exact (proj1 H).
Qed.

Lemma end_workout_session_run env db sid :
  request (end_workout_session sid) env db =
  match session_by_id sid db with
  | None => (Raise (WorkoutSessionNotFoundException sid), db)
  | Some s =>
    if negb (WorkoutSession.is_active s)
    then (Raise (SessionNotActiveException sid), db)
    else
      match exercise_of s db with
      | None => (Raise AttributeError, db)
      | Some e =>
        match Exercise.completed_reps e with
        | None => (Raise (ExerciseNotLoggedException sid), db)
        | Some c =>
          if commit_succeeds env then
            let t := utcnow env in
            let next := calculate_next_reps (Exercise.assigned_reps e) c in
            let close r :=
              WorkoutSession.mk (WorkoutSession.id r)
                (WorkoutSession.user_id r) (WorkoutSession.started_at r)
                (Some t) false in
            (Ok (close s, next),
             mkDatabase (users db)
               (update_where
                  (fun r => WorkoutSession.id r =? WorkoutSession.id s)
                  close (workout_sessions db))
               (exercises db)
               match recommendation_of (WorkoutSession.user_id s) db with
               | Some r =>
                   update_where
                     (fun x => WorkoutRecommendation.id x
                               =? WorkoutRecommendation.id r)
                     (fun x => WorkoutRecommendation.mk
                                 (WorkoutRecommendation.id x)
                                 (WorkoutRecommendation.user_id x) next t)
                     (workout_recommendations db)
               | None =>
                   workout_recommendations db
                   ++ [WorkoutRecommendation.mk
                         (next_id WorkoutRecommendation.id
                                  (workout_recommendations db))
                         (WorkoutSession.user_id s) next t]
               end)
          else (Raise OperationalError, db)
        end
      end
  end.
Proof.
  unfold end_workout_session. tx_unfold.
  tx_case (session_by_id sid db).
  tx_case (negb (WorkoutSession.is_active t)).
  tx_case (exercise_of t db).
  tx_case (Exercise.completed_reps t0).
  assert (Hfind : forall recs,
    session_by_id sid
      (mkDatabase (users db)
         (update_where
            (fun r => WorkoutSession.id r =? WorkoutSession.id t)
            (fun r => WorkoutSession.mk (WorkoutSession.id r)
                        (WorkoutSession.user_id r)
                        (WorkoutSession.started_at r)
                        (Some (utcnow env)) false)
            (workout_sessions db))
         (exercises db) recs)
    = Some (WorkoutSession.mk (WorkoutSession.id t)
              (WorkoutSession.user_id t) (WorkoutSession.started_at t)
              (Some (utcnow env)) false)).
  { intros recs. unfold session_by_id in *. cbn [workout_sessions].
    apply find_update_where with (f := fun r => _);
      [reflexivity|assumption|apply Z.eqb_refl]. }
  unfold recommendation_of in *. cbn [workout_recommendations set_workout_sessions].
  tx_case (find (fun r => WorkoutRecommendation.user_id r
                          =? WorkoutSession.user_id t)
                (workout_recommendations db));
    tx_case (commit_succeeds env);
    unfold set_workout_recommendations, set_workout_sessions;
    cbn [users workout_sessions exercises workout_recommendations];
    rewrite Hfind; reflexivity.
Qed.

Lemma log_exercise_result_run env db sid c :
  request (log_exercise_result sid c) env db =
  match ExerciseLog_errors c with
  | (_ :: _) as errors => (Raise (RequestValidationError errors), db)
  | [] =>
    match session_by_id sid db with
    | None => (Raise (WorkoutSessionNotFoundException sid), db)
    | Some s =>
      if negb (WorkoutSession.is_active s)
      then (Raise (SessionNotActiveException sid), db)
      else
        match exercise_of s db with
        | None => (Raise AttributeError, db)
        | Some e =>
          if commit_succeeds env then
            (Ok s,
             mkDatabase (users db) (workout_sessions db)
               (update_where
                  (fun r => Exercise.id r =? Exercise.id e)
                  (fun r => Exercise.mk (Exercise.id r)
                              (Exercise.session_id r)
                              (Exercise.exercise_name r)
                              (Exercise.assigned_reps r) (Some c)
                              (Exercise.created_at r))
                  (exercises db))
               (workout_recommendations db))
          else (Raise OperationalError, db)
        end
    end
  end.
Proof.
  unfold log_exercise_result, log_exercise. tx_unfold.
  tx_case (ExerciseLog_errors c).
  tx_case (session_by_id sid db).
  tx_case (negb (WorkoutSession.is_active t)).
  tx_case (exercise_of t db).
  tx_case (commit_succeeds env).
  unfold set_exercises, session_by_id in *. cbn [workout_sessions].
  match goal with H : find _ _ = Some _ |- _ => rewrite H end.
  reflexivity.
Qed.

Lemma create_user_run env db name email :
  request (validate (UserCreate_errors name email) ;;
           create_user name (email_value email)) env db =
  match UserCreate_errors name email with
  | (_ :: _) as errors => (Raise (RequestValidationError errors), db)
  | [] =>
    if email_taken (email_value email) db then (Raise IntegrityError, db)
    else if commit_succeeds env then
      let u := User.mk (next_id User.id (users db)) name
                       (email_value email) (utcnow env) in
      (Ok u, mkDatabase (users db ++ [u]) (workout_sessions db)
               (exercises db) (workout_recommendations db))
    else (Raise OperationalError, db)
  end.
Proof.
  unfold create_user. tx_unfold.
  tx_case (UserCreate_errors name email).
  tx_case (email_taken (email_value email) db).
  tx_case (commit_succeeds env).
  unfold set_users, user_by_id. cbn [users].
  rewrite find_snoc, find_fresh. cbn [User.id]. rewrite Z.eqb_refl.
  reflexivity.
Qed.

(** Reading a recommendation writes nothing. *)
Lemma get_recommendation_reads env db u :
  snd (request (get_recommendation u) env db) = db.
Proof.
  unfold get_recommendation, completed_or_TypeError. tx_unfold.
  tx_cases.
Qed.

Lemma get_recommendation_run env db u :
  request (get_recommendation u) env db =
  match user_by_id u db with
  | None => (Raise (UserNotFoundException u), db)
  | Some _ =>
    let last := last_ended_session u db in
    let increase recommended :=
      match match first_ended_session u db with
            | Some s => exercise_of s db
            | None => None
            end with
      | Some e => recommended - Exercise.assigned_reps e
      | None => 0
      end in
    let count := Z.of_nat (List.length (ended_sessions u db)) in
    match match last with
          | Some s => exercise_of s db
          | None => None
          end with
    | Some e =>
      match Exercise.completed_reps e with
      | None => (Raise TypeError, db)
      | Some c =>
        let recommended :=
          match recommendation_of u db with
          | Some r => WorkoutRecommendation.next_recommended_reps r
          | None => calculate_next_reps (Exercise.assigned_reps e) c
          end in
        (Ok (mkRecommendationData recommended
               (if c >=? Exercise.assigned_reps e
                then "Completed all reps in last session"%string
                else "Did not complete all reps in last session"%string)
               last
               (mkProgression
                  (if c >=? Exercise.assigned_reps e
                   then "improving"%string else "adjusting"%string)
                  (increase recommended) count)), db)
      end
    | None =>
      let recommended :=
        match recommendation_of u db with
        | Some r => WorkoutRecommendation.next_recommended_reps r
        | None => 10
        end in
      (Ok (mkRecommendationData recommended
             "Starting recommendation"%string last
             (mkProgression "new"%string (increase recommended) count)), db)
    end
  end.
Proof.
  unfold get_recommendation, completed_or_TypeError. tx_unfold.
  tx_cases.
Qed.

(** ** The recommendation rule *)

(** C1.  For assigned reps [a > 0] and completed reps [c >= 0],
    [calculate_next_reps a c] is [max 1 (if c >= a then a + 2 else a - 1)]:
    it is [a + 2] when the target was met, [a - 1] floored at 1 when it
    was not, and never below 1. *)
Theorem calculate_next_reps_spec (a c : Z) :
  0 < a -> 0 <= c ->
  calculate_next_reps a c = Z.max 1 (if c >=? a then a + 2 else a - 1)
  /\ (a <= c -> calculate_next_reps a c = a + 2)
  /\ (c < a -> calculate_next_reps a c = Z.max 1 (a - 1))
  /\ 1 <= calculate_next_reps a c.
Proof.
  intros Ha Hc. unfold calculate_next_reps.
  destruct (Z.geb_spec c a) as [Hge|Hlt].
  - repeat split; intros; lia.
  - repeat split; intros; lia.
Qed.

Lemma calculate_next_reps_spec_witness :
  0 < 1 /\ 0 <= 0 /\ calculate_next_reps 1 0 = 1.
Proof.
  split; [reflexivity|]. split; [discriminate|].
  destruct (calculate_next_reps_spec 1 0) as [H _];
    [reflexivity|discriminate|exact H].
Defined.

(** The scenarios of the specification. *)
Example next_reps_all_done : calculate_next_reps 10 10 = 12.
Proof. reflexivity. Qed.

Example next_reps_short : calculate_next_reps 10 5 = 9.
Proof. reflexivity. Qed.

Example next_reps_floor : calculate_next_reps 1 0 = 1.
Proof. reflexivity. Qed.

(** ** Ending a session *)

(** C3.  [end_workout_session] raises [WorkoutSessionNotFoundException]
    when no session has the id, [SessionNotActiveException] when the
    session is not active, and [ExerciseNotLoggedException] when it is
    active and its exercise has no completed reps, whatever the clock
    says.  When the session is active and logged (and the store commits),
    it returns the session with [ended_at] set to the current time and
    [is_active] false, as the database now has it, together with the next
    recommended reps; and it succeeds in no other case.  The first error
    is reported as 404 Not Found, the other two as 409 Conflict. *)
Theorem end_workout_session_outcomes env db sid :
  let out := request (end_workout_session sid) env db in
  (session_by_id sid db = None ->
   out = (Raise (WorkoutSessionNotFoundException sid), db))
  /\ (forall s, session_by_id sid db = Some s ->
        WorkoutSession.is_active s = false ->
        out = (Raise (SessionNotActiveException sid), db))
  /\ (forall s e, session_by_id sid db = Some s ->
        WorkoutSession.is_active s = true ->
        exercise_of s db = Some e ->
        Exercise.completed_reps e = None ->
        out = (Raise (ExerciseNotLoggedException sid), db))
  /\ (forall s e c, session_by_id sid db = Some s ->
        WorkoutSession.is_active s = true ->
        exercise_of s db = Some e ->
        Exercise.completed_reps e = Some c ->
        commit_succeeds env = true ->
        exists s' db',
          out = (Ok (s', calculate_next_reps (Exercise.assigned_reps e) c),
                 db')
          /\ session_by_id sid db' = Some s'
          /\ WorkoutSession.id s' = sid
          /\ WorkoutSession.user_id s' = WorkoutSession.user_id s
          /\ WorkoutSession.started_at s' = WorkoutSession.started_at s
          /\ WorkoutSession.ended_at s' = Some (utcnow env)
          /\ WorkoutSession.is_active s' = false)
  /\ (forall r db', out = (Ok r, db') ->
        exists s e c,
          session_by_id sid db = Some s
          /\ WorkoutSession.is_active s = true
          /\ exercise_of s db = Some e
          /\ Exercise.completed_reps e = Some c)
  /\ status_code (WorkoutSessionNotFoundException sid) = 404
  /\ status_code (SessionNotActiveException sid) = 409
  /\ error_code (SessionNotActiveException sid)
     = "SESSION_NOT_ACTIVE"%string
  /\ status_code (ExerciseNotLoggedException sid) = 409
  /\ error_code (ExerciseNotLoggedException sid)
     = "EXERCISE_NOT_LOGGED"%string.
Proof.
  intros out. subst out. rewrite end_workout_session_run.
  split; [|split; [|split; [|split; [|split; [|repeat split]]]]].
  - intros ->. reflexivity.
  - intros s -> ->. reflexivity.
  - intros s e -> -> -> ->. reflexivity.
  - intros s e c Hs Ha He Hc Hcommit.
    rewrite Hs, Ha, He, Hc, Hcommit. cbn [negb].
    eexists. eexists. split; [reflexivity|].
    cbn [WorkoutSession.id WorkoutSession.user_id WorkoutSession.started_at
         WorkoutSession.ended_at WorkoutSession.is_active].
    split; [|split; [exact (session_by_id_id _ _ _ Hs)|repeat split]].
    unfold session_by_id in *. cbn [workout_sessions].
    apply find_update_where with (f := fun r => _);
      [reflexivity|exact Hs|apply Z.eqb_refl].
  - intros r db'.
    destruct (session_by_id sid db) as [s|] eqn:Hs; [|discriminate].
    destruct (WorkoutSession.is_active s) eqn:Ha; [|discriminate].
    cbn [negb].
    destruct (exercise_of s db) as [e|] eqn:He; [|discriminate].
    destruct (Exercise.completed_reps e) as [c|] eqn:Hc; [|discriminate].
    intros _. exists s, e, c. repeat split; assumption.
Qed.

(** ** Starting a session *)

Lemma WorkoutSessionCreate_accepts a n :
  0 < a ->
  (forall x, n = Some x -> (String.length x <= 100)%nat) ->
  WorkoutSessionCreate_errors a n = [].
Proof.
  intros Ha Hn. unfold WorkoutSessionCreate_errors.
  destruct (Z.gtb_spec a 0); [|lia]. cbn [app].
  destruct n as [x|]; [|reflexivity].
  specialize (Hn x eq_refl). apply Nat.leb_le in Hn. rewrite Hn.
  reflexivity.
Qed.

Lemma active_sessions_hd u db s :
  hd_error (active_sessions u db) = Some s ->
  In s (workout_sessions db)
  /\ WorkoutSession.user_id s = u
  /\ WorkoutSession.is_active s = true.
Proof.
  intros H. assert (Hin : In s (active_sessions u db)).
  { destruct (active_sessions u db); [discriminate|].
    injection H as ->. left. reflexivity. }
  unfold active_sessions in Hin. apply filter_In in Hin.
  destruct Hin as [Hin Hp]. apply andb_prop in Hp. destruct Hp as [Hu Ha].
  repeat split; [exact Hin|apply Z.eqb_eq, Hu|].
  destruct (WorkoutSession.is_active s); [reflexivity|discriminate].
Qed.

(** C4.  [start_workout] answers a request whose [assigned_reps] is not
    positive with a validation error on that field; a valid request for a
    user that does not exist with [UserNotFoundException]; a valid request
    for a user who has an active session with
    [ActiveSessionExistsException] carrying the id of that session.
    Otherwise (and when the store commits) it appends one session, active
    and not ended, with a fresh id, and one exercise pointing to it with
    the assigned reps and no completed reps.  The three errors are
    reported as 422, 404 Not Found and 409 Conflict. *)
Theorem start_workout_outcomes env db u a n :
  let out := request (start_workout u a n) env db in
  (a <= 0 ->
   exists fields,
     out = (Raise (RequestValidationError fields), db)
     /\ In "body.assigned_reps"%string fields)
  /\ (0 < a ->
      (forall x, n = Some x -> (String.length x <= 100)%nat) ->
      (user_by_id u db = None ->
       out = (Raise (UserNotFoundException u), db))
      /\ (forall active,
            user_by_id u db <> None ->
            hd_error (active_sessions u db) = Some active ->
            out = (Raise (ActiveSessionExistsException u
                            (WorkoutSession.id active)), db)
            /\ In active (workout_sessions db)
            /\ WorkoutSession.user_id active = u
            /\ WorkoutSession.is_active active = true)
      /\ (user_by_id u db <> None ->
          active_sessions u db = [] ->
          commit_succeeds env = true ->
          exists s e db',
            out = (Ok s, db')
            /\ workout_sessions db' = workout_sessions db ++ [s]
            /\ exercises db' = exercises db ++ [e]
            /\ users db' = users db
            /\ workout_recommendations db' = workout_recommendations db
            /\ (forall s0, In s0 (workout_sessions db) ->
                  WorkoutSession.id s0 < WorkoutSession.id s)
            /\ WorkoutSession.user_id s = u
            /\ WorkoutSession.is_active s = true
            /\ WorkoutSession.started_at s = utcnow env
            /\ WorkoutSession.ended_at s = None
            /\ Exercise.session_id e = WorkoutSession.id s
            /\ Exercise.assigned_reps e = a
            /\ Exercise.exercise_name e = or_default n
            /\ Exercise.completed_reps e = None
            /\ session_by_id (WorkoutSession.id s) db' = Some s
            /\ (exercises_bounded db -> exercise_of s db' = Some e)))
  /\ (forall fields active_session_id,
        status_code (RequestValidationError fields) = 422
        /\ status_code (UserNotFoundException u) = 404
        /\ status_code (ActiveSessionExistsException u active_session_id)
           = 409
        /\ error_code (ActiveSessionExistsException u active_session_id)
           = "ACTIVE_SESSION_EXISTS"%string).
Proof.
  intros out. subst out. rewrite start_workout_run.
  split; [|split; [|repeat split]].
  - intros Ha. unfold WorkoutSessionCreate_errors.
    destruct (Z.gtb_spec a 0); [lia|]. cbn [app].
    eexists. split; [reflexivity|]. left. reflexivity.
  - intros Ha Hn. rewrite (WorkoutSessionCreate_accepts a n Ha Hn).
    split; [|split].
    + intros ->. reflexivity.
    + intros active Hu Hactive.
      destruct (user_by_id u db); [|congruence]. rewrite Hactive.
      split; [reflexivity|]. apply active_sessions_hd. exact Hactive.
    + intros Hu Hnone Hcommit.
      destruct (user_by_id u db); [|congruence].
      rewrite Hnone, Hcommit. cbn [hd_error].
      eexists. eexists. eexists. split; [reflexivity|].
      cbn [users workout_sessions exercises workout_recommendations
           WorkoutSession.id WorkoutSession.user_id
           WorkoutSession.started_at WorkoutSession.ended_at
           WorkoutSession.is_active Exercise.session_id
           Exercise.assigned_reps Exercise.exercise_name
           Exercise.completed_reps].
      repeat (split; [reflexivity|]).
      split; [intros s0; apply next_id_above|].
      repeat (split; [reflexivity|]).
      split.
      * unfold session_by_id. cbn [workout_sessions].
        rewrite find_snoc, find_fresh. cbn [WorkoutSession.id].
        rewrite Z.eqb_refl. reflexivity.
      * intros Hb. unfold exercise_of. cbn [exercises WorkoutSession.id].
        rewrite find_snoc. cbn [Exercise.session_id]. rewrite Z.eqb_refl.
        destruct (find _ (exercises db)) as [e0|] eqn:He0; [|reflexivity].
        apply find_some in He0. destruct He0 as [Hin Heq].
        apply Hb in Hin. apply Z.eqb_eq in Heq. lia.
Qed.

(** ** One active session per user *)

Lemma filter_update_where_le {A} (p q : A -> bool) (f : A -> A)
      (rows : list A) :
  (forall r, p (f r) = true -> p r = true) ->
  (List.length (filter p (update_where q f rows))
   <= List.length (filter p rows))%nat.
Proof.
  intros Hp. induction rows as [|r rows IH]; simpl; [lia|].
  destruct (q r).
  - destruct (p (f r)) eqn:Hf.
    + rewrite (Hp r Hf). simpl. lia.
    + destruct (p r); simpl; lia.
  - destruct (p r); simpl; lia.
Qed.

Lemma handle_single_active env db r :
  single_active db -> single_active (handle env db r).
Proof.
  intros Hinv. destruct r as [name email|u a n|sid c|sid|u];
    cbn [handle].
  - rewrite create_user_run.
    destruct (UserCreate_errors name email); [|exact Hinv].
    destruct (email_taken (email_value email) db); [exact Hinv|].
    destruct (commit_succeeds env); exact Hinv.
  - rewrite start_workout_run.
    destruct (WorkoutSessionCreate_errors a n); [|exact Hinv].
    destruct (user_by_id u db); [|exact Hinv].
    destruct (hd_error (active_sessions u db)) eqn:Hactive; [exact Hinv|].
    destruct (commit_succeeds env); [|exact Hinv].
    apply hd_error_nil in Hactive. cbn [snd]. intros u'.
    unfold single_active, active_sessions in *. cbn [workout_sessions].
    rewrite filter_snoc, length_app. cbn [WorkoutSession.user_id].
    destruct (Z.eqb_spec u u') as [<-|Hne].
    + rewrite Hactive. cbn. lia.
    + cbn. specialize (Hinv u'). lia.
  - rewrite log_exercise_result_run.
    destruct (ExerciseLog_errors c); [|exact Hinv].
    destruct (session_by_id sid db) as [s|]; [|exact Hinv].
    destruct (negb (WorkoutSession.is_active s)); [exact Hinv|].
    destruct (exercise_of s db); [|exact Hinv].
    destruct (commit_succeeds env); exact Hinv.
  - unfold end_workout. rewrite end_workout_session_run.
    destruct (session_by_id sid db) as [s|]; [|exact Hinv].
    destruct (negb (WorkoutSession.is_active s)); [exact Hinv|].
    destruct (exercise_of s db) as [e|]; [|exact Hinv].
    destruct (Exercise.completed_reps e); [|exact Hinv].
    destruct (commit_succeeds env); [|exact Hinv].
    cbn [snd]. intros u'. unfold active_sessions. cbn [workout_sessions].
    eapply Nat.le_trans; [|exact (Hinv u')].
    apply filter_update_where_le.
    intros r. cbn [WorkoutSession.is_active WorkoutSession.user_id].
    rewrite andb_false_r. discriminate.
  - rewrite get_recommendation_reads. exact Hinv.
Qed.

(** C5.  The empty database has no active session, every request (create
    user, start session, log exercise, end session, get recommendation)
    takes a committed database with at most one active session per user
    to one with the same property, and so in every reachable database two
    active sessions of one user are the same row. *)
Theorem single_active_invariant :
  single_active empty_db
  /\ (forall env db r,
        single_active db -> single_active (handle env db r))
  /\ (forall db, reachable db -> single_active db)
  /\ (forall db s1 s2,
        reachable db ->
        In s1 (workout_sessions db) -> In s2 (workout_sessions db) ->
        WorkoutSession.user_id s1 = WorkoutSession.user_id s2 ->
        WorkoutSession.is_active s1 = true ->
        WorkoutSession.is_active s2 = true ->
        s1 = s2).
Proof.
  assert (Hreach : forall db, reachable db -> single_active db).
  { intros db H. induction H as [|env db r _ IH].
    - intros u. cbn. lia.
    - apply handle_single_active. exact IH. }
  split; [intros u; cbn; lia|].
  split; [exact handle_single_active|].
  split; [exact Hreach|].
  intros db s1 s2 Hr H1 H2 Hu Ha1 Ha2.
  specialize (Hreach db Hr (WorkoutSession.user_id s1)).
  assert (Hin : forall s, In s (workout_sessions db) ->
                  WorkoutSession.user_id s = WorkoutSession.user_id s1 ->
                  WorkoutSession.is_active s = true ->
                  In s (active_sessions (WorkoutSession.user_id s1) db)).
  { intros s Hs Hus Has. unfold active_sessions. apply filter_In.
    split; [exact Hs|]. rewrite Hus, Has, Z.eqb_refl. reflexivity. }
  pose proof (Hin s1 H1 eq_refl Ha1) as I1.
  pose proof (Hin s2 H2 (eq_sym Hu) Ha2) as I2.
  destruct (active_sessions (WorkoutSession.user_id s1) db) as [|x [|y l]].
  - destruct I1.
  - destruct I1 as [<-|[]]. destruct I2 as [<-|[]]. reflexivity.
  - cbn in Hreach. lia.
Qed.

(** ** Ending a session and the stored recommendation *)

(** A successful [end_workout_session], spelled out: which rows changed
    and what the recommendation table holds for the user afterwards. *)
Lemma end_workout_session_commits env db sid s' next db' :
  request (end_workout_session sid) env db = (Ok (s', next), db') ->
  exists s e c r,
    session_by_id sid db = Some s
    /\ WorkoutSession.is_active s = true
    /\ exercise_of s db = Some e
    /\ Exercise.completed_reps e = Some c
    /\ commit_succeeds env = true
    /\ next = calculate_next_reps (Exercise.assigned_reps e) c
    /\ s' = WorkoutSession.mk sid (WorkoutSession.user_id s)
              (WorkoutSession.started_at s) (Some (utcnow env)) false
    /\ session_by_id sid db' = Some s'
    /\ recommendation_of (WorkoutSession.user_id s') db' = Some r
    /\ WorkoutRecommendation.next_recommended_reps r = next
    /\ users db' = users db
    /\ exercises db' = exercises db.
Proof.
  rewrite end_workout_session_run.
  destruct (session_by_id sid db) as [s|] eqn:Hs; [|discriminate].
  destruct (WorkoutSession.is_active s) eqn:Ha; [|discriminate].
  cbn [negb].
  destruct (exercise_of s db) as [e|] eqn:He; [|discriminate].
  destruct (Exercise.completed_reps e) as [c|] eqn:Hc; [|discriminate].
  destruct (commit_succeeds env) eqn:Hcommit; [|discriminate].
  cbv zeta. intros [= <- <- <-].
  pose proof (session_by_id_id _ _ _ Hs) as Hid.
  assert (Hrec : exists r,
    find (fun x => WorkoutRecommendation.user_id x
                   =? WorkoutSession.user_id s)
      match recommendation_of (WorkoutSession.user_id s) db with
      | Some r =>
          update_where
            (fun x => WorkoutRecommendation.id x
                      =? WorkoutRecommendation.id r)
            (fun x => WorkoutRecommendation.mk
                        (WorkoutRecommendation.id x)
                        (WorkoutRecommendation.user_id x)
                        (calculate_next_reps (Exercise.assigned_reps e) c)
                        (utcnow env))
            (workout_recommendations db)
      | None =>
          workout_recommendations db
          ++ [WorkoutRecommendation.mk
                (next_id WorkoutRecommendation.id
                         (workout_recommendations db))
                (WorkoutSession.user_id s)
                (calculate_next_reps (Exercise.assigned_reps e) c)
                (utcnow env)]
      end = Some r
    /\ WorkoutRecommendation.next_recommended_reps r
       = calculate_next_reps (Exercise.assigned_reps e) c).
  { unfold recommendation_of.
    destruct (find _ (workout_recommendations db)) as [r0|] eqn:Hr0.
    - eexists. split.
      + apply find_update_where with (f := fun x => _);
          [reflexivity|exact Hr0|apply Z.eqb_refl].
      + reflexivity.
    - eexists. split.
      + rewrite find_snoc, Hr0. cbn [WorkoutRecommendation.user_id].
        rewrite Z.eqb_refl. reflexivity.
      + reflexivity. }
  destruct Hrec as [r [Hr Hnext]].
  exists s, e, c, r.
  do 5 (split; [solve [reflexivity|assumption]|]).
  split; [reflexivity|].
  split; [rewrite Hid; reflexivity|].
  split; [|split; [exact Hr|split; [exact Hnext|split; reflexivity]]].
  unfold session_by_id in *. cbn [workout_sessions].
  apply find_update_where with (f := fun x => _);
    [reflexivity|exact Hs|apply Z.eqb_refl].
Qed.

(** C10.  When [end_workout_session] succeeds, the recommendation row the
    committed database then holds for the session's user carries exactly
    the next recommended reps that were returned. *)
Theorem returned_recommendation_is_stored env db sid s' next db' :
  request (end_workout sid) env db = (Ok (s', next), db') ->
  exists r,
    recommendation_of (WorkoutSession.user_id s') db' = Some r
    /\ WorkoutRecommendation.user_id r = WorkoutSession.user_id s'
    /\ WorkoutRecommendation.next_recommended_reps r = next.
Proof.
  unfold end_workout. intros H.
  apply end_workout_session_commits in H.
  destruct H as (s & e & c & r & _ & _ & _ & _ & _ & _ & _ & _ & Hr & Hn & _).
  exists r. split; [exact Hr|]. split; [|exact Hn].
  unfold recommendation_of in Hr. apply find_some in Hr.
  apply Z.eqb_eq. exact (proj2 Hr).
Qed.

(** ** Sessions of a user follow one another in time *)

Lemma ended_sessions_In u db s :
  In s (ended_sessions u db) <->
  In s (workout_sessions db)
  /\ WorkoutSession.user_id s = u
  /\ WorkoutSession.is_active s = false.
Proof.
  unfold ended_sessions. rewrite filter_In, andb_true_iff, Z.eqb_eq.
  destruct (WorkoutSession.is_active s); cbn; intuition congruence.
Qed.

Lemma In_update_where {A} (p : A -> bool) (f : A -> A) (rows : list A) x :
  In x (update_where p f rows) ->
  exists r, In r rows /\ x = if p r then f r else r.
Proof.
  unfold update_where. rewrite in_map_iff.
  intros (r & Hx & Hin). exists r. split; [exact Hin|symmetry; exact Hx].
Qed.

Lemma stamped_later t t' rows :
  t <= t' -> stamped t rows -> stamped t' rows.
Proof.
  intros Hle Hst s Hin. destruct (Hst s Hin) as [Hstart Hend].
  split; [lia|]. intros Hact. destruct (Hend Hact) as (e & He & Hb).
  exists e. split; [exact He|lia].
Qed.

Lemma unique_id_row rows (r s : WorkoutSession.t) :
  NoDup (map WorkoutSession.id rows) ->
  In r rows -> In s rows ->
  WorkoutSession.id r = WorkoutSession.id s -> r = s.
Proof.
  induction rows as [|x rows IH]; cbn [map In]; [tauto|].
  intros Hnd Hr Hs Hid. inversion Hnd as [|? ? Hnotin Hnd']; subst.
  destruct Hr as [<-|Hr], Hs as [<-|Hs].
  - reflexivity.
  - elim Hnotin. rewrite Hid. apply in_map. exact Hs.
  - elim Hnotin. rewrite <- Hid. apply in_map. exact Hr.
  - apply IH; assumption.
Qed.

Lemma map_id_update_where {A} (id : A -> Z) (p : A -> bool) (f : A -> A)
      (rows : list A) :
  (forall r, id (f r) = id r) ->
  map id (update_where p f rows) = map id rows.
Proof.
  intros Hid. unfold update_where. rewrite map_map. apply map_ext.
  intros r. destruct (p r); [apply Hid|reflexivity].
Qed.

Lemma consecutive_snoc rows s :
  consecutive rows ->
  (forall s1, In s1 rows ->
     WorkoutSession.user_id s1 = WorkoutSession.user_id s ->
     WorkoutSession.is_active s1 = false
     /\ exists e1, WorkoutSession.ended_at s1 = Some e1
                   /\ e1 <= WorkoutSession.started_at s) ->
  consecutive (rows ++ [s]).
Proof.
  induction rows as [|x rows IH]; cbn [consecutive app].
  { intros _ _. split; [intros ? []|exact I]. }
  intros [Hx Hrest] Hnew. split.
  - intros s2 Hin Hu. apply in_app_or in Hin.
    destruct Hin as [Hin|[<-|[]]].
    + apply Hx; assumption.
    + apply Hnew; [left; reflexivity|exact Hu].
  - apply IH; [exact Hrest|]. intros s1 Hin. apply Hnew. right. exact Hin.
Qed.

Lemma consecutive_close rows p t :
  consecutive rows ->
  (forall r, In r rows -> p r = true -> WorkoutSession.is_active r = true) ->
  consecutive
    (update_where p
       (fun r => WorkoutSession.mk (WorkoutSession.id r)
                   (WorkoutSession.user_id r) (WorkoutSession.started_at r)
                   (Some t) false)
       rows).
Proof.
  induction rows as [|x rows IH]; cbn [consecutive update_where map];
    [tauto|].
  intros [Hx Hrest] Hp. split.
  - intros s2 Hin Hu. apply In_update_where in Hin.
    destruct Hin as (r2 & Hin & ->).
    assert (Hu' : WorkoutSession.user_id x = WorkoutSession.user_id r2)
      by (destruct (p x), (p r2); exact Hu).
    destruct (Hx r2 Hin Hu') as (Hact & e1 & He1 & Hle).
    destruct (p x) eqn:Hpx.
    + rewrite (Hp x (or_introl eq_refl) Hpx) in Hact. discriminate.
    + split; [exact Hact|]. exists e1. split; [exact He1|].
      destruct (p r2); exact Hle.
  - apply IH; [exact Hrest|]. intros r Hin. apply Hp. right. exact Hin.
Qed.


Lemma in_time_empty t : in_time t empty_db.
Proof.
  split; [intros s []|]. split; [exact I|constructor].
Qed.

Lemma handle_in_time t env db r :
  in_time t db -> t <= utcnow env -> in_time (utcnow env) (handle env db r).
Proof.
  intros (Hst & Hco & Hnd) Hle.
  assert (Hkeep : in_time (utcnow env) db).
  { split; [eapply stamped_later; eassumption|]. split; assumption. }
  destruct r as [name email|u a n|sid c|sid|u]; cbn [handle].
  - rewrite create_user_run.
    destruct (UserCreate_errors name email); [|exact Hkeep].
    destruct (email_taken (email_value email) db); [exact Hkeep|].
    destruct (commit_succeeds env); exact Hkeep.
  - rewrite start_workout_run.
    destruct (WorkoutSessionCreate_errors a n); [|exact Hkeep].
    destruct (user_by_id u db); [|exact Hkeep].
    destruct (hd_error (active_sessions u db)) eqn:Hactive; [exact Hkeep|].
    destruct (commit_succeeds env); [|exact Hkeep].
    apply hd_error_nil in Hactive. cbn [snd].
    assert (Hended : forall s1, In s1 (workout_sessions db) ->
              WorkoutSession.user_id s1 = u ->
              WorkoutSession.is_active s1 = false).
    { intros s1 Hin Hu.
      destruct (WorkoutSession.is_active s1) eqn:Hact; [|reflexivity].
      assert (Hin' : In s1 (active_sessions u db)).
      { unfold active_sessions. apply filter_In. split; [exact Hin|].
        rewrite Hu, Hact, Z.eqb_refl. reflexivity. }
      rewrite Hactive in Hin'. destruct Hin'. }
    unfold in_time. cbn [workout_sessions]. split; [|split].
    + intros s Hin. apply in_app_or in Hin. destruct Hin as [Hin|[<-|[]]].
      * apply (stamped_later t (utcnow env) _ Hle Hst). exact Hin.
      * cbn. split; [lia|discriminate].
    + apply consecutive_snoc; [exact Hco|].
      cbn [WorkoutSession.user_id WorkoutSession.started_at].
      intros s1 Hin Hu. pose proof (Hended s1 Hin Hu) as Hact.
      split; [exact Hact|].
      destruct (Hst s1 Hin) as [_ Hend].
      destruct (Hend Hact) as (e & He & Hb). exists e. split; [exact He|lia].
    + rewrite map_app. cbn [map WorkoutSession.id].
      apply NoDup_app; [exact Hnd|repeat constructor; intros []|].
      intros x Hin [<-|[]]. apply in_map_iff in Hin.
      destruct Hin as (s & Hid & Hin).
      apply (next_id_above WorkoutSession.id) in Hin. lia.
  - rewrite log_exercise_result_run.
    destruct (ExerciseLog_errors c); [|exact Hkeep].
    destruct (session_by_id sid db) as [s|]; [|exact Hkeep].
    destruct (negb (WorkoutSession.is_active s)); [exact Hkeep|].
    destruct (exercise_of s db); [|exact Hkeep].
    destruct (commit_succeeds env); exact Hkeep.
  - unfold end_workout. rewrite end_workout_session_run.
    destruct (session_by_id sid db) as [s|] eqn:Hs; [|exact Hkeep].
    destruct (WorkoutSession.is_active s) eqn:Hact; [|exact Hkeep].
    cbn [negb].
    destruct (exercise_of s db) as [e|]; [|exact Hkeep].
    destruct (Exercise.completed_reps e); [|exact Hkeep].
    destruct (commit_succeeds env); [|exact Hkeep].
    cbn [snd]. unfold in_time. cbn [workout_sessions].
    pose proof (session_by_id_in _ _ _ Hs) as Hin. split; [|split].
    + intros s' Hin'. apply In_update_where in Hin'.
      destruct Hin' as (r & Hr & ->).
      destruct (Hst r Hr) as [Hstart Hend].
      destruct (WorkoutSession.id r =? WorkoutSession.id s).
      * cbn. split; [lia|]. intros _. eexists. split; [reflexivity|lia].
      * split; [lia|]. intros Ha. destruct (Hend Ha) as (x & Hx & Hb).
        exists x. split; [exact Hx|lia].
    + apply consecutive_close; [exact Hco|].
      intros r Hr Hid. apply Z.eqb_eq in Hid.
      rewrite (unique_id_row _ r s Hnd Hr Hin Hid). exact Hact.
    + rewrite map_id_update_where by reflexivity. exact Hnd.
  - rewrite get_recommendation_reads. exact Hkeep.
Qed.

Lemma reachable_by_reachable t db : reachable_by t db -> reachable db.
Proof.
  induction 1 as [t|t env db r _ IH _].
  - apply reachable_empty.
  - apply reachable_step. exact IH.
Qed.

Lemma reachable_by_in_time t db : reachable_by t db -> in_time t db.
Proof.
  induction 1 as [t|t env db r _ IH Hle].
  - apply in_time_empty.
  - apply handle_in_time with (t := t); assumption.
Qed.



(** ** Reading a recommendation *)

Lemma nullable_ltb_ge x t' :
  nullable_ltb x (Some t') = false -> exists t, x = Some t /\ t' <= t.
Proof.
  destruct x as [t|]; cbn; [|discriminate].
  intros H. apply Z.ltb_ge in H. exists t. split; [reflexivity|exact H].
Qed.

Lemma last_ended_session_latest u db s :
  last_ended_session u db = Some s ->
  In s (ended_sessions u db)
  /\ forall s' t', In s' (ended_sessions u db) ->
       WorkoutSession.ended_at s' = Some t' ->
       exists t, WorkoutSession.ended_at s = Some t /\ t' <= t.
Proof.
  unfold last_ended_session. intros H. split.
  - eapply first_by_in. exact H.
  - intros s' t' Hin Ht'. apply nullable_ltb_ge. rewrite <- Ht'.
    apply (first_by_greatest_nullable WorkoutSession.ended_at _ _ H).
    exact Hin.
Qed.

Lemma first_ended_session_earliest u db s :
  first_ended_session u db = Some s ->
  In s (ended_sessions u db)
  /\ forall s', In s' (ended_sessions u db) ->
       WorkoutSession.started_at s <= WorkoutSession.started_at s'.
Proof.
  unfold first_ended_session. intros H. split.
  - eapply first_by_in. exact H.
  - apply (first_by_least WorkoutSession.started_at). exact H.
Qed.

(** The exercise of an ended session of a well-formed database. *)
Lemma ended_session_exercise u db s :
  paired db -> ended_logged db ->
  In s (ended_sessions u db) ->
  exists e c, exercise_of s db = Some e
              /\ Exercise.completed_reps e = Some c.
Proof.
  intros Hp Hl Hin. apply ended_sessions_In in Hin.
  destruct Hin as (Hin & _ & Hact).
  destruct (exercise_of s db) as [e|] eqn:He; [|elim (Hp s Hin He)].
  destruct (Exercise.completed_reps e) as [c|] eqn:Hc.
  - exists e, c. split; [reflexivity|exact Hc].
  - elim (Hl s e Hin Hact He Hc).
Qed.

(** What [get_recommendation] returns on a well-formed database, by
    whether the user has an ended session. *)
Lemma get_recommendation_new env db u :
  user_by_id u db <> None ->
  ended_sessions u db = [] ->
  request (get_recommendation u) env db =
  (Ok (mkRecommendationData
         match recommendation_of u db with
         | Some r => WorkoutRecommendation.next_recommended_reps r
         | None => 10
         end
         "Starting recommendation"%string None
         (mkProgression "new"%string 0 0)), db).
Proof.
  intros Hu Hnil. rewrite get_recommendation_run.
  destruct (user_by_id u db); [|congruence].
  unfold last_ended_session, first_ended_session. rewrite Hnil.
  reflexivity.
Qed.

Lemma get_recommendation_history env db u :
  paired db -> ended_logged db ->
  user_by_id u db <> None ->
  ended_sessions u db <> [] ->
  exists s e c s1 e1,
    last_ended_session u db = Some s
    /\ exercise_of s db = Some e
    /\ Exercise.completed_reps e = Some c
    /\ first_ended_session u db = Some s1
    /\ exercise_of s1 db = Some e1
    /\ let recommended :=
         match recommendation_of u db with
         | Some r => WorkoutRecommendation.next_recommended_reps r
         | None => calculate_next_reps (Exercise.assigned_reps e) c
         end in
       request (get_recommendation u) env db =
       (Ok (mkRecommendationData recommended
              (if c >=? Exercise.assigned_reps e
               then "Completed all reps in last session"%string
               else "Did not complete all reps in last session"%string)
              (Some s)
              (mkProgression
                 (if c >=? Exercise.assigned_reps e
                  then "improving"%string else "adjusting"%string)
                 (recommended - Exercise.assigned_reps e1)
                 (Z.of_nat (List.length (ended_sessions u db))))), db).
Proof.
  intros Hp Hl Hu Hne.
  destruct (last_ended_session u db) as [s|] eqn:Hlast;
    [|apply first_by_none in Hlast; contradiction].
  destruct (first_ended_session u db) as [s1|] eqn:Hfirst;
    [|apply first_by_none in Hfirst; contradiction].
  destruct (ended_session_exercise u db s Hp Hl) as (e & c & He & Hc);
    [apply last_ended_session_latest; exact Hlast|].
  destruct (ended_session_exercise u db s1 Hp Hl) as (e1 & c1 & He1 & _);
    [apply first_ended_session_earliest; exact Hfirst|].
  exists s, e, c, s1, e1. repeat (split; [reflexivity || assumption|]).
  cbv zeta. rewrite get_recommendation_run.
  destruct (user_by_id u db); [|congruence].
  rewrite Hlast, Hfirst. cbv beta iota zeta. rewrite He, Hc, He1.
  reflexivity.
Qed.



(** ** Pagination *)


Lemma ceiling_bounds total limit :
  limit <> 0 ->
  let n := - ((- total) / limit) in
  (0 < limit -> (n - 1) * limit < total <= n * limit)
  /\ (limit < 0 -> n * limit <= total < (n - 1) * limit).
Proof.
  intros Hl n. subst n.
  pose proof (Z.div_mod (- total) limit Hl) as Hdm.
  split; intros Hsign.
  - pose proof (Z.mod_pos_bound (- total) limit Hsign). nia.
  - pose proof (Z.mod_neg_bound (- total) limit Hsign). nia.
Qed.


(** With nothing to divide by, a non-empty listing fails. *)
Lemma pagination_zero_limit env db page total :
  0 < total ->
  request (pagination page 0 total) env db = (Raise ZeroDivisionError, db).
Proof.
  intros Hpos. unfold pagination. destruct (Z.gtb_spec total 0); [|lia].
  reflexivity.
Qed.

(** C8.  The listings at [limit = 0].  The page size is clamped from
    above only, so it stays 0; with one user stored, GET /api/v1/users
    with [limit = 0] divides the count 1 by 0 and ends in
    [ZeroDivisionError], answered as 500, where one page was due; so
    does the session listing of a user with one session, for every
    status filter that keeps it.  No metadata is returned and the
    database is as before. *)
Theorem listing_zero_limit_fails :
  page_size 0 = 0
  /\ (forall env page,
        request (count_users) env api_flow_user = (Ok 1, api_flow_user)
        /\ request (list_users page 0) env api_flow_user
           = (Raise ZeroDivisionError, api_flow_user))
  /\ (forall env page,
        request (count_user_workout_sessions 1 "all") env api_flow_ended
        = (Ok 1, api_flow_ended)
        /\ request (list_user_workouts 1 "all" page 0) env api_flow_ended
           = (Raise ZeroDivisionError, api_flow_ended)
        /\ request (list_user_workouts 1 "completed" page 0) env
                   api_flow_ended
           = (Raise ZeroDivisionError, api_flow_ended))
  /\ status_code ZeroDivisionError = 500.
Proof.
  split; [reflexivity|]. split; [|split; [|reflexivity]].
  - intros env page. split; reflexivity.
  - intros env page. repeat split; reflexivity.
Qed.

(** ** Reachable databases are well formed *)

Lemma find_update_where_map {A} (q p : A -> bool) (f : A -> A)
      (rows : list A) :
  (forall r, q (f r) = q r) ->
  find q (update_where p f rows)
  = option_map (fun r => if p r then f r else r) (find q rows).
Proof.
  intros Hq. induction rows as [|r rows IH]; simpl; [reflexivity|].
  destruct (p r) eqn:Hp.
  - rewrite Hq. destruct (q r); [simpl; rewrite Hp; reflexivity|exact IH].
  - destruct (q r); [simpl; rewrite Hp; reflexivity|exact IH].
Qed.

Lemma next_id_update_where {A} (id : A -> Z) (p : A -> bool) (f : A -> A)
      (rows : list A) :
  (forall r, id (f r) = id r) ->
  next_id id (update_where p f rows) = next_id id rows.
Proof.
  intros Hid. unfold next_id. f_equal.
  induction rows as [|r rows IH]; cbn [fold_right update_where map];
    [reflexivity|]. fold (update_where p f rows).
  rewrite IH. destruct (p r); [rewrite Hid|]; reflexivity.
Qed.

Lemma next_id_snoc {A} (id : A -> Z) (rows : list A) (x : A) :
  next_id id rows <= next_id id (rows ++ [x])
  /\ id x < next_id id (rows ++ [x]).
Proof.
  split.
  - unfold next_id.
    induction rows as [|r rows IH]; cbn [fold_right app] in *; lia.
  - apply next_id_above. apply in_or_app. right. left. reflexivity.
Qed.

Lemma well_formed_empty : well_formed empty_db.
Proof.
  repeat split; intros x; cbn; tauto.
Qed.

Lemma well_formed_same_sessions db db' :
  workout_sessions db' = workout_sessions db ->
  exercises db' = exercises db ->
  well_formed db -> well_formed db'.
Proof.
  intros Hs He (Hp & Hl & Hb).
  unfold well_formed, paired, ended_logged, exercises_bounded, exercise_of
    in *.
  rewrite Hs, He. auto.
Qed.

Lemma start_workout_well_formed db u t a name :
  well_formed db ->
  let sid := next_id WorkoutSession.id (workout_sessions db) in
  well_formed
    (mkDatabase (users db)
       (workout_sessions db ++ [WorkoutSession.mk sid u t None true])
       (exercises db
        ++ [Exercise.mk (next_id Exercise.id (exercises db)) sid name a
                        None t])
       (workout_recommendations db)).
Proof.
  intros (Hp & Hl & Hb) sid.
  unfold well_formed, paired, ended_logged, exercises_bounded, exercise_of
    in *.
  cbn [workout_sessions exercises]. split; [|split].
  - intros s Hin. rewrite find_snoc. apply in_app_or in Hin.
    destruct Hin as [Hin|[<-|[]]].
    + specialize (Hp s Hin). destruct (find _ (exercises db)); congruence.
    + cbn [WorkoutSession.id Exercise.session_id]. rewrite Z.eqb_refl.
      destruct (find _ (exercises db)); discriminate.
  - intros s e Hin Hact. rewrite find_snoc. apply in_app_or in Hin.
    destruct Hin as [Hin|[<-|[]]]; [|discriminate].
    specialize (Hp s Hin). specialize (Hl s).
    destruct (find _ (exercises db)) as [e0|]; [|congruence].
    intros [= <-]. apply (Hl e0 Hin Hact eq_refl).
  - intros e Hin.
    pose proof (next_id_snoc WorkoutSession.id (workout_sessions db)
                  (WorkoutSession.mk sid u t None true)) as [Hle Hlt].
    cbn [WorkoutSession.id] in Hlt. apply in_app_or in Hin.
    destruct Hin as [Hin|[<-|[]]].
    + specialize (Hb e Hin). lia.
    + cbn [Exercise.session_id]. exact Hlt.
Qed.

Lemma log_exercise_well_formed db eid c :
  well_formed db ->
  well_formed
    (mkDatabase (users db) (workout_sessions db)
       (update_where
          (fun r => Exercise.id r =? eid)
          (fun r => Exercise.mk (Exercise.id r) (Exercise.session_id r)
                      (Exercise.exercise_name r) (Exercise.assigned_reps r)
                      (Some c) (Exercise.created_at r))
          (exercises db))
       (workout_recommendations db)).
Proof.
  intros (Hp & Hl & Hb).
  unfold well_formed, paired, ended_logged, exercises_bounded, exercise_of
    in *.
  cbn [workout_sessions exercises]. split; [|split].
  - intros s Hin.
    rewrite find_update_where_map by reflexivity.
    specialize (Hp s Hin). destruct (find _ (exercises db)); cbn; congruence.
  - intros s e Hin Hact.
    rewrite find_update_where_map by reflexivity. specialize (Hl s).
    destruct (find _ (exercises db)) as [e0|]; cbn; [|discriminate].
    intros [= <-]. destruct (Exercise.id e0 =? eid); [discriminate|].
    apply (Hl e0 Hin Hact eq_refl).
  - intros e Hin. apply In_update_where in Hin.
    destruct Hin as (r & Hin & ->). specialize (Hb r Hin).
    destruct (Exercise.id r =? eid); exact Hb.
Qed.

Lemma end_workout_well_formed db sid s e c t recs :
  well_formed db ->
  session_by_id sid db = Some s ->
  exercise_of s db = Some e ->
  Exercise.completed_reps e = Some c ->
  well_formed
    (mkDatabase (users db)
       (update_where
          (fun r => WorkoutSession.id r =? WorkoutSession.id s)
          (fun r => WorkoutSession.mk (WorkoutSession.id r)
                      (WorkoutSession.user_id r)
                      (WorkoutSession.started_at r) (Some t) false)
          (workout_sessions db))
       (exercises db) recs).
Proof.
  intros (Hp & Hl & Hb) Hs He Hc.
  unfold well_formed, paired, ended_logged, exercises_bounded, exercise_of
    in *.
  cbn [workout_sessions exercises]. split; [|split].
  - intros s' Hin. apply In_update_where in Hin.
    destruct Hin as (r & Hin & ->). specialize (Hp r Hin).
    destruct (WorkoutSession.id r =? WorkoutSession.id s); exact Hp.
  - intros s' e' Hin. apply In_update_where in Hin.
    destruct Hin as (r & Hin & ->).
    destruct (Z.eqb_spec (WorkoutSession.id r) (WorkoutSession.id s))
      as [Heq|Hne].
    + cbn [WorkoutSession.id WorkoutSession.is_active]. rewrite Heq, He.
      intros _ [= <-]. congruence.
    + apply Hl. exact Hin.
  - intros e' Hin. rewrite next_id_update_where by reflexivity.
    apply Hb. exact Hin.
Qed.

Lemma handle_well_formed env db r :
  well_formed db -> well_formed (handle env db r).
Proof.
  intros Hwf. destruct r as [name email|u a n|sid c|sid|u]; cbn [handle].
  - rewrite create_user_run.
    destruct (UserCreate_errors name email); [|exact Hwf].
    destruct (email_taken (email_value email) db); [exact Hwf|].
    destruct (commit_succeeds env); [|exact Hwf].
    apply (well_formed_same_sessions db); [reflexivity|reflexivity|exact Hwf].
  - rewrite start_workout_run.
    destruct (WorkoutSessionCreate_errors a n); [|exact Hwf].
    destruct (user_by_id u db); [|exact Hwf].
    destruct (hd_error (active_sessions u db)); [exact Hwf|].
    destruct (commit_succeeds env); [|exact Hwf].
    apply start_workout_well_formed. exact Hwf.
  - rewrite log_exercise_result_run.
    destruct (ExerciseLog_errors c); [|exact Hwf].
    destruct (session_by_id sid db) as [s|]; [|exact Hwf].
    destruct (negb (WorkoutSession.is_active s)); [exact Hwf|].
    destruct (exercise_of s db) as [e|]; [|exact Hwf].
    destruct (commit_succeeds env); [|exact Hwf].
    apply log_exercise_well_formed. exact Hwf.
  - unfold end_workout. rewrite end_workout_session_run.
    destruct (session_by_id sid db) as [s|] eqn:Hs; [|exact Hwf].
    destruct (negb (WorkoutSession.is_active s)); [exact Hwf|].
    destruct (exercise_of s db) as [e|] eqn:He; [|exact Hwf].
    destruct (Exercise.completed_reps e) as [c|] eqn:Hc; [|exact Hwf].
    destruct (commit_succeeds env); [|exact Hwf].
    eapply end_workout_well_formed; eassumption.
  - rewrite get_recommendation_reads. exact Hwf.
Qed.

(** Every database the service can reach satisfies the hypotheses under
    which the recommendation is read. *)
Lemma reachable_well_formed db : reachable db -> well_formed db.
Proof.
  induction 1 as [|env db r _ IH].
  - exact well_formed_empty.
  - apply handle_well_formed. exact IH.
Qed.

(** ** The test flow and other concrete runs *)

Lemma api_flow_reachable : reachable api_flow_ended.
Proof.
  unfold api_flow_ended, api_flow_logged, api_flow_started, api_flow_user.
  repeat apply reachable_step. apply reachable_empty.
Qed.

Lemma api_flow_reachable_by : reachable_by 3 api_flow_ended.
Proof.
  unfold api_flow_ended, api_flow_logged, api_flow_started, api_flow_user.
  apply (reachable_by_step 2 (mkEnv 3 true)); [|discriminate].
  apply (reachable_by_step 1 (mkEnv 2 true)); [|discriminate].
  apply (reachable_by_step 0 (mkEnv 1 true)); [|discriminate].
  apply (reachable_by_step 0 (mkEnv 0 true)); [|discriminate].
  apply reachable_by_empty.
Qed.

(** "ALGORITHM VERIFIED (10 + 2 = 12)" *)
Example api_flow_next_reps :
  fst (request (end_workout 1) (mkEnv 3 true) api_flow_logged)
  = Ok (WorkoutSession.mk 1 1 1 (Some 3) false, 12).
Proof. reflexivity. Qed.

Example api_flow_recommendation :
  fst (request (get_recommendation 1) (mkEnv 4 true) api_flow_ended)
  = Ok (mkRecommendationData 12 "Completed all reps in last session"
          (Some (WorkoutSession.mk 1 1 1 (Some 3) false))
          (mkProgression "improving" 2 1)).
Proof. reflexivity. Qed.

(** Scenario 4: a new user. *)
Example new_user_recommendation :
  fst (request (get_recommendation 1) (mkEnv 1 true) api_flow_user)
  = Ok (mkRecommendationData 10 "Starting recommendation" None
          (mkProgression "new" 0 0)).
Proof. reflexivity. Qed.

(** Scenario 5: a second start while the first session is active. *)
Example second_start_conflicts :
  request (start_workout 1 8 None) (mkEnv 2 true) api_flow_started
  = (Raise (ActiveSessionExistsException 1 1), api_flow_started).
Proof. reflexivity. Qed.

(** Scenario 6: logging after the end is refused. *)
Example log_after_end_refused :
  request (log_exercise_result 1 7) (mkEnv 4 true) api_flow_ended
  = (Raise (SessionNotActiveException 1), api_flow_ended).
Proof. reflexivity. Qed.

(** ** The theorems at concrete inputs *)

Lemma db_without_recommendation_well_formed :
  paired db_without_recommendation
  /\ ended_logged db_without_recommendation.
Proof.
  split.
  - intros s [<-|[]]. discriminate.
  - intros s e [<-|[]] _ [= <-]. discriminate.
Defined.




Lemma returned_recommendation_is_stored_witness :
  request (end_workout 1) (mkEnv 3 true) api_flow_logged
  = (Ok (WorkoutSession.mk 1 1 1 (Some 3) false, 12), api_flow_ended)
  /\ exists r,
       recommendation_of 1 api_flow_ended = Some r
       /\ WorkoutRecommendation.user_id r = 1
       /\ WorkoutRecommendation.next_recommended_reps r = 12.
Proof.
  assert (Hrun : request (end_workout 1) (mkEnv 3 true) api_flow_logged
                 = (Ok (WorkoutSession.mk 1 1 1 (Some 3) false, 12),
                    api_flow_ended)) by reflexivity.
  split; [exact Hrun|].
  exact (returned_recommendation_is_stored _ _ _ _ _ _ Hrun).
Defined.

Lemma end_workout_session_outcomes_witness :
  request (end_workout_session 1) (mkEnv 2 true) api_flow_started
  = (Raise (ExerciseNotLoggedException 1), api_flow_started)
  /\ request (end_workout_session 1) (mkEnv 4 true) api_flow_ended
     = (Raise (SessionNotActiveException 1), api_flow_ended)
  /\ request (end_workout_session 2) (mkEnv 4 true) api_flow_ended
     = (Raise (WorkoutSessionNotFoundException 2), api_flow_ended).
Proof.
  split; [|split].
  - destruct (end_workout_session_outcomes (mkEnv 2 true)
                api_flow_started 1) as (_ & _ & H & _).
    exact (H (WorkoutSession.mk 1 1 1 None true)
             (Exercise.mk 1 1 "Push-ups" 10 None 1)
             eq_refl eq_refl eq_refl eq_refl).
  - destruct (end_workout_session_outcomes (mkEnv 4 true)
                api_flow_ended 1) as (_ & H & _).
    exact (H (WorkoutSession.mk 1 1 1 (Some 3) false) eq_refl eq_refl).
  - destruct (end_workout_session_outcomes (mkEnv 4 true)
                api_flow_ended 2) as (H & _).
    exact (H eq_refl).
Defined.

Lemma start_workout_outcomes_witness :
  (exists fields,
     request (start_workout 1 0 None) (mkEnv 1 true) api_flow_user
     = (Raise (RequestValidationError fields), api_flow_user))
  /\ request (start_workout 2 10 None) (mkEnv 1 true) api_flow_user
     = (Raise (UserNotFoundException 2), api_flow_user)
  /\ request (start_workout 1 10 None) (mkEnv 2 true) api_flow_started
     = (Raise (ActiveSessionExistsException 1 1), api_flow_started).
Proof.
  assert (Hname : forall x : string, @None string = Some x ->
                    (String.length x <= 100)%nat) by discriminate.
  split; [|split].
  - destruct (start_workout_outcomes (mkEnv 1 true) api_flow_user 1 0 None)
      as (H & _).
    destruct H as (fields & Hrun & _); [discriminate|].
    exists fields. exact Hrun.
  - destruct (start_workout_outcomes (mkEnv 1 true) api_flow_user 2 10 None)
      as (_ & H & _).
    destruct (H eq_refl Hname) as (Hmissing & _).
    exact (Hmissing eq_refl).
  - destruct (start_workout_outcomes (mkEnv 2 true) api_flow_started
                1 10 None) as (_ & H & _).
    destruct (H eq_refl Hname) as (_ & Hactive & _).
    destruct (Hactive (WorkoutSession.mk 1 1 1 None true)) as (Hrun & _);
      [discriminate|reflexivity|exact Hrun].
Defined.

Lemma single_active_invariant_witness :
  reachable api_flow_started
  /\ List.length (active_sessions 1 api_flow_started) = 1%nat
  /\ single_active api_flow_started.
Proof.
  assert (Hr : reachable api_flow_started).
  { unfold api_flow_started, api_flow_user.
    repeat apply reachable_step. apply reachable_empty. }
  split; [exact Hr|]. split; [reflexivity|].
  destruct single_active_invariant as (_ & _ & H & _). exact (H _ Hr).
Defined.


(** * The rest of crud.py and the routers *)

(** ** Every write is one of four transitions *)

Lemma handle_step env db r :
  handle env db r = db \/ transition env db (handle env db r).
Proof.
  destruct r as [name email|u a n|sid c|sid|u]; cbn [handle].
  - rewrite create_user_run.
    destruct (UserCreate_errors name email) eqn:Hname;
      [|left; reflexivity].
    destruct (email_taken (email_value email) db) eqn:Htaken;
      [left; reflexivity|].
    destruct (commit_succeeds env); [|left; reflexivity].
    right. cbn [snd]. apply transition_create_user; assumption.
  - rewrite start_workout_run.
    destruct (WorkoutSessionCreate_errors a n) eqn:Hbody;
      [|left; reflexivity].
    destruct (user_by_id u db) as [usr|] eqn:Hu; [|left; reflexivity].
    destruct (hd_error (active_sessions u db)) eqn:Hactive;
      [left; reflexivity|].
    destruct (commit_succeeds env); [|left; reflexivity].
    right. cbn [snd]. apply hd_error_nil in Hactive.
    apply transition_start with (usr := usr); assumption.
  - rewrite log_exercise_result_run.
    destruct (ExerciseLog_errors c) eqn:Hbody; [|left; reflexivity].
    destruct (session_by_id sid db) as [s|] eqn:Hs; [|left; reflexivity].
    destruct (WorkoutSession.is_active s) eqn:Hact; [|left; reflexivity].
    cbn [negb].
    destruct (exercise_of s db) as [e|] eqn:He; [|left; reflexivity].
    destruct (commit_succeeds env); [|left; reflexivity].
    right. cbn [snd]. apply transition_log with (sid := sid) (s := s);
      assumption.
  - unfold end_workout. rewrite end_workout_session_run.
    destruct (session_by_id sid db) as [s|] eqn:Hs; [|left; reflexivity].
    destruct (WorkoutSession.is_active s) eqn:Hact; [|left; reflexivity].
    cbn [negb].
    destruct (exercise_of s db) as [e|] eqn:He; [|left; reflexivity].
    destruct (Exercise.completed_reps e) as [c|] eqn:Hc;
      [|left; reflexivity].
    destruct (commit_succeeds env); [|left; reflexivity].
    right. cbn [snd]. apply transition_end with (sid := sid); assumption.
  - left. apply get_recommendation_reads.
Qed.

(** ** Tables under appends and updates *)

Lemma map_update_where {A B} (g : A -> B) (p : A -> bool) (f : A -> A)
      (rows : list A) :
  (forall r, g (f r) = g r) ->
  map g (update_where p f rows) = map g rows.
Proof.
  intros Hg. unfold update_where. rewrite map_map. apply map_ext.
  intros r. destruct (p r); [apply Hg|reflexivity].
Qed.

Lemma NoDup_snoc {B} (l : list B) (x : B) :
  NoDup l -> ~ In x l -> NoDup (l ++ [x]).
Proof.
  intros Hnd Hx. apply NoDup_app; [exact Hnd|repeat constructor; intros []|].
  intros y Hy [<-|[]]. exact (Hx Hy).
Qed.

Lemma next_id_not_in {A} (id : A -> Z) (rows : list A) :
  ~ In (next_id id rows) (map id rows).
Proof.
  intros Hin. apply in_map_iff in Hin. destruct Hin as (r & Hid & Hin).
  apply (next_id_above id) in Hin. lia.
Qed.

Lemma NoDup_ids_snoc {A} (id : A -> Z) (rows : list A) (x : A) :
  id x = next_id id rows ->
  NoDup (map id rows) -> NoDup (map id (rows ++ [x])).
Proof.
  intros Hx Hnd. rewrite map_app. cbn [map]. apply NoDup_snoc; [exact Hnd|].
  rewrite Hx. apply next_id_not_in.
Qed.

Lemma find_none_not_in {A} (g : A -> Z) (u : Z) (rows : list A) :
  find (fun r => g r =? u) rows = None -> ~ In u (map g rows).
Proof.
  intros Hf Hin. apply in_map_iff in Hin. destruct Hin as (r & Hg & Hin).
  apply (find_none _ _ Hf) in Hin. cbn in Hin.
  rewrite Hg, Z.eqb_refl in Hin. discriminate.
Qed.

Lemma find_some_iff_in {A} (g : A -> Z) (u : Z) (rows : list A) :
  find (fun r => g r =? u) rows <> None <-> In u (map g rows).
Proof.
  split.
  - destruct (find _ rows) as [r|] eqn:Hf; [|congruence]. intros _.
    apply find_some in Hf. destruct Hf as [Hin Hg].
    apply Z.eqb_eq in Hg. subst u. apply in_map. exact Hin.
  - intros Hin Hf. exact (find_none_not_in g u rows Hf Hin).
Qed.

Lemma find_update_where_other {A} (q p : A -> bool) (f : A -> A)
      (rows : list A) :
  (forall r, q (f r) = q r) ->
  (forall r, In r rows -> q r = true -> p r = false) ->
  find q (update_where p f rows) = find q rows.
Proof.
  intros Hq Hdisj. induction rows as [|r rows IH]; [reflexivity|].
  cbn [update_where map find]. fold (update_where p f rows).
  assert (IH' : find q (update_where p f rows) = find q rows)
    by (apply IH; intros x Hx; apply Hdisj; right; exact Hx).
  destruct (q r) eqn:Hqr.
  - rewrite (Hdisj r (or_introl eq_refl) Hqr), Hqr. reflexivity.
  - destruct (p r); [rewrite Hq|]; rewrite Hqr; exact IH'.
Qed.

Lemma filter_update_where_other {A} (q p : A -> bool) (f : A -> A)
      (rows : list A) :
  (forall r, q (f r) = q r) ->
  (forall r, In r rows -> q r = true -> p r = false) ->
  filter q (update_where p f rows) = filter q rows.
Proof.
  intros Hq Hdisj. induction rows as [|r rows IH]; [reflexivity|].
  cbn [update_where map filter]. fold (update_where p f rows).
  assert (IH' : filter q (update_where p f rows) = filter q rows)
    by (apply IH; intros x Hx; apply Hdisj; right; exact Hx).
  destruct (q r) eqn:Hqr.
  - rewrite (Hdisj r (or_introl eq_refl) Hqr), Hqr, IH'. reflexivity.
  - destruct (p r); [rewrite Hq|]; rewrite Hqr; exact IH'.
Qed.

Lemma update_where_twice {A} (p : A -> bool) (f g : A -> A)
      (rows : list A) :
  (forall r, p (f r) = p r) ->
  (forall r, g (f r) = g r) ->
  update_where p g (update_where p f rows) = update_where p g rows.
Proof.
  intros Hp Hg. unfold update_where. rewrite map_map. apply map_ext.
  intros r. destruct (p r) eqn:Hpr; [|rewrite Hpr; reflexivity].
  rewrite Hp, Hpr. apply Hg.
Qed.

(** ** What the request schemas accept *)

Lemma UserCreate_accepted name email :
  UserCreate_errors name email = [] ->
  (2 <= String.length name <= 100)%nat.
Proof.
  unfold UserCreate_errors.
  destruct (2 <=? String.length name)%nat eqn:H2;
    destruct (String.length name <=? 100)%nat eqn:H100;
    cbn [andb app]; try discriminate.
  intros _. apply Nat.leb_le in H2, H100. split; assumption.
Qed.

Lemma WorkoutSessionCreate_accepted a n :
  WorkoutSessionCreate_errors a n = [] -> 0 < a.
Proof.
  unfold WorkoutSessionCreate_errors.
  destruct (Z.gtb_spec a 0); [intros _; assumption|discriminate].
Qed.

Lemma ExerciseLog_accepted c : ExerciseLog_errors c = [] -> 0 <= c.
Proof.
  unfold ExerciseLog_errors.
  destruct (Z.geb_spec c 0); [intros _; assumption|discriminate].
Qed.

Lemma email_taken_iff e db :
  email_taken (Some e) db = true <-> In e (emails db).
Proof.
  unfold email_taken, emails. rewrite existsb_exists, in_flat_map.
  split; intros (u & Hin & Hu); exists u; (split; [exact Hin|]).
  - destruct (User.email u) as [e'|]; [|discriminate].
    apply String.eqb_eq in Hu. subst e'. left. reflexivity.
  - destruct (User.email u) as [e'|]; [|destruct Hu].
    destruct Hu as [<-|[]]. apply String.eqb_refl.
Qed.

(** ** The transitions keep the database consistent *)

Lemma consistent_empty : consistent empty_db.
Proof.
  unfold consistent, unique_ids, one_exercise_per_session,
    one_recommendation_per_user, ended_have_recommendation,
    sessions_of_users, active_iff_open, valid_values, unique_emails, emails.
  cbn. repeat split; try constructor; intros; contradiction.
Qed.

Lemma create_user_consistent env db name email :
  (2 <= String.length name <= 100)%nat ->
  email_taken email db = false ->
  consistent db ->
  consistent
    (mkDatabase
       (users db ++ [User.mk (next_id User.id (users db)) name email
                             (utcnow env)])
       (workout_sessions db) (exercises db) (workout_recommendations db)).
Proof.
  intros Hname Htaken
         ((Hu & Hs & He & Hr) & Hlock & Hrec1 & Hrec & Husers & Hopen
          & (Vu & Ve & Vr) & Hmail).
  unfold consistent, unique_ids, one_exercise_per_session,
    one_recommendation_per_user, ended_have_recommendation,
    sessions_of_users, active_iff_open, valid_values, unique_emails,
    emails, recommendation_of, user_by_id in *.
  cbn [users workout_sessions exercises workout_recommendations].
  repeat match goal with |- _ /\ _ => split end;
    try assumption.
  - apply NoDup_ids_snoc; [reflexivity|exact Hu].
  - intros s Hin. specialize (Husers s Hin). rewrite find_snoc.
    destruct (find _ (users db)); congruence.
  - intros u Hin. apply in_app_or in Hin. destruct Hin as [Hin|[<-|[]]].
    + apply Vu. exact Hin.
    + cbn [User.name]. exact Hname.
  - rewrite flat_map_app. cbn [flat_map User.email]. rewrite app_nil_r.
    destruct email as [e|]; [|rewrite app_nil_r; exact Hmail].
    apply NoDup_snoc; [exact Hmail|].
    intros Hin. apply email_taken_iff in Hin. congruence.
Qed.

Lemma start_consistent env db u a n usr :
  WorkoutSessionCreate_errors a n = [] ->
  user_by_id u db = Some usr ->
  active_sessions u db = [] ->
  consistent db ->
  consistent
    (mkDatabase (users db)
       (workout_sessions db
        ++ [WorkoutSession.mk
              (next_id WorkoutSession.id (workout_sessions db))
              u (utcnow env) None true])
       (exercises db
        ++ [Exercise.mk (next_id Exercise.id (exercises db))
              (next_id WorkoutSession.id (workout_sessions db))
              (or_default n) a None (utcnow env)])
       (workout_recommendations db)).
Proof.
  intros Hbody Husr Hactive
         ((Hu & Hs & He & Hr) & Hlock & Hrec1 & Hrec & Husers & Hopen
          & (Vu & Ve & Vr) & Hmail).
  unfold consistent, unique_ids, one_exercise_per_session,
    one_recommendation_per_user, ended_have_recommendation,
    sessions_of_users, active_iff_open, valid_values, unique_emails,
    emails, recommendation_of in *.
  cbn [users workout_sessions exercises workout_recommendations].
  repeat match goal with |- _ /\ _ => split end;
    try assumption.
  - apply NoDup_ids_snoc; [reflexivity|exact Hs].
  - apply NoDup_ids_snoc; [reflexivity|exact He].
  - rewrite !map_app, Hlock. reflexivity.
  - intros s Hin Hact. apply in_app_or in Hin.
    destruct Hin as [Hin|[<-|[]]]; [|discriminate].
    apply Hrec; assumption.
  - intros s Hin. apply in_app_or in Hin.
    destruct Hin as [Hin|[<-|[]]]; [apply Husers; exact Hin|].
    cbn [WorkoutSession.user_id]. unfold user_by_id in *.
    cbn [users]. congruence.
  - intros s Hin. apply in_app_or in Hin.
    destruct Hin as [Hin|[<-|[]]]; [apply Hopen; exact Hin|].
    cbn. split; reflexivity.
  - intros e Hin. apply in_app_or in Hin.
    destruct Hin as [Hin|[<-|[]]]; [apply Ve; exact Hin|].
    cbn. split; [|discriminate].
    apply (WorkoutSessionCreate_accepted a n). exact Hbody.
Qed.

Lemma log_consistent db c e :
  ExerciseLog_errors c = [] ->
  consistent db ->
  consistent
    (mkDatabase (users db) (workout_sessions db)
       (update_where
          (fun r => Exercise.id r =? Exercise.id e)
          (fun r => Exercise.mk (Exercise.id r) (Exercise.session_id r)
                      (Exercise.exercise_name r)
                      (Exercise.assigned_reps r) (Some c)
                      (Exercise.created_at r))
          (exercises db))
       (workout_recommendations db)).
Proof.
  intros Hbody
         ((Hu & Hs & He & Hr) & Hlock & Hrec1 & Hrec & Husers & Hopen
          & (Vu & Ve & Vr) & Hmail).
  unfold consistent, unique_ids, one_exercise_per_session,
    one_recommendation_per_user, ended_have_recommendation,
    sessions_of_users, active_iff_open, valid_values, unique_emails,
    emails, recommendation_of, user_by_id in *.
  cbn [users workout_sessions exercises workout_recommendations].
  repeat match goal with |- _ /\ _ => split end;
    try assumption.
  - rewrite map_update_where by reflexivity. exact He.
  - rewrite map_update_where by reflexivity. exact Hlock.
  - intros x Hin. apply In_update_where in Hin.
    destruct Hin as (r & Hin & ->). destruct (Ve r Hin) as [Ha Hc].
    destruct (Exercise.id r =? Exercise.id e); [|split; assumption].
    cbn. split; [exact Ha|]. intros c' [= <-].
    apply ExerciseLog_accepted. exact Hbody.
Qed.

Lemma end_consistent env db sid s e c :
  session_by_id sid db = Some s ->
  WorkoutSession.is_active s = true ->
  consistent db ->
  consistent
    (mkDatabase (users db)
       (update_where
          (fun r => WorkoutSession.id r =? WorkoutSession.id s)
          (fun r => WorkoutSession.mk (WorkoutSession.id r)
                      (WorkoutSession.user_id r)
                      (WorkoutSession.started_at r)
                      (Some (utcnow env)) false)
          (workout_sessions db))
       (exercises db)
       match recommendation_of (WorkoutSession.user_id s) db with
       | Some r =>
           update_where
             (fun x => WorkoutRecommendation.id x
                       =? WorkoutRecommendation.id r)
             (fun x => WorkoutRecommendation.mk
                         (WorkoutRecommendation.id x)
                         (WorkoutRecommendation.user_id x)
                         (calculate_next_reps (Exercise.assigned_reps e) c)
                         (utcnow env))
             (workout_recommendations db)
       | None =>
           workout_recommendations db
           ++ [WorkoutRecommendation.mk
                 (next_id WorkoutRecommendation.id
                          (workout_recommendations db))
                 (WorkoutSession.user_id s)
                 (calculate_next_reps (Exercise.assigned_reps e) c)
                 (utcnow env)]
       end).
Proof.
  intros Hsid Hact
         ((Hu & Hs & He & Hr) & Hlock & Hrec1 & Hrec & Husers & Hopen
          & (Vu & Ve & Vr) & Hmail).
  pose proof (session_by_id_in _ _ _ Hsid) as Hin_s.
  assert (Hfloor : 1 <= calculate_next_reps (Exercise.assigned_reps e) c)
    by (unfold calculate_next_reps; apply Z.le_max_l).
  (* the recommendation table after the upsert *)
  set (recs' := match recommendation_of (WorkoutSession.user_id s) db with
                | Some r => _ | None => _ end).
  assert (Hkeeps : forall u,
            In u (map WorkoutRecommendation.user_id
                      (workout_recommendations db)) ->
            In u (map WorkoutRecommendation.user_id recs')).
  { intros u Hin. subst recs'.
    destruct (recommendation_of (WorkoutSession.user_id s) db).
    - rewrite map_update_where by reflexivity. exact Hin.
    - rewrite map_app. apply in_or_app. left. exact Hin. }
  assert (Hhas : In (WorkoutSession.user_id s)
                    (map WorkoutRecommendation.user_id recs')).
  { subst recs'. unfold recommendation_of.
    destruct (find _ (workout_recommendations db)) as [r|] eqn:Hf.
    - rewrite map_update_where by reflexivity.
      apply find_some_iff_in. rewrite Hf. discriminate.
    - rewrite map_app. apply in_or_app. right. left. reflexivity. }
  unfold consistent, unique_ids, one_exercise_per_session,
    one_recommendation_per_user, ended_have_recommendation,
    sessions_of_users, active_iff_open, valid_values, unique_emails,
    emails, user_by_id in *.
  cbn [users workout_sessions exercises workout_recommendations].
  repeat match goal with |- _ /\ _ => split end;
    try assumption.
  - rewrite map_update_where by reflexivity. exact Hs.
  - subst recs'. destruct (recommendation_of _ db).
    + rewrite map_update_where by reflexivity. exact Hr.
    + apply NoDup_ids_snoc; [reflexivity|exact Hr].
  - rewrite map_update_where by reflexivity. exact Hlock.
  - subst recs'. unfold recommendation_of.
    destruct (find _ (workout_recommendations db)) eqn:Hf.
    + rewrite map_update_where by reflexivity. exact Hrec1.
    + rewrite map_app. cbn [map WorkoutRecommendation.user_id].
      apply NoDup_snoc; [exact Hrec1|].
      apply find_none_not_in. exact Hf.
  - intros x Hin Hx. apply In_update_where in Hin.
    destruct Hin as (r & Hin & ->).
    unfold recommendation_of. cbn [workout_recommendations].
    apply find_some_iff_in.
    destruct (Z.eqb_spec (WorkoutSession.id r) (WorkoutSession.id s))
      as [Heq|Hne].
    + rewrite (unique_id_row _ r s Hs Hin Hin_s Heq). exact Hhas.
    + apply Hkeeps. apply find_some_iff_in.
      exact (Hrec r Hin Hx).
  - intros x Hin. apply In_update_where in Hin.
    destruct Hin as (r & Hin & ->). specialize (Husers r Hin).
    destruct (WorkoutSession.id r =? WorkoutSession.id s); exact Husers.
  - intros x Hin. apply In_update_where in Hin.
    destruct Hin as (r & Hin & ->).
    destruct (WorkoutSession.id r =? WorkoutSession.id s);
      [|apply Hopen; exact Hin].
    cbn. split; discriminate.
  - intros x Hin. subst recs'.
    destruct (recommendation_of (WorkoutSession.user_id s) db).
    + apply In_update_where in Hin. destruct Hin as (r & Hin & ->).
      destruct (WorkoutRecommendation.id r =? _);
        [exact Hfloor|apply Vr; exact Hin].
    + apply in_app_or in Hin.
      destruct Hin as [Hin|[<-|[]]]; [apply Vr; exact Hin|exact Hfloor].
Qed.

Lemma transition_consistent env db db' :
  consistent db -> transition env db db' -> consistent db'.
Proof.
  intros Hc Htr.
  destruct Htr as [name email Hname Htaken|u a n usr Hbody Husr Hactive
                  |sid c s e Hbody Hs Hact He|sid s e c Hs Hact He Hcomp].
  - apply create_user_consistent;
      [exact (UserCreate_accepted _ _ Hname)|assumption|assumption].
  - apply start_consistent with (usr := usr); assumption.
  - apply log_consistent; assumption.
  - apply end_consistent with (sid := sid); assumption.
Qed.

Lemma handle_consistent env db r :
  consistent db -> consistent (handle env db r).
Proof.
  intros Hc. destruct (handle_step env db r) as [->|Htr]; [exact Hc|].
  exact (transition_consistent env db _ Hc Htr).
Qed.

Lemma reachable_consistent db : reachable db -> consistent db.
Proof.
  induction 1 as [|env db r _ IH].
  - exact consistent_empty.
  - apply handle_consistent. exact IH.
Qed.

(** ** Logging an exercise *)

(** X1.  [log_exercise_result] answers negative completed reps with a
    validation error, an unknown session id with
    [WorkoutSessionNotFoundException] and an ended session with
    [SessionNotActiveException], each time leaving the database as it
    was; so does a commit the store refuses.  On an active session (when
    the store commits) it returns the session, sets the completed reps
    of its exercise and changes nothing else of that exercise, nor any
    other table; the exercise table keeps its length and, position by
    position, every row: the rows with the id of that exercise get the
    completed reps, every other row is the row from before. *)
Theorem log_exercise_result_outcomes env db sid c :
  let out := request (log_exercise_result sid c) env db in
  (c < 0 ->
   exists fields,
     out = (Raise (RequestValidationError fields), db)
     /\ In "body.completed_reps"%string fields)
  /\ (0 <= c ->
      (session_by_id sid db = None ->
       out = (Raise (WorkoutSessionNotFoundException sid), db))
      /\ (forall s, session_by_id sid db = Some s ->
            WorkoutSession.is_active s = false ->
            out = (Raise (SessionNotActiveException sid), db))
      /\ (forall s e, session_by_id sid db = Some s ->
            WorkoutSession.is_active s = true ->
            exercise_of s db = Some e ->
            commit_succeeds env = true ->
            exists db',
              out = (Ok s, db')
              /\ users db' = users db
              /\ workout_sessions db' = workout_sessions db
              /\ workout_recommendations db'
                 = workout_recommendations db
              /\ exercise_of s db'
                 = Some (Exercise.mk (Exercise.id e) (Exercise.session_id e)
                           (Exercise.exercise_name e)
                           (Exercise.assigned_reps e) (Some c)
                           (Exercise.created_at e))
              /\ List.length (exercises db') = List.length (exercises db)
              /\ (forall i x,
                    nth_error (exercises db) i = Some x ->
                    nth_error (exercises db') i
                    = Some (if Exercise.id x =? Exercise.id e
                            then Exercise.mk (Exercise.id x)
                                   (Exercise.session_id x)
                                   (Exercise.exercise_name x)
                                   (Exercise.assigned_reps x) (Some c)
                                   (Exercise.created_at x)
                            else x)))
      /\ (forall s e, session_by_id sid db = Some s ->
            WorkoutSession.is_active s = true ->
            exercise_of s db = Some e ->
            commit_succeeds env = false ->
            out = (Raise OperationalError, db))).
Proof.
  intros out. subst out. rewrite log_exercise_result_run.
  unfold ExerciseLog_errors. split.
  - intros Hneg. destruct (Z.geb_spec c 0); [lia|].
    eexists. split; [reflexivity|]. left. reflexivity.
  - intros Hpos. destruct (Z.geb_spec c 0); [|lia].
    split; [|split; [|split]].
    + intros ->. reflexivity.
    + intros s -> ->. reflexivity.
    + intros s e Hs Hact He Hcommit.
      rewrite Hs, Hact, He, Hcommit. cbn [negb].
      eexists. split; [reflexivity|].
      cbn [users workout_sessions workout_recommendations].
      do 3 (split; [reflexivity|]).
      cbn [exercises]. split; [|split].
      * unfold exercise_of in *. cbn [exercises].
        apply find_update_where with (f := fun r => _);
          [reflexivity|exact He|apply Z.eqb_refl].
      * unfold update_where. apply length_map.
      * intros i x Hx. unfold update_where.
        rewrite nth_error_map, Hx. reflexivity.
    + intros s e Hs Hact He Hcommit.
      rewrite Hs, Hact, He, Hcommit. reflexivity.
Qed.

(** The first user logs 12 on the open session 3, whose exercise is the
    third row: the exercises of sessions 1 and 2 stay as they are. *)
Lemma log_exercise_result_outcomes_witness :
  0 <= 12
  /\ session_by_id 3 two_users_logged
     = Some (WorkoutSession.mk 3 1 7 None true)
  /\ exercise_of (WorkoutSession.mk 3 1 7 None true) two_users_logged
     = Some (Exercise.mk 3 3 "Push-ups" 12 None 7)
  /\ exists db',
       request (log_exercise_result 3 12) (mkEnv 8 true) two_users_logged
       = (Ok (WorkoutSession.mk 3 1 7 None true), db')
       /\ nth_error (exercises db') 0
          = Some (Exercise.mk 1 1 "Push-ups" 10 (Some 10) 1)
       /\ nth_error (exercises db') 1
          = Some (Exercise.mk 2 2 "Push-ups" 8 (Some 3) 5)
       /\ nth_error (exercises db') 2
          = Some (Exercise.mk 3 3 "Push-ups" 12 (Some 12) 7)
       /\ List.length (exercises db') = 3%nat.
Proof.
  assert (Hc : 0 <= 12) by discriminate.
  assert (Hs : session_by_id 3 two_users_logged
               = Some (WorkoutSession.mk 3 1 7 None true)) by reflexivity.
  assert (He : exercise_of (WorkoutSession.mk 3 1 7 None true)
                 two_users_logged
               = Some (Exercise.mk 3 3 "Push-ups" 12 None 7))
    by reflexivity.
  split; [exact Hc|]. split; [exact Hs|]. split; [exact He|].
  destruct (log_exercise_result_outcomes (mkEnv 8 true) two_users_logged
              3 12) as [_ H].
  destruct (H Hc) as (_ & _ & Hok & _).
  destruct (Hok _ _ Hs eq_refl He eq_refl)
    as (db' & Hrun & _ & _ & _ & _ & Hlen & Hrows).
  exists db'. split; [exact Hrun|].
  split; [exact (Hrows 0%nat _ eq_refl)|].
  split; [exact (Hrows 1%nat _ eq_refl)|].
  split; [exact (Hrows 2%nat _ eq_refl)|].
  rewrite Hlen. reflexivity.
Defined.

(** X2.  Logging again replaces the earlier value and keeps no trace of
    it: two logs on the same session, the second valid and committed,
    leave the database that the second alone would have left. *)
Theorem log_exercise_overwrites env1 env2 db sid c1 c2 :
  0 <= c2 ->
  commit_succeeds env2 = true ->
  handle env2 (handle env1 db (LogExercise sid c1)) (LogExercise sid c2)
  = handle env2 db (LogExercise sid c2).
Proof.
  intros Hc2 Hcommit. cbn [handle].
  rewrite (log_exercise_result_run env1 db).
  destruct (ExerciseLog_errors c1); [|reflexivity].
  destruct (session_by_id sid db) as [s|] eqn:Hs; [|reflexivity].
  destruct (WorkoutSession.is_active s) eqn:Hact; [|reflexivity].
  cbn [negb].
  destruct (exercise_of s db) as [e|] eqn:He; [|reflexivity].
  destruct (commit_succeeds env1); [|reflexivity].
  cbn [snd]. rewrite !log_exercise_result_run.
  unfold ExerciseLog_errors. destruct (Z.geb_spec c2 0); [|lia].
  unfold session_by_id, exercise_of in *.
  cbn [workout_sessions exercises users workout_recommendations].
  rewrite Hs, Hact, He, Hcommit. cbn [negb].
  erewrite find_update_where;
    [|intros r; reflexivity|exact He|apply Z.eqb_refl].
  cbn [snd Exercise.id]. f_equal.
  apply update_where_twice; reflexivity.
Qed.

Lemma log_exercise_overwrites_witness :
  0 <= 7 /\ commit_succeeds (mkEnv 3 true) = true
  /\ handle (mkEnv 3 true) api_flow_logged (LogExercise 1 7)
     = handle (mkEnv 3 true) api_flow_started (LogExercise 1 7).
Proof.
  assert (H0 : 0 <= 7) by discriminate.
  split; [exact H0|]. split; [reflexivity|].
  exact (log_exercise_overwrites (mkEnv 2 true) (mkEnv 3 true)
           api_flow_started 1 10 7 H0 eq_refl).
Defined.

(** ** Rows are kept, and ended sessions are final *)

Lemma transition_session_kept env db db' sid s :
  transition env db db' ->
  session_by_id sid db = Some s ->
  exists s',
    session_by_id sid db' = Some s'
    /\ WorkoutSession.id s' = WorkoutSession.id s
    /\ WorkoutSession.user_id s' = WorkoutSession.user_id s
    /\ WorkoutSession.started_at s' = WorkoutSession.started_at s
    /\ (WorkoutSession.is_active s = false -> s' = s).
Proof.
  intros Htr Hs.
  destruct Htr as [name email _ _|u a n usr _ _ _
                  |sid0 c s0 e _ _ _ _|sid0 s0 e c Hs0 Hact0 _ _];
    unfold session_by_id in *; cbn [workout_sessions].
  - exists s. rewrite Hs. repeat split; reflexivity.
  - exists s. rewrite find_snoc, Hs. repeat split; reflexivity.
  - exists s. rewrite Hs. repeat split; reflexivity.
  - destruct (Z.eqb_spec (WorkoutSession.id s) (WorkoutSession.id s0))
      as [Heq|Hne].
    + eexists. split.
      * apply find_update_where with (f := fun r => _);
          [reflexivity|exact Hs|apply Z.eqb_eq; exact Heq].
      * cbn. do 3 (split; [reflexivity|]). intros Hended.
        (* the session found for [sid0] is this one, and it is active *)
        pose proof (find_some _ _ Hs) as [_ Hid].
        pose proof (find_some _ _ Hs0) as [_ Hid0].
        apply Z.eqb_eq in Hid, Hid0.
        assert (Hsame : sid0 = sid) by congruence.
        rewrite Hsame, Hs in Hs0. injection Hs0 as <-. congruence.
    + exists s. split; [|repeat split; reflexivity].
      rewrite find_update_where_other; [exact Hs|reflexivity|].
      intros r _ Hr. apply Z.eqb_eq in Hr.
      pose proof (find_some _ _ Hs) as [_ Hid]. apply Z.eqb_eq in Hid.
      apply Z.eqb_neq. congruence.
Qed.

(** X3.  An ended session is final: whatever request comes next, the row
    of a session that has [is_active = False] stays exactly as it is (it
    is not reactivated, and its [ended_at] is not moved). *)
Theorem ended_session_is_final env db r sid s :
  session_by_id sid db = Some s ->
  WorkoutSession.is_active s = false ->
  session_by_id sid (handle env db r) = Some s.
Proof.
  intros Hs Hended.
  destruct (handle_step env db r) as [->|Htr]; [exact Hs|].
  destruct (transition_session_kept env db _ sid s Htr Hs)
    as (s' & Hs' & _ & _ & _ & Hsame).
  rewrite Hs', (Hsame Hended). reflexivity.
Qed.

Lemma ended_session_is_final_witness :
  session_by_id 1 api_flow_ended
  = Some (WorkoutSession.mk 1 1 1 (Some 3) false)
  /\ session_by_id 1 (handle (mkEnv 9 true) api_flow_ended (EndSession 1))
     = Some (WorkoutSession.mk 1 1 1 (Some 3) false).
Proof.
  split; [reflexivity|].
  exact (ended_session_is_final (mkEnv 9 true) api_flow_ended
           (EndSession 1) 1 _ eq_refl eq_refl).
Defined.

(** X4.  No request deletes or re-keys a row: a user that can be looked
    up stays, unchanged, and a session that can be looked up stays with
    its id, its user and its start time. *)
Theorem rows_are_kept env db r :
  (forall uid u, user_by_id uid db = Some u ->
     user_by_id uid (handle env db r) = Some u)
  /\ (forall sid s, session_by_id sid db = Some s ->
        exists s',
          session_by_id sid (handle env db r) = Some s'
          /\ WorkoutSession.id s' = WorkoutSession.id s
          /\ WorkoutSession.user_id s' = WorkoutSession.user_id s
          /\ WorkoutSession.started_at s' = WorkoutSession.started_at s).
Proof.
  destruct (handle_step env db r) as [->|Htr].
  - split; [auto|]. intros sid s Hs. exists s. repeat split; auto.
  - split.
    + intros uid u Hu.
      destruct Htr; unfold user_by_id in *; cbn [users]; try exact Hu.
      rewrite find_snoc, Hu. reflexivity.
    + intros sid s Hs.
      destruct (transition_session_kept env db _ sid s Htr Hs)
        as (s' & Hs' & Hid & Huser & Hstart & _).
      exists s'. repeat split; assumption.
Qed.

(** ** What every reachable database satisfies *)

(** X5.  In every reachable database a user has at most one
    recommendation row, every stored recommendation is at least 1, and
    every user with an ended session has a recommendation. *)
Theorem reachable_recommendations db :
  reachable db ->
  NoDup (map WorkoutRecommendation.user_id (workout_recommendations db))
  /\ (forall r, In r (workout_recommendations db) ->
        1 <= WorkoutRecommendation.next_recommended_reps r)
  /\ (forall s, In s (workout_sessions db) ->
        WorkoutSession.is_active s = false ->
        exists r,
          recommendation_of (WorkoutSession.user_id s) db = Some r
          /\ WorkoutRecommendation.user_id r = WorkoutSession.user_id s).
Proof.
  intros Hr. apply reachable_consistent in Hr.
  destruct Hr as (_ & _ & Hone & Hrec & _ & _ & (_ & _ & Vr) & _).
  split; [exact Hone|]. split; [exact Vr|].
  intros s Hin Hended. specialize (Hrec s Hin Hended).
  destruct (recommendation_of (WorkoutSession.user_id s) db) as [r|] eqn:Hf;
    [|congruence].
  exists r. split; [reflexivity|].
  unfold recommendation_of in Hf. apply find_some in Hf.
  apply Z.eqb_eq. exact (proj2 Hf).
Qed.

Lemma reachable_recommendations_witness :
  reachable api_flow_ended
  /\ exists r,
       recommendation_of 1 api_flow_ended = Some r
       /\ 1 <= WorkoutRecommendation.next_recommended_reps r.
Proof.
  split; [exact api_flow_reachable|].
  destruct (reachable_recommendations api_flow_ended api_flow_reachable)
    as (_ & Hfloor & Hhas).
  destruct (Hhas (WorkoutSession.mk 1 1 1 (Some 3) false))
    as (r & Hr & _); [left; reflexivity|reflexivity|].
  exists r. split; [exact Hr|]. apply Hfloor.
  unfold recommendation_of in Hr. apply find_some in Hr. exact (proj1 Hr).
Defined.

(** X6.  In every reachable database a session is active exactly when
    its [ended_at] is unset: the status the routers report ("active" or
    "completed") and the end timestamp never disagree. *)
Theorem reachable_session_status db s :
  reachable db ->
  In s (workout_sessions db) ->
  (WorkoutSession.is_active s = true <-> WorkoutSession.ended_at s = None)
  /\ (WorkoutSession.is_active s = false
      <-> exists t, WorkoutSession.ended_at s = Some t).
Proof.
  intros Hr Hin. apply reachable_consistent in Hr.
  destruct Hr as (_ & _ & _ & _ & _ & Hopen & _).
  specialize (Hopen s Hin). split; [exact Hopen|].
  destruct Hopen as [H1 H2]. split.
  - intros Hended.
    destruct (WorkoutSession.ended_at s) as [t|];
      [exists t; reflexivity|].
    rewrite (H2 eq_refl) in Hended. discriminate.
  - intros [t Ht].
    destruct (WorkoutSession.is_active s); [|reflexivity].
    rewrite (H1 eq_refl) in Ht. discriminate.
Qed.

Lemma reachable_session_status_witness :
  reachable api_flow_ended
  /\ In (WorkoutSession.mk 1 1 1 (Some 3) false)
        (workout_sessions api_flow_ended)
  /\ (false = false <-> exists t, Some 3 = Some t).
Proof.
  assert (Hin : In (WorkoutSession.mk 1 1 1 (Some 3) false)
                   (workout_sessions api_flow_ended))
    by (left; reflexivity).
  split; [exact api_flow_reachable|]. split; [exact Hin|].
  exact (proj2 (reachable_session_status api_flow_ended _
                  api_flow_reachable Hin)).
Defined.

Lemma find_hd_filter {A} (p : A -> bool) (rows : list A) :
  find p rows = hd_error (filter p rows).
Proof.
  induction rows as [|r rows IH]; [reflexivity|]. cbn [find filter].
  destruct (p r); [reflexivity|exact IH].
Qed.

Lemma filter_unique_key {A} (g : A -> Z) (rows : list A) (x : A) :
  NoDup (map g rows) -> In x rows ->
  filter (fun r => g r =? g x) rows = [x].
Proof.
  induction rows as [|a rows IH]; cbn [map In filter]; [tauto|].
  intros Hnd Hin. inversion Hnd as [|? ? Hnotin Hnd']; subst.
  destruct Hin as [<-|Hin].
  - rewrite Z.eqb_refl. f_equal.
    rewrite (filter_ext_in _ (fun _ => false)); [apply filter_false|].
    intros r Hr. apply Z.eqb_neq. intros Heq.
    apply Hnotin. rewrite <- Heq. apply in_map. exact Hr.
  - destruct (Z.eqb_spec (g a) (g x)) as [Heq|_]; [|apply IH; assumption].
    elim Hnotin. rewrite Heq. apply in_map. exact Hin.
Qed.

(** X7.  In every reachable database each session has exactly one
    exercise row; its assigned reps are positive, its completed reps are
    non-negative once logged, and they are logged if the session has
    ended. *)
Theorem reachable_one_exercise_per_session db s :
  reachable db ->
  In s (workout_sessions db) ->
  exists e,
    exercise_of s db = Some e
    /\ filter (fun x => Exercise.session_id x =? WorkoutSession.id s)
              (exercises db) = [e]
    /\ 0 < Exercise.assigned_reps e
    /\ (forall c, Exercise.completed_reps e = Some c -> 0 <= c)
    /\ (WorkoutSession.is_active s = false ->
        exists c, Exercise.completed_reps e = Some c).
Proof.
  intros Hr Hin. pose proof (reachable_well_formed db Hr) as (_ & Hlog & _).
  apply reachable_consistent in Hr.
  destruct Hr as ((_ & Hs & _ & _) & Hlock & _ & _ & _ & _
                  & (_ & Ve & _) & _).
  unfold one_exercise_per_session in Hlock.
  assert (Hex : In (WorkoutSession.id s)
                   (map Exercise.session_id (exercises db)))
    by (rewrite Hlock; apply in_map; exact Hin).
  apply in_map_iff in Hex. destruct Hex as (e & He & Hine).
  assert (Hfilter : filter (fun x => Exercise.session_id x
                                     =? WorkoutSession.id s)
                           (exercises db) = [e]).
  { rewrite <- He. apply filter_unique_key; [|exact Hine].
    rewrite Hlock. exact Hs. }
  assert (Hof : exercise_of s db = Some e).
  { unfold exercise_of. rewrite find_hd_filter, Hfilter. reflexivity. }
  exists e. split; [exact Hof|]. split; [exact Hfilter|].
  destruct (Ve e Hine) as [Ha Hc]. split; [exact Ha|]. split; [exact Hc|].
  intros Hended.
  destruct (Exercise.completed_reps e) as [c|] eqn:Hcomp;
    [exists c; reflexivity|].
  elim (Hlog s e Hin Hended Hof Hcomp).
Qed.

Lemma reachable_one_exercise_per_session_witness :
  reachable api_flow_ended
  /\ In (WorkoutSession.mk 1 1 1 (Some 3) false)
        (workout_sessions api_flow_ended)
  /\ exists e,
       exercise_of (WorkoutSession.mk 1 1 1 (Some 3) false) api_flow_ended
       = Some e
       /\ 0 < Exercise.assigned_reps e.
Proof.
  assert (Hin : In (WorkoutSession.mk 1 1 1 (Some 3) false)
                   (workout_sessions api_flow_ended))
    by (left; reflexivity).
  split; [exact api_flow_reachable|]. split; [exact Hin|].
  destruct (reachable_one_exercise_per_session api_flow_ended _
              api_flow_reachable Hin) as (e & He & _ & Ha & _).
  exists e. split; assumption.
Defined.

(** ** Users *)

Lemma create_user_endpoint_run env db name email :
  request (create_user_endpoint name email) env db =
  match UserCreate_errors name email with
  | (_ :: _) as errors => (Raise (RequestValidationError errors), db)
  | [] =>
    if email_taken (email_value email) db then (Raise IntegrityError, db)
    else if commit_succeeds env then
      let u := User.mk (next_id User.id (users db)) name
                       (email_value email) (utcnow env) in
      (Ok u, mkDatabase (users db ++ [u]) (workout_sessions db)
               (exercises db) (workout_recommendations db))
    else (Raise OperationalError, db)
  end.
Proof. exact (create_user_run env db name email). Qed.

(** X8.  [create_user] behind its schema.  A name shorter than 2 or
    longer than 100 characters and an email that [EmailStr] refuses are
    validation errors, reported field by field (both when both fail).
    For a body that passes, an address that is already in the table
    makes the commit fail with [IntegrityError], reported as 500.  All
    of these leave the database as it was.  Otherwise (when the store
    commits) one user is appended with a fresh id, the accepted address
    (or none) and the current time, and looking that id up returns the
    new user while every earlier lookup is unchanged. *)
Theorem create_user_outcomes env db name email :
  let out := request (create_user_endpoint name email) env db in
  let short_or_long :=
    (String.length name < 2 \/ 100 < String.length name)%nat in
  (short_or_long ->
   (forall raw, email <> RejectedEmail raw) ->
   out = (Raise (RequestValidationError ["body.name"%string]), db))
  /\ (forall raw,
        (2 <= String.length name <= 100)%nat ->
        email = RejectedEmail raw ->
        out = (Raise (RequestValidationError ["body.email"%string]), db))
  /\ (forall raw,
        short_or_long ->
        email = RejectedEmail raw ->
        out = (Raise (RequestValidationError
                        ["body.name"%string; "body.email"%string]), db))
  /\ ((2 <= String.length name <= 100)%nat ->
      (forall raw, email <> RejectedEmail raw) ->
      (forall address, email = AcceptedEmail address ->
         In address (emails db) ->
         out = (Raise IntegrityError, db)
         /\ status_code IntegrityError = 500)
      /\ ((forall address, email = AcceptedEmail address ->
            ~ In address (emails db)) ->
          commit_succeeds env = true ->
          exists u db',
            out = (Ok u, db')
            /\ users db' = users db ++ [u]
            /\ User.name u = name
            /\ User.email u = email_value email
            /\ User.created_at u = utcnow env
            /\ (forall u0, In u0 (users db) -> User.id u0 < User.id u)
            /\ user_by_id (User.id u) db' = Some u
            /\ (forall uid u0, user_by_id uid db = Some u0 ->
                  user_by_id uid db' = Some u0)
            /\ workout_sessions db' = workout_sessions db
            /\ exercises db' = exercises db
            /\ workout_recommendations db' = workout_recommendations db)).
Proof.
  intros out short_or_long. subst out short_or_long.
  rewrite create_user_endpoint_run. unfold UserCreate_errors.
  assert (Hbad : (String.length name < 2 \/ 100 < String.length name)%nat ->
                 ((2 <=? String.length name)
                  && (String.length name <=? 100))%nat = false).
  { intros Hb. apply andb_false_iff.
    destruct Hb; [left; apply Nat.leb_gt|right; apply Nat.leb_gt];
      assumption. }
  assert (Hgood : (2 <= String.length name <= 100)%nat ->
                  ((2 <=? String.length name)
                   && (String.length name <=? 100))%nat = true).
  { intros [H2 H100]. apply andb_true_iff.
    split; apply Nat.leb_le; assumption. }
  split; [|split; [|split]].
  - intros Hb Hnot. rewrite (Hbad Hb).
    destruct email as [|raw|address]; try reflexivity.
    elim (Hnot raw). reflexivity.
  - intros raw Hg ->. rewrite (Hgood Hg). reflexivity.
  - intros raw Hb ->. rewrite (Hbad Hb). reflexivity.
  - intros Hg Hnot. rewrite (Hgood Hg).
    assert (Hnone : match email with
                    | RejectedEmail _ => ["body.email"%string]
                    | _ => []
                    end = []).
    { destruct email as [|raw|address]; try reflexivity.
      elim (Hnot raw). reflexivity. }
    rewrite Hnone. cbn [app]. split.
    + intros address -> Hin. cbn [email_value].
      apply email_taken_iff in Hin. rewrite Hin. split; reflexivity.
    + intros Hfree Hcommit.
      assert (Htaken : email_taken (email_value email) db = false).
      { destruct email as [|raw|address]; try reflexivity.
        cbn [email_value].
        destruct (email_taken (Some address) db) eqn:Ht; [|reflexivity].
        apply email_taken_iff in Ht. elim (Hfree address eq_refl Ht). }
      rewrite Htaken, Hcommit. cbv zeta.
      eexists. eexists. split; [reflexivity|].
      cbn [users workout_sessions exercises workout_recommendations
           User.id User.name User.email User.created_at].
      do 4 (split; [reflexivity|]).
      split; [intros u0; apply next_id_above|].
      unfold user_by_id. cbn [users]. split; [|split].
      * rewrite find_snoc, find_fresh. cbn [User.id].
        rewrite Z.eqb_refl. reflexivity.
      * intros uid u0 Hu0. rewrite find_snoc, Hu0. reflexivity.
      * repeat split.
Qed.

(** With "test@example.com" stored: a one-letter name with a refused
    email fails on both fields, the stored address again is an
    [IntegrityError], and a second user without email gets id 2. *)
Lemma create_user_outcomes_witness :
  request (create_user_endpoint "A" (RejectedEmail "not-an-email"))
          (mkEnv 4 true) api_flow_user
  = (Raise (RequestValidationError
              ["body.name"%string; "body.email"%string]), api_flow_user)
  /\ request (create_user_endpoint "Test Two"
                (AcceptedEmail "test@example.com"))
             (mkEnv 4 true) api_flow_user
     = (Raise IntegrityError, api_flow_user)
  /\ exists u db',
       request (create_user_endpoint "Second User" NoEmail)
               (mkEnv 4 true) api_flow_user
       = (Ok u, db')
       /\ users db' = users api_flow_user ++ [u]
       /\ User.email u = None
       /\ user_by_id (User.id u) db' = Some u.
Proof.
  split; [|split].
  - destruct (create_user_outcomes (mkEnv 4 true) api_flow_user "A"
                (RejectedEmail "not-an-email")) as (_ & _ & H & _).
    apply (H "not-an-email"%string); [left; cbn; lia|reflexivity].
  - destruct (create_user_outcomes (mkEnv 4 true) api_flow_user "Test Two"
                (AcceptedEmail "test@example.com")) as (_ & _ & _ & H).
    destruct H as [H _]; [cbn; lia|discriminate|].
    apply (H "test@example.com"%string eq_refl). left. reflexivity.
  - destruct (create_user_outcomes (mkEnv 4 true) api_flow_user
                "Second User" NoEmail) as (_ & _ & _ & H).
    destruct H as [_ H]; [cbn; lia|discriminate|].
    destruct H as (u & db' & Hrun & Husers & _ & Hemail & _ & _ & Hfind & _);
      [discriminate|reflexivity|].
    exists u, db'. repeat split; assumption.
Defined.

(** X9.  In every reachable database user names have 2 to 100
    characters, no two users share an email, and every session belongs to
    a user that exists. *)
Theorem reachable_users db :
  reachable db ->
  (forall u, In u (users db) ->
     (2 <= String.length (User.name u) <= 100)%nat)
  /\ NoDup (emails db)
  /\ (forall s, In s (workout_sessions db) ->
        exists u, user_by_id (WorkoutSession.user_id s) db = Some u
                  /\ User.id u = WorkoutSession.user_id s).
Proof.
  intros Hr. apply reachable_consistent in Hr.
  destruct Hr as (_ & _ & _ & _ & Husers & _ & (Vu & _ & _) & Hmail).
  split; [exact Vu|]. split; [exact Hmail|].
  intros s Hin. specialize (Husers s Hin).
  destruct (user_by_id (WorkoutSession.user_id s) db) as [u|] eqn:Hu;
    [|congruence].
  exists u. split; [reflexivity|].
  unfold user_by_id in Hu. apply find_some in Hu.
  apply Z.eqb_eq. exact (proj2 Hu).
Qed.

Lemma reachable_users_witness :
  reachable api_flow_ended
  /\ NoDup (emails api_flow_ended)
  /\ exists u, user_by_id 1 api_flow_ended = Some u /\ User.id u = 1.
Proof.
  split; [exact api_flow_reachable|].
  destruct (reachable_users api_flow_ended api_flow_reachable)
    as (_ & Hmail & Hu).
  split; [exact Hmail|].
  exact (Hu (WorkoutSession.mk 1 1 1 (Some 3) false)
            (or_introl eq_refl)).
Defined.

(** ** User statistics *)

Lemma reachable_single_active db : reachable db -> single_active db.
Proof.
  induction 1 as [|env db r _ IH].
  - intros u. cbn. lia.
  - apply handle_single_active. exact IH.
Qed.

Lemma get_user_stats_run env db u :
  request (get_user_stats u) env db =
  match user_by_id u db with
  | None => (Raise (UserNotFoundException u), db)
  | Some _ =>
      (Ok (UserStats.mk
             (Z.of_nat (List.length
                          (filter (fun s => WorkoutSession.user_id s =? u)
                                  (workout_sessions db))))
             (Z.of_nat (List.length (exercises_joined u db)))
             (Z.of_nat (List.length (active_sessions u db)))
             match recommendation_of u db with
             | Some r => WorkoutRecommendation.next_recommended_reps r
             | None => 10
             end), db)
  end.
Proof.
  unfold get_user_stats. tx_unfold. tx_cases.
Qed.

Lemma filter_andb {A} (p q : A -> bool) (rows : list A) :
  filter (fun r => p r && q r) rows = filter q (filter p rows).
Proof.
  induction rows as [|r rows IH]; [reflexivity|]. cbn [filter].
  destruct (p r); cbn [andb filter]; [|exact IH].
  destruct (q r); [f_equal|]; exact IH.
Qed.

(** With unique session ids and the exercises in step with the sessions,
    the join has one pair per session of the user. *)
Lemma exercises_joined_count u all :
  NoDup (map WorkoutSession.id all) ->
  forall exs part,
    map Exercise.session_id exs = map WorkoutSession.id part ->
    incl part all ->
    List.length
      (flat_map
         (fun e =>
            map (fun s => (e, s))
                (filter (fun s => (WorkoutSession.id s
                                   =? Exercise.session_id e)
                                  && (WorkoutSession.user_id s =? u))
                        all))
         exs)
    = List.length (filter (fun s => WorkoutSession.user_id s =? u) part).
Proof.
  intros Hnd exs. induction exs as [|e exs IH]; intros [|s part] Hmap Hincl;
    try discriminate; [reflexivity|].
  cbn [map] in Hmap. injection Hmap as He Hmap.
  cbn [flat_map]. rewrite length_app, length_map, filter_andb.
  rewrite He,
    (filter_unique_key WorkoutSession.id all s Hnd
       (Hincl s (or_introl eq_refl))).
  rewrite (IH part Hmap) by (intros x Hx; apply Hincl; right; exact Hx).
  cbn [filter]. destruct (WorkoutSession.user_id s =? u); reflexivity.
Qed.

(** X10.  For an existing user of a reachable database [get_user_stats]
    returns, with as many exercises as workouts, 0 or 1 active sessions,
    and a current recommendation of at least 1; it fails only when the
    user does not exist. *)
Theorem get_user_stats_reachable env db u :
  reachable db ->
  (user_by_id u db = None ->
   request (get_user_stats u) env db
   = (Raise (UserNotFoundException u), db))
  /\ (user_by_id u db <> None ->
      exists st,
        request (get_user_stats u) env db = (Ok st, db)
        /\ UserStats.total_exercises st = UserStats.total_workouts st
        /\ 0 <= UserStats.active_sessions st <= 1
        /\ UserStats.active_sessions st <= UserStats.total_workouts st
        /\ 1 <= UserStats.current_recommended_reps st).
Proof.
  intros Hr. rewrite get_user_stats_run. split.
  - intros ->. reflexivity.
  - intros Hu. destruct (user_by_id u db); [|congruence].
    eexists. split; [reflexivity|].
    cbn [UserStats.total_exercises UserStats.total_workouts
         UserStats.active_sessions UserStats.current_recommended_reps].
    pose proof (reachable_consistent db Hr)
      as ((_ & Hs & _ & _) & Hlock & _ & _ & _ & _ & (_ & _ & Vr) & _).
    pose proof (reachable_single_active db Hr u) as Hsingle.
    split; [|split; [lia|split]].
    + f_equal. unfold exercises_joined.
      apply exercises_joined_count;
        [exact Hs|exact Hlock|apply incl_refl].
    + apply inj_le. unfold active_sessions. rewrite filter_andb.
      apply filter_length_le.
    + destruct (recommendation_of u db) as [r|] eqn:Hrec; [|lia].
      apply Vr. unfold recommendation_of in Hrec.
      apply find_some in Hrec. exact (proj1 Hrec).
Qed.

Lemma get_user_stats_reachable_witness :
  reachable api_flow_ended
  /\ exists st,
       request (get_user_stats 1) (mkEnv 4 true) api_flow_ended
       = (Ok st, api_flow_ended)
       /\ UserStats.total_exercises st = UserStats.total_workouts st.
Proof.
  split; [exact api_flow_reachable|].
  destruct (get_user_stats_reachable (mkEnv 4 true) api_flow_ended 1
              api_flow_reachable) as [_ H].
  destruct H as (st & Hrun & Heq & _); [discriminate|].
  exists st. split; assumption.
Defined.

Lemma sessions_partition u rows :
  List.length (filter (fun s => WorkoutSession.user_id s =? u) rows)
  = Nat.add
      (List.length
         (filter (fun s => (WorkoutSession.user_id s =? u)
                           && Bool.eqb (WorkoutSession.is_active s) true)
                 rows))
      (List.length
         (filter (fun s => (WorkoutSession.user_id s =? u)
                           && Bool.eqb (WorkoutSession.is_active s) false)
                 rows)).
Proof.
  induction rows as [|s rows IH]; [reflexivity|]. cbn [filter].
  destruct (WorkoutSession.user_id s =? u); cbn [andb]; [|exact IH].
  destruct (WorkoutSession.is_active s); cbn [Bool.eqb List.length];
    rewrite IH; lia.
Qed.

(** The recommended reps on a reachable database: the stored value, or
    10 for a user without one. *)
Lemma get_recommendation_reachable env db u :
  reachable db ->
  user_by_id u db <> None ->
  exists v,
    request (get_recommendation u) env db = (Ok v, db)
    /\ recommended_reps v
       = match recommendation_of u db with
         | Some r => WorkoutRecommendation.next_recommended_reps r
         | None => 10
         end
    /\ sessions_count (progression v)
       = Z.of_nat (List.length (ended_sessions u db))
    /\ (last_session v = None <-> ended_sessions u db = [])
    /\ (forall s, last_session v = Some s -> In s (ended_sessions u db)).
Proof.
  intros Hr Hu.
  pose proof (reachable_well_formed db Hr) as (Hp & Hl & _).
  pose proof (reachable_consistent db Hr)
    as (_ & _ & _ & Hrec & _).
  destruct (ended_sessions u db) as [|s0 rest] eqn:Hended.
  - eexists. split; [apply get_recommendation_new; assumption|].
    cbn [recommended_reps progression sessions_count last_session
         List.length].
    repeat split; try reflexivity. discriminate.
  - destruct (get_recommendation_history env db u Hp Hl Hu)
      as (s & e & c & s1 & e1 & Hlast & _ & _ & _ & _ & Hrun);
      [rewrite Hended; discriminate|].
    cbv zeta in Hrun. rewrite Hended in Hrun.
    eexists. split; [exact Hrun|].
    cbn [recommended_reps progression sessions_count last_session].
    assert (Hin0 : In s0 (ended_sessions u db))
      by (rewrite Hended; left; reflexivity).
    apply ended_sessions_In in Hin0. destruct Hin0 as (Hin0 & Hu0 & Hact0).
    specialize (Hrec s0 Hin0 Hact0). rewrite Hu0 in Hrec.
    destruct (recommendation_of u db); [|congruence].
    split; [reflexivity|]. split; [reflexivity|].
    split; [split; discriminate|].
    intros x [= <-]. rewrite <- Hended.
    apply last_ended_session_latest in Hlast. exact (proj1 Hlast).
Qed.

(** X11.  On a reachable database the two read paths agree: the current
    recommendation in the user statistics is the recommended value of
    [get_recommendation], and the completed sessions it counts plus the
    active sessions of the statistics are all the user's workouts. *)
Theorem user_stats_match_recommendation env db u :
  reachable db ->
  user_by_id u db <> None ->
  exists st v,
    request (get_user_stats u) env db = (Ok st, db)
    /\ request (get_recommendation u) env db = (Ok v, db)
    /\ UserStats.current_recommended_reps st = recommended_reps v
    /\ sessions_count (progression v) + UserStats.active_sessions st
       = UserStats.total_workouts st.
Proof.
  intros Hr Hu.
  destruct (get_recommendation_reachable env db u Hr Hu)
    as (v & Hrun & Hval & Hcount & _).
  rewrite get_user_stats_run.
  destruct (user_by_id u db); [|congruence].
  eexists. exists v. split; [reflexivity|]. split; [exact Hrun|].
  cbn [UserStats.current_recommended_reps UserStats.active_sessions
       UserStats.total_workouts].
  split; [symmetry; exact Hval|].
  rewrite Hcount. unfold ended_sessions, active_sessions.
  rewrite (sessions_partition u (workout_sessions db)). lia.
Qed.

Lemma user_stats_match_recommendation_witness :
  reachable api_flow_ended
  /\ user_by_id 1 api_flow_ended <> None
  /\ exists st v,
       request (get_user_stats 1) (mkEnv 4 true) api_flow_ended
       = (Ok st, api_flow_ended)
       /\ request (get_recommendation 1) (mkEnv 4 true) api_flow_ended
          = (Ok v, api_flow_ended)
       /\ UserStats.current_recommended_reps st = recommended_reps v.
Proof.
  assert (Hu : user_by_id 1 api_flow_ended <> None) by discriminate.
  split; [exact api_flow_reachable|]. split; [exact Hu|].
  destruct (user_stats_match_recommendation (mkEnv 4 true) api_flow_ended 1
              api_flow_reachable Hu) as (st & v & H1 & H2 & H3 & _).
  exists st, v. repeat split; assumption.
Defined.

(** X12.  After a session is ended on a reachable database, the next
    [get_recommendation] for its user succeeds and recommends exactly the
    reps that ending the session returned, with at least one completed
    session counted. *)
Theorem end_then_get_recommendation env env' db sid s' next db' :
  reachable db ->
  request (end_workout sid) env db = (Ok (s', next), db') ->
  exists v,
    request (get_recommendation (WorkoutSession.user_id s')) env' db'
    = (Ok v, db')
    /\ recommended_reps v = next
    /\ 1 <= sessions_count (progression v)
    /\ trend (progression v) <> "new"%string.
Proof.
  intros Hr Hrun.
  assert (Hr' : reachable db').
  { replace db' with (handle env db (EndSession sid));
      [apply reachable_step; exact Hr|].
    cbn [handle]. rewrite Hrun. reflexivity. }
  unfold end_workout in Hrun.
  apply end_workout_session_commits in Hrun.
  destruct Hrun as (s & e & c & r & _ & _ & _ & _ & _ & _ & Hs' & Hfind
                    & Hrec & Hnext & _).
  pose proof (session_by_id_in _ _ _ Hfind) as Hin.
  assert (Hended : In s' (ended_sessions (WorkoutSession.user_id s') db')).
  { apply ended_sessions_In. split; [exact Hin|]. split; [reflexivity|].
    rewrite Hs'. reflexivity. }
  pose proof (reachable_consistent db' Hr')
    as (_ & _ & _ & _ & Husers & _).
  pose proof (reachable_well_formed db' Hr') as (Hp & Hl & _).
  destruct (get_recommendation_history env' db'
              (WorkoutSession.user_id s') Hp Hl (Husers s' Hin))
    as (s2 & e2 & c2 & s1 & e1 & _ & _ & _ & _ & _ & Hget).
  { intros Hnil. rewrite Hnil in Hended. destruct Hended. }
  cbv zeta in Hget. rewrite Hrec in Hget.
  eexists. split; [exact Hget|].
  cbn [recommended_reps progression sessions_count trend].
  split; [exact Hnext|]. split.
  - destruct (ended_sessions (WorkoutSession.user_id s') db');
      [destruct Hended|]. cbn [List.length]. lia.
  - destruct (c2 >=? Exercise.assigned_reps e2); discriminate.
Qed.

Lemma end_then_get_recommendation_witness :
  reachable api_flow_logged
  /\ request (end_workout 1) (mkEnv 3 true) api_flow_logged
     = (Ok (WorkoutSession.mk 1 1 1 (Some 3) false, 12), api_flow_ended)
  /\ exists v,
       request (get_recommendation 1) (mkEnv 4 true) api_flow_ended
       = (Ok v, api_flow_ended)
       /\ recommended_reps v = 12.
Proof.
  assert (Hr : reachable api_flow_logged).
  { unfold api_flow_logged, api_flow_started, api_flow_user.
    repeat apply reachable_step. apply reachable_empty. }
  assert (Hrun : request (end_workout 1) (mkEnv 3 true) api_flow_logged
                 = (Ok (WorkoutSession.mk 1 1 1 (Some 3) false, 12),
                    api_flow_ended)) by reflexivity.
  split; [exact Hr|]. split; [exact Hrun|].
  destruct (end_then_get_recommendation (mkEnv 3 true) (mkEnv 4 true)
              _ _ _ _ _ Hr Hrun) as (v & Hget & Hv & _).
  exists v. split; assumption.
Defined.

(** ** The recommendation response *)

Lemma get_recommendation_state env st u :
  snd (get_recommendation u env st) = st.
Proof.
  unfold get_recommendation, completed_or_TypeError. tx_unfold.
  destruct st as [c p]. tx_cases.
Qed.

Lemma get_recommendation_from_request env db u :
  get_recommendation u env (mkDbSession db db)
  = (fst (request (get_recommendation u) env db), mkDbSession db db).
Proof.
  pose proof (get_recommendation_state env (mkDbSession db db) u) as Hst.
  unfold request.
  destruct (get_recommendation u env (mkDbSession db db)) as [r st].
  cbn [fst snd] in *. rewrite Hst. reflexivity.
Qed.

(** X13.  GET recommendations on a reachable database fails only for a
    user that does not exist.  Otherwise the response recommends at
    least 1 rep; it has no last workout exactly when the user has no
    ended session; and a last workout it reports is an ended session of
    the user with its completed reps set and its end time as date (the
    fallback to the start time is never taken). *)
Theorem get_workout_recommendation_reachable env db u :
  reachable db ->
  (user_by_id u db = None ->
   request (get_workout_recommendation u) env db
   = (Raise (UserNotFoundException u), db))
  /\ (user_by_id u db <> None ->
      exists resp,
        request (get_workout_recommendation u) env db = (Ok resp, db)
        /\ RecommendationResponse.user_id resp = u
        /\ 1 <= RecommendationResponse.recommended_reps resp
        /\ (RecommendationResponse.last_workout resp = None
            <-> ended_sessions u db = [])
        /\ (forall w, RecommendationResponse.last_workout resp = Some w ->
              exists s c,
                In s (ended_sessions u db)
                /\ LastWorkoutInfo.session_id w = WorkoutSession.id s
                /\ LastWorkoutInfo.completed_reps w = Some c
                /\ WorkoutSession.ended_at s
                   = Some (LastWorkoutInfo.date w))).
Proof.
  intros Hr.
  unfold get_workout_recommendation, request, bind.
  rewrite get_recommendation_from_request. split.
  - intros Hu. rewrite get_recommendation_run, Hu. reflexivity.
  - intros Hu.
    destruct (get_recommendation_reachable env db u Hr Hu)
      as (v & Hrun & Hval & _ & Hnone & Hsome).
    rewrite Hrun. cbn [fst].
    pose proof (reachable_well_formed db Hr) as (Hp & Hl & _).
    pose proof (reachable_consistent db Hr)
      as (_ & _ & _ & _ & _ & Hopen & (_ & _ & Vr) & _).
    assert (Hfloor : 1 <= recommended_reps v).
    { rewrite Hval. destruct (recommendation_of u db) as [r|] eqn:Hrec;
        [|lia].
      apply Vr. unfold recommendation_of in Hrec.
      apply find_some in Hrec. exact (proj1 Hrec). }
    destruct (last_session v) as [s|] eqn:Hlast.
    + pose proof (Hsome s eq_refl) as Hin.
      destruct (ended_session_exercise u db s Hp Hl Hin)
        as (e & c & He & Hc).
      pose proof (proj1 (ended_sessions_In u db s) Hin)
        as (Hin' & _ & Hact).
      unfold query, ret. cbn [pending committed]. rewrite He.
      cbn [committed].
      eexists. split; [reflexivity|].
      cbn [RecommendationResponse.user_id
           RecommendationResponse.recommended_reps
           RecommendationResponse.last_workout].
      split; [reflexivity|]. split; [exact Hfloor|]. split.
      * split; [discriminate|]. intros Hnil. apply Hnone in Hnil.
        discriminate.
      * intros w [= <-]. exists s, c.
        cbn [LastWorkoutInfo.session_id LastWorkoutInfo.completed_reps
             LastWorkoutInfo.date].
        split; [exact Hin|]. split; [reflexivity|]. split; [exact Hc|].
        destruct (WorkoutSession.ended_at s) as [t|] eqn:Hend;
          [reflexivity|].
        apply (Hopen s Hin') in Hend. congruence.
    + unfold ret. cbn [committed].
      eexists. split; [reflexivity|].
      cbn [RecommendationResponse.user_id
           RecommendationResponse.recommended_reps
           RecommendationResponse.last_workout].
      split; [reflexivity|]. split; [exact Hfloor|]. split.
      * split; [intros _; apply Hnone; reflexivity|reflexivity].
      * discriminate.
Qed.

Lemma get_workout_recommendation_reachable_witness :
  reachable api_flow_ended
  /\ exists resp,
       request (get_workout_recommendation 1) (mkEnv 4 true) api_flow_ended
       = (Ok resp, api_flow_ended)
       /\ 1 <= RecommendationResponse.recommended_reps resp.
Proof.
  split; [exact api_flow_reachable|].
  destruct (get_workout_recommendation_reachable (mkEnv 4 true)
              api_flow_ended 1 api_flow_reachable) as [_ H].
  destruct H as (resp & Hrun & _ & Hfloor & _); [discriminate|].
  exists resp. split; assumption.
Defined.

(** ** Listings *)

Lemma count_user_workout_sessions_run env db u status :
  request (count_user_workout_sessions u status) env db =
  match user_by_id u db with
  | None => (Raise (UserNotFoundException u), db)
  | Some _ =>
      let of_user :=
        filter (fun s => WorkoutSession.user_id s =? u)
               (workout_sessions db) in
      (Ok (Z.of_nat
             (List.length
                (if String.eqb status "active"
                 then filter (fun s => Bool.eqb (WorkoutSession.is_active s)
                                                true) of_user
                 else if String.eqb status "completed"
                 then filter (fun s => Bool.eqb (WorkoutSession.is_active s)
                                                false) of_user
                 else of_user))), db)
  end.
Proof.
  unfold count_user_workout_sessions. tx_unfold.
  destruct (user_by_id u db); reflexivity.
Qed.

Lemma active_flag_partition (rows : list WorkoutSession.t) :
  List.length rows
  = Nat.add
      (List.length
         (filter (fun s => Bool.eqb (WorkoutSession.is_active s) true) rows))
      (List.length
         (filter (fun s => Bool.eqb (WorkoutSession.is_active s) false)
                 rows)).
Proof.
  induction rows as [|s rows IH]; [reflexivity|]. cbn [filter].
  destruct (WorkoutSession.is_active s); cbn [Bool.eqb List.length];
    rewrite IH; lia.
Qed.

(** X14.  The status filter of the session listing splits the user's
    sessions in two: for an existing user the count for "all" is the
    count for "active" plus the count for "completed", any other status
    string counts like "all", and the counts agree with the active and
    ended sessions the other operations look at. *)
Theorem status_filter_counts env db u :
  user_by_id u db <> None ->
  exists n_all n_active n_completed,
    request (count_user_workout_sessions u "all") env db = (Ok n_all, db)
    /\ request (count_user_workout_sessions u "active") env db
       = (Ok n_active, db)
    /\ request (count_user_workout_sessions u "completed") env db
       = (Ok n_completed, db)
    /\ n_all = n_active + n_completed
    /\ n_active = Z.of_nat (List.length (active_sessions u db))
    /\ n_completed = Z.of_nat (List.length (ended_sessions u db))
    /\ (forall status,
          status <> "active"%string -> status <> "completed"%string ->
          request (count_user_workout_sessions u status) env db
          = (Ok n_all, db)).
Proof.
  intros Hu. do 3 eexists.
  rewrite !count_user_workout_sessions_run.
  destruct (user_by_id u db) eqn:Hfound; [|congruence]. cbv zeta.
  cbn [String.eqb Ascii.eqb Bool.eqb].
  do 3 (split; [reflexivity|]).
  split; [|split; [|split]].
  - rewrite (active_flag_partition (filter _ (workout_sessions db))). lia.
  - unfold active_sessions. rewrite filter_andb. reflexivity.
  - unfold ended_sessions. rewrite filter_andb. reflexivity.
  - intros status Ha Hc. rewrite count_user_workout_sessions_run, Hfound.
    cbv zeta.
    destruct (String.eqb_spec status "active"); [contradiction|].
    destruct (String.eqb_spec status "completed"); [contradiction|].
    reflexivity.
Qed.

Lemma status_filter_counts_witness :
  user_by_id 1 api_flow_ended <> None
  /\ request (count_user_workout_sessions 1 "completed") (mkEnv 4 true)
             api_flow_ended
     = (Ok 1, api_flow_ended).
Proof.
  assert (Hu : user_by_id 1 api_flow_ended <> None) by discriminate.
  split; [exact Hu|].
  destruct (status_filter_counts (mkEnv 4 true) api_flow_ended 1 Hu)
    as (n_all & n_active & n_completed & _ & _ & Hrun & _ & _ & Hn & _).
  rewrite Hrun, Hn. reflexivity.
Defined.

(** X15.  Edge cases of the listings.  A session listing for a user that
    does not exist fails with [UserNotFoundException] whatever the paging.
    With [limit = 0] the user listing fails with [ZeroDivisionError]
    (reported as 500) as soon as there is one user, and reports one empty
    page when there is none.  With a positive limit it always reports at
    least one page and a page size of at most 100. *)
Theorem listing_edge_cases env db page :
  (forall u status limit,
     user_by_id u db = None ->
     request (list_user_workouts u status page limit) env db
     = (Raise (UserNotFoundException u), db))
  /\ (users db <> [] ->
      request (list_users page 0) env db = (Raise ZeroDivisionError, db)
      /\ status_code ZeroDivisionError = 500)
  /\ (users db = [] ->
      forall limit,
        request (list_users page limit) env db
        = (Ok (mkPaginationMeta page 1 0 (Z.min limit 100)), db))
  /\ (forall limit, 0 < limit ->
        exists m,
          request (list_users page limit) env db = (Ok m, db)
          /\ 1 <= total_pages m
          /\ 0 < items_per_page m <= 100
          /\ total_items m = Z.of_nat (List.length (users db))).
Proof.
  split; [|split; [|split]].
  - intros u status limit Hu.
    unfold list_user_workouts, count_user_workout_sessions. tx_unfold.
    rewrite Hu. reflexivity.
  - intros Hne. split; [|reflexivity].
    unfold list_users, count_users, pagination, math_ceil_div. tx_unfold.
    destruct (users db) as [|x l]; [congruence|]. reflexivity.
  - intros Hnil limit.
    unfold list_users, count_users, pagination. tx_unfold.
    rewrite Hnil. reflexivity.
  - intros limit Hpos.
    unfold list_users, count_users, pagination, math_ceil_div, page_size.
    tx_unfold.
    set (total := Z.of_nat (List.length (users db))).
    assert (Htotal : 0 <= total) by apply Nat2Z.is_nonneg.
    destruct (Z.gtb_spec total 0) as [Hsome|Hnone]; cbn [pending committed].
    + destruct (Z.eqb_spec (Z.min limit 100) 0) as [Hz|Hnz]; [lia|].
      eexists. split; [reflexivity|].
      cbn [total_pages items_per_page total_items].
      split; [|split; [lia|reflexivity]].
      pose proof (ceiling_bounds total (Z.min limit 100) Hnz) as [Hup _].
      cbv zeta in Hup. assert (Hp : 0 < Z.min limit 100) by lia.
      specialize (Hup Hp). nia.
    + eexists. split; [reflexivity|].
      cbn [total_pages items_per_page total_items].
      split; [lia|]. split; [lia|reflexivity].
Qed.

(** ** More on the recommendation rule *)

(** X16.  [calculate_next_reps] never lowers the recommendation for more
    completed reps; for a positive target it stays within one below and
    two above the target and goes up exactly when the target was met;
    and it repeats the target only at the floor (target 1, not met). *)
Theorem calculate_next_reps_moves (a c c' : Z) :
  (c <= c' -> calculate_next_reps a c <= calculate_next_reps a c')
  /\ (1 <= a -> a - 1 <= calculate_next_reps a c <= a + 2)
  /\ (1 <= a -> (a <= c <-> a < calculate_next_reps a c))
  /\ (calculate_next_reps a c = a <-> a = 1 /\ c < 1).
Proof.
  unfold calculate_next_reps.
  destruct (Z.geb_spec c a), (Z.geb_spec c' a); repeat split; intros; lia.
Qed.

(** ** The summary of an ended workout *)

Lemma end_workout_session_flushed env db sid :
  match end_workout_session sid env (mkDbSession db db) with
  | (Ok _, st) => pending st = committed st
  | (Raise _, _) => True
  end.
Proof.
  unfold end_workout_session. tx_unfold. tx_cases; exact I.
Qed.

Lemma end_workout_session_ok_state env db sid r db' :
  request (end_workout_session sid) env db = (Ok r, db') ->
  end_workout_session sid env (mkDbSession db db)
  = (Ok r, mkDbSession db' db').
Proof.
  unfold request. pose proof (end_workout_session_flushed env db sid) as Hf.
  destruct (end_workout_session sid env (mkDbSession db db)) as [x st].
  intros [= -> <-]. destruct st as [cm pd]. cbn in *. subst pd.
  reflexivity.
Qed.

(** X17.  Once [end_workout_session] has committed, the router's summary
    cannot fail: it is returned with the same database, its next
    recommended reps are [calculate_next_reps] of the assigned and
    completed reps it shows, and its performance is "completed" exactly
    when the completed reps reach the assigned ones (for a positive
    target: exactly when the recommendation goes up), "incomplete"
    otherwise. *)
Theorem end_workout_summary_after_commit env db sid s' next db' :
  request (end_workout_session sid) env db = (Ok (s', next), db') ->
  exists sm,
    request (end_workout_summary sid) env db = (Ok sm, db')
    /\ WorkoutSummary.next_recommended_reps sm = next
    /\ next = calculate_next_reps (WorkoutSummary.assigned_reps sm)
                                  (WorkoutSummary.completed_reps sm)
    /\ (WorkoutSummary.performance sm = "completed"%string
        <-> WorkoutSummary.assigned_reps sm
            <= WorkoutSummary.completed_reps sm)
    /\ (WorkoutSummary.performance sm = "incomplete"%string
        <-> WorkoutSummary.completed_reps sm
            < WorkoutSummary.assigned_reps sm)
    /\ (0 < WorkoutSummary.assigned_reps sm ->
        (WorkoutSummary.performance sm = "completed"%string
         <-> WorkoutSummary.assigned_reps sm < next)).
Proof.
  intros Hrun.
  pose proof (end_workout_session_ok_state _ _ _ _ _ Hrun) as Hst.
  apply end_workout_session_commits in Hrun.
  destruct Hrun as (s & e & c & r & Hs & _ & He & Hc & _ & Hnext & Hs' & _
                    & _ & _ & _ & Hex).
  assert (He' : exercise_of s' db' = Some e).
  { unfold exercise_of in *. rewrite Hex, Hs'. cbn [WorkoutSession.id].
    rewrite <- (session_by_id_id _ _ _ Hs). exact He. }
  unfold end_workout_summary, request, bind. rewrite Hst.
  unfold query, completed_or_TypeError, ret.
  cbn [fst snd pending committed]. rewrite He', Hc.
  cbn [committed].
  eexists. split; [reflexivity|].
  cbn [WorkoutSummary.next_recommended_reps WorkoutSummary.assigned_reps
       WorkoutSummary.completed_reps WorkoutSummary.performance].
  split; [reflexivity|]. split; [exact Hnext|].
  subst next. unfold calculate_next_reps.
  destruct (Z.geb_spec c (Exercise.assigned_reps e)); repeat split;
    intros; try reflexivity; try discriminate; lia.
Qed.

Lemma end_workout_summary_after_commit_witness :
  request (end_workout_session 1) (mkEnv 3 true) api_flow_logged
  = (Ok (WorkoutSession.mk 1 1 1 (Some 3) false, 12), api_flow_ended)
  /\ exists sm,
       request (end_workout_summary 1) (mkEnv 3 true) api_flow_logged
       = (Ok sm, api_flow_ended)
       /\ WorkoutSummary.next_recommended_reps sm = 12.
Proof.
  assert (Hrun : request (end_workout_session 1) (mkEnv 3 true)
                         api_flow_logged
                 = (Ok (WorkoutSession.mk 1 1 1 (Some 3) false, 12),
                    api_flow_ended)) by reflexivity.
  split; [exact Hrun|].
  destruct (end_workout_summary_after_commit _ _ _ _ _ _ Hrun)
    as (sm & Hsm & Hn & _).
  exists sm. split; assumption.
Defined.

(** ** Users do not affect one another *)

Lemma unique_key_row {A} (g : A -> Z) (rows : list A) (r s : A) :
  NoDup (map g rows) -> In r rows -> In s rows -> g r = g s -> r = s.
Proof.
  induction rows as [|x rows IH]; cbn [map In]; [tauto|].
  intros Hnd Hr Hs Hid. inversion Hnd as [|? ? Hnotin Hnd']; subst.
  destruct Hr as [<-|Hr], Hs as [<-|Hs].
  - reflexivity.
  - elim Hnotin. rewrite Hid. apply in_map. exact Hs.
  - elim Hnotin. rewrite <- Hid. apply in_map. exact Hr.
  - apply IH; assumption.
Qed.

(** X18.  On a reachable database, starting a session for one user or
    ending a session of one user leaves the sessions and the
    recommendation of every other user exactly as they were. *)
Theorem other_users_untouched env db u :
  reachable db ->
  (forall u0 a n,
     u0 <> u ->
     let db' := handle env db (StartSession u0 a n) in
     filter (fun s => WorkoutSession.user_id s =? u) (workout_sessions db')
     = filter (fun s => WorkoutSession.user_id s =? u) (workout_sessions db)
     /\ recommendation_of u db' = recommendation_of u db)
  /\ (forall sid s,
        session_by_id sid db = Some s ->
        WorkoutSession.user_id s <> u ->
        let db' := handle env db (EndSession sid) in
        filter (fun x => WorkoutSession.user_id x =? u)
               (workout_sessions db')
        = filter (fun x => WorkoutSession.user_id x =? u)
                 (workout_sessions db)
        /\ recommendation_of u db' = recommendation_of u db).
Proof.
  intros Hr.
  pose proof (reachable_consistent db Hr)
    as ((_ & Hids & _ & Hrids) & _).
  split.
  - intros u0 a n Hne db'. subst db'. cbn [handle].
    rewrite start_workout_run.
    destruct (WorkoutSessionCreate_errors a n); [|split; reflexivity].
    destruct (user_by_id u0 db); [|split; reflexivity].
    destruct (hd_error (active_sessions u0 db)); [split; reflexivity|].
    destruct (commit_succeeds env); [|split; reflexivity].
    cbn [snd workout_sessions]. split; [|reflexivity].
    rewrite filter_snoc. cbn [WorkoutSession.user_id].
    destruct (Z.eqb_spec u0 u); [contradiction|]. apply app_nil_r.
  - intros sid s Hs Hne db'. subst db'. cbn [handle]. unfold end_workout.
    rewrite end_workout_session_run, Hs.
    destruct (negb (WorkoutSession.is_active s)); [split; reflexivity|].
    destruct (exercise_of s db) as [e|]; [|split; reflexivity].
    destruct (Exercise.completed_reps e) as [c|]; [|split; reflexivity].
    destruct (commit_succeeds env); [|split; reflexivity].
    cbn [snd workout_sessions]. split.
    + apply filter_update_where_other; [reflexivity|].
      intros r Hin Hu. apply Z.eqb_eq in Hu. apply Z.eqb_neq. intros Hid.
      apply Hne. rewrite <- Hu. f_equal. symmetry.
      exact (unique_id_row _ r s Hids Hin (session_by_id_in _ _ _ Hs) Hid).
    + unfold recommendation_of. cbn [workout_recommendations].
      destruct (find (fun r => WorkoutRecommendation.user_id r
                               =? WorkoutSession.user_id s)
                     (workout_recommendations db)) as [r0|] eqn:Hr0.
      * apply find_update_where_other; [reflexivity|].
        intros r Hin Hu. apply Z.eqb_eq in Hu. apply Z.eqb_neq. intros Hid.
        apply find_some in Hr0. destruct Hr0 as [Hin0 Hu0].
        apply Z.eqb_eq in Hu0. apply Hne. rewrite <- Hu, <- Hu0.
        f_equal. symmetry.
        exact (unique_key_row WorkoutRecommendation.id _ r r0 Hrids
                 Hin Hin0 Hid).
      * rewrite find_snoc. cbn [WorkoutRecommendation.user_id].
        destruct (find (fun r => WorkoutRecommendation.user_id r =? u)
                       (workout_recommendations db)); [reflexivity|].
        destruct (Z.eqb_spec (WorkoutSession.user_id s) u);
          [contradiction|reflexivity].
Qed.

Lemma two_users_logged_reachable : reachable two_users_logged.
Proof.
  unfold two_users_logged, two_users_created, api_flow_ended,
    api_flow_logged, api_flow_started, api_flow_user.
  repeat apply reachable_step. apply reachable_empty.
Qed.

Lemma two_users_created_reachable : reachable two_users_created.
Proof.
  unfold two_users_created, api_flow_ended, api_flow_logged,
    api_flow_started, api_flow_user.
  repeat apply reachable_step. apply reachable_empty.
Qed.

(** The second user starts, and later ends, a workout while the first
    has a finished session, an open one and a stored recommendation of
    12: these stay, and the second user's rows do change. *)
Lemma other_users_untouched_witness :
  (reachable two_users_created
   /\ 2 <> 1
   /\ let db' :=
        handle (mkEnv 5 true) two_users_created (StartSession 2 8 None) in
      filter (fun s => WorkoutSession.user_id s =? 1) (workout_sessions db')
      = [WorkoutSession.mk 1 1 1 (Some 3) false]
      /\ recommendation_of 1 db'
         = Some (WorkoutRecommendation.mk 1 1 12 3)
      /\ active_sessions 2 db' = [WorkoutSession.mk 2 2 5 None true])
  /\ (reachable two_users_logged
      /\ session_by_id 2 two_users_logged
         = Some (WorkoutSession.mk 2 2 5 None true)
      /\ 2 <> 1
      /\ let db' := handle (mkEnv 8 true) two_users_logged (EndSession 2) in
         filter (fun s => WorkoutSession.user_id s =? 1)
                (workout_sessions db')
         = [WorkoutSession.mk 1 1 1 (Some 3) false;
            WorkoutSession.mk 3 1 7 None true]
         /\ recommendation_of 1 db'
            = Some (WorkoutRecommendation.mk 1 1 12 3)
         /\ recommendation_of 2 two_users_logged = None
         /\ recommendation_of 2 db'
            = Some (WorkoutRecommendation.mk 2 2 7 8)).
Proof.
  split.
  - pose proof two_users_created_reachable as Hr.
    assert (Hne : 2 <> 1) by discriminate.
    split; [exact Hr|]. split; [exact Hne|].
    destruct (other_users_untouched (mkEnv 5 true) two_users_created 1 Hr)
      as [H _].
    destruct (H 2 8 None Hne) as [Hs Hrec].
    cbv zeta. rewrite Hs, Hrec. repeat split.
  - pose proof two_users_logged_reachable as Hr.
    assert (Hne : 2 <> 1) by discriminate.
    assert (Hs2 : session_by_id 2 two_users_logged
                  = Some (WorkoutSession.mk 2 2 5 None true))
      by reflexivity.
    split; [exact Hr|]. split; [exact Hs2|]. split; [exact Hne|].
    destruct (other_users_untouched (mkEnv 8 true) two_users_logged 1 Hr)
      as [_ H].
    destruct (H 2 _ Hs2 Hne) as [Hs Hrec].
    cbv zeta. rewrite Hs, Hrec. repeat split.
Defined.

(** ** The lifecycle composes *)

Lemma filter_update_where_none {A} (q p : A -> bool) (f : A -> A)
      (rows : list A) :
  (forall r, In r rows -> q r = true -> p r = true) ->
  (forall r, q (f r) = false) ->
  filter q (update_where p f rows) = [].
Proof.
  intros Hqp Hqf. induction rows as [|r rows IH]; [reflexivity|].
  cbn [update_where map filter]. fold (update_where p f rows).
  assert (IH' : filter q (update_where p f rows) = [])
    by (apply IH; intros x Hx; apply Hqp; right; exact Hx).
  destruct (p r) eqn:Hp.
  - rewrite Hqf. exact IH'.
  - destruct (q r) eqn:Hq; [|exact IH'].
    rewrite (Hqp r (or_introl eq_refl) Hq) in Hp. discriminate.
Qed.

Lemma at_most_one_same {A} (l : list A) (x y : A) :
  (List.length l <= 1)%nat -> In x l -> In y l -> x = y.
Proof.
  destruct l as [|a [|b l]]; cbn; intros Hlen Hx Hy.
  - destruct Hx.
  - destruct Hx as [<-|[]], Hy as [<-|[]]. reflexivity.
  - lia.
Qed.

(** X19.  Ending a session frees its user: on a reachable database,
    after a successful end the user has no active session left, so a
    valid start for that user succeeds (when the store commits) instead
    of meeting [ActiveSessionExistsException]. *)
Theorem end_frees_the_user env env' db sid s' next db' a n :
  reachable db ->
  request (end_workout sid) env db = (Ok (s', next), db') ->
  0 < a ->
  (forall x, n = Some x -> (String.length x <= 100)%nat) ->
  commit_succeeds env' = true ->
  active_sessions (WorkoutSession.user_id s') db' = []
  /\ exists s2 db2,
       request (start_workout (WorkoutSession.user_id s') a n) env' db'
       = (Ok s2, db2)
       /\ WorkoutSession.user_id s2 = WorkoutSession.user_id s'
       /\ WorkoutSession.is_active s2 = true
       /\ active_sessions (WorkoutSession.user_id s') db2 = [s2].
Proof.
  intros Hr Hrun Ha Hn Hcommit.
  pose proof (reachable_single_active db Hr) as Hsingle.
  pose proof (reachable_consistent db Hr)
    as (_ & _ & _ & _ & Husers & _).
  unfold end_workout in Hrun. rewrite end_workout_session_run in Hrun.
  destruct (session_by_id sid db) as [s|] eqn:Hs; [|discriminate].
  destruct (WorkoutSession.is_active s) eqn:Hact; [|discriminate].
  cbn [negb] in Hrun.
  destruct (exercise_of s db) as [e|]; [|discriminate].
  destruct (Exercise.completed_reps e) as [c|]; [|discriminate].
  destruct (commit_succeeds env); [|discriminate].
  cbv zeta in Hrun. injection Hrun as <- _ <-.
  cbn [WorkoutSession.user_id].
  pose proof (session_by_id_in _ _ _ Hs) as Hin.
  set (u := WorkoutSession.user_id s) in *.
  assert (Hs_active : In s (active_sessions u db)).
  { unfold active_sessions. apply filter_In. split; [exact Hin|].
    subst u. rewrite Z.eqb_refl, Hact. reflexivity. }
  assert (Hnone : active_sessions u
                    (mkDatabase (users db)
                       (update_where
                          (fun r => WorkoutSession.id r
                                    =? WorkoutSession.id s)
                          (fun r => WorkoutSession.mk
                                      (WorkoutSession.id r)
                                      (WorkoutSession.user_id r)
                                      (WorkoutSession.started_at r)
                                      (Some (utcnow env)) false)
                          (workout_sessions db))
                       (exercises db)
                       match recommendation_of u db with
                       | Some r =>
                           update_where
                             (fun x => WorkoutRecommendation.id x
                                       =? WorkoutRecommendation.id r)
                             (fun x => WorkoutRecommendation.mk
                                         (WorkoutRecommendation.id x)
                                         (WorkoutRecommendation.user_id x)
                                         (calculate_next_reps
                                            (Exercise.assigned_reps e) c)
                                         (utcnow env))
                             (workout_recommendations db)
                       | None =>
                           workout_recommendations db
                           ++ [WorkoutRecommendation.mk
                                 (next_id WorkoutRecommendation.id
                                    (workout_recommendations db))
                                 u
                                 (calculate_next_reps
                                    (Exercise.assigned_reps e) c)
                                 (utcnow env)]
                       end) = []).
  { unfold active_sessions at 1. cbn [workout_sessions].
    apply filter_update_where_none.
    - intros r Hr_in Hq. apply Z.eqb_eq. f_equal.
      apply (at_most_one_same (active_sessions u db));
        [apply Hsingle| |exact Hs_active].
      unfold active_sessions. apply filter_In. split; assumption.
    - intros r. cbn. apply andb_false_r. }
  split; [exact Hnone|].
  rewrite start_workout_run.
  rewrite (WorkoutSessionCreate_accepts a n Ha Hn).
  unfold user_by_id at 1. cbn [users]. fold (user_by_id u db).
  specialize (Husers s Hin). fold u in Husers.
  destruct (user_by_id u db); [|congruence].
  rewrite Hnone, Hcommit. cbn [hd_error]. cbv zeta.
  eexists. eexists. split; [reflexivity|].
  cbn [WorkoutSession.user_id WorkoutSession.is_active].
  split; [reflexivity|]. split; [reflexivity|].
  unfold active_sessions in *. cbn [workout_sessions] in *.
  rewrite filter_snoc, Hnone.
  cbn [WorkoutSession.user_id WorkoutSession.is_active].
  rewrite Z.eqb_refl. reflexivity.
Qed.

Lemma end_frees_the_user_witness :
  reachable api_flow_logged
  /\ active_sessions 1 api_flow_ended = []
  /\ exists s2 db2,
       request (start_workout 1 12 None) (mkEnv 5 true) api_flow_ended
       = (Ok s2, db2).
Proof.
  assert (Hr : reachable api_flow_logged).
  { unfold api_flow_logged, api_flow_started, api_flow_user.
    repeat apply reachable_step. apply reachable_empty. }
  assert (Hrun : request (end_workout 1) (mkEnv 3 true) api_flow_logged
                 = (Ok (WorkoutSession.mk 1 1 1 (Some 3) false, 12),
                    api_flow_ended)) by reflexivity.
  assert (Hname : forall x : string, @None string = Some x ->
                    (String.length x <= 100)%nat) by discriminate.
  split; [exact Hr|].
  destruct (end_frees_the_user (mkEnv 3 true) (mkEnv 5 true) _ _ _ _ _
              12 None Hr Hrun eq_refl Hname eq_refl)
    as (Hnone & s2 & db2 & Hstart & _).
  split; [exact Hnone|]. exists s2, db2. exact Hstart.
Defined.

(** X20.  The flow of the test, for every input: on a reachable database,
    for an existing user without an active session, a start with
    [a > 0], then a log of [c >= 0] on the new session, then its end
    (all committed) returns [calculate_next_reps a c] and a session of
    that user that started at the first request and ended at the third;
    ending right after the start, before any log, is refused with
    [ExerciseNotLoggedException]. *)
Theorem workout_lifecycle env1 env2 env3 db u a n c :
  reachable db ->
  user_by_id u db <> None ->
  active_sessions u db = [] ->
  0 < a ->
  (forall x, n = Some x -> (String.length x <= 100)%nat) ->
  0 <= c ->
  commit_succeeds env1 = true ->
  commit_succeeds env2 = true ->
  commit_succeeds env3 = true ->
  let sid := next_id WorkoutSession.id (workout_sessions db) in
  let db1 := handle env1 db (StartSession u a n) in
  let db2 := handle env2 db1 (LogExercise sid c) in
  request (end_workout sid) env3 db1
  = (Raise (ExerciseNotLoggedException sid), db1)
  /\ exists db3,
       request (end_workout sid) env3 db2
       = (Ok (WorkoutSession.mk sid u (utcnow env1) (Some (utcnow env3))
                                false,
              calculate_next_reps a c), db3)
       /\ exists r,
            recommendation_of u db3 = Some r
            /\ WorkoutRecommendation.next_recommended_reps r
               = calculate_next_reps a c.
Proof.
  intros Hr Hu Hnone Ha Hn Hc H1 H2 H3 sid db1 db2.
  pose proof (reachable_well_formed db Hr) as (_ & _ & Hb).
  set (s1 := WorkoutSession.mk sid u (utcnow env1) None true).
  set (e1 := Exercise.mk (next_id Exercise.id (exercises db)) sid
               (or_default n) a None (utcnow env1)).
  assert (Hdb1 : db1 = mkDatabase (users db) (workout_sessions db ++ [s1])
                         (exercises db ++ [e1])
                         (workout_recommendations db)).
  { subst db1. cbn [handle]. rewrite start_workout_run.
    rewrite (WorkoutSessionCreate_accepts a n Ha Hn).
    destruct (user_by_id u db); [|congruence].
    rewrite Hnone, H1. reflexivity. }
  assert (F1 : session_by_id sid db1 = Some s1).
  { rewrite Hdb1. unfold session_by_id. cbn [workout_sessions].
    rewrite find_snoc. subst sid. rewrite find_fresh.
    cbn [WorkoutSession.id s1]. rewrite Z.eqb_refl. reflexivity. }
  assert (F2 : exercise_of s1 db1 = Some e1).
  { rewrite Hdb1. unfold exercise_of. cbn [exercises WorkoutSession.id s1].
    rewrite find_snoc. cbn [Exercise.session_id e1]. rewrite Z.eqb_refl.
    destruct (find _ (exercises db)) as [e0|] eqn:He0; [|reflexivity].
    apply find_some in He0. destruct He0 as [Hin Heq].
    apply Hb in Hin. apply Z.eqb_eq in Heq. subst sid. lia. }
  split.
  - unfold end_workout. rewrite end_workout_session_run, F1.
    cbn [WorkoutSession.is_active s1 negb]. rewrite F2. reflexivity.
  - set (e2 := Exercise.mk (Exercise.id e1) sid (or_default n) a (Some c)
                 (utcnow env1)).
    assert (Hdb2 : db2 = mkDatabase (users db1) (workout_sessions db1)
                           (update_where
                              (fun r => Exercise.id r =? Exercise.id e1)
                              (fun r => Exercise.mk (Exercise.id r)
                                          (Exercise.session_id r)
                                          (Exercise.exercise_name r)
                                          (Exercise.assigned_reps r)
                                          (Some c)
                                          (Exercise.created_at r))
                              (exercises db1))
                           (workout_recommendations db1)).
    { subst db2. cbn [handle]. rewrite log_exercise_result_run.
      unfold ExerciseLog_errors. destruct (Z.geb_spec c 0); [|lia].
      rewrite F1. cbn [WorkoutSession.is_active s1 negb].
      rewrite F2, H2. reflexivity. }
    assert (F3 : session_by_id sid db2 = Some s1).
    { rewrite Hdb2. exact F1. }
    assert (F4 : exercise_of s1 db2 = Some e2).
    { rewrite Hdb2. unfold exercise_of in *. cbn [exercises].
      erewrite (find_update_where _ _ _ _ e1);
        [reflexivity|intros r; reflexivity|exact F2|apply Z.eqb_refl]. }
    destruct (request (end_workout sid) env3 db2) as [res db3] eqn:Hend.
    exists db3.
    assert (Hres : res = Ok (WorkoutSession.mk sid u (utcnow env1)
                               (Some (utcnow env3)) false,
                             calculate_next_reps a c)).
    { unfold end_workout in Hend.
      rewrite end_workout_session_run, F3 in Hend.
      cbn [WorkoutSession.is_active s1 negb] in Hend.
      rewrite F4 in Hend. cbn [Exercise.completed_reps e2] in Hend.
      rewrite H3 in Hend. cbv zeta in Hend.
      injection Hend as <- _. reflexivity. }
    subst res. split; [reflexivity|].
    unfold end_workout in Hend.
    apply end_workout_session_commits in Hend.
    destruct Hend as (s & e & c0 & r & _ & _ & _ & _ & _ & _ & _ & _
                      & Hrec & Hnext & _).
    exists r. split; assumption.
Qed.

Lemma workout_lifecycle_witness :
  reachable api_flow_user
  /\ exists db3,
       request (end_workout 1) (mkEnv 3 true) api_flow_logged
       = (Ok (WorkoutSession.mk 1 1 1 (Some 3) false,
              calculate_next_reps 10 10), db3).
Proof.
  assert (Hr : reachable api_flow_user).
  { unfold api_flow_user. apply reachable_step. apply reachable_empty. }
  assert (Hname : forall x : string,
            Some "Push-ups"%string = Some x ->
            (String.length x <= 100)%nat).
  { intros x [= <-]. cbn. lia. }
  split; [exact Hr|].
  destruct (workout_lifecycle (mkEnv 1 true) (mkEnv 2 true) (mkEnv 3 true)
              api_flow_user 1 10 (Some "Push-ups"%string) 10 Hr)
    as (_ & db3 & Hend & _);
    try reflexivity; try discriminate; try exact Hname.
  exists db3. exact Hend.
Defined.

(** ** What an ended session leaves behind stays *)

(** X21.  On a reachable database no request changes the exercise of an
    ended session: its assigned and completed reps are what they were
    when the session ended. *)
Theorem ended_exercise_is_final env db r sid s :
  reachable db ->
  session_by_id sid db = Some s ->
  WorkoutSession.is_active s = false ->
  exercise_of s (handle env db r) = exercise_of s db
  /\ exists e c, exercise_of s db = Some e
                 /\ Exercise.completed_reps e = Some c.
Proof.
  intros Hr Hs Hended.
  pose proof (reachable_well_formed db Hr) as (Hp & Hl & _).
  pose proof (reachable_consistent db Hr)
    as ((_ & Hsids & Heids & _) & _).
  pose proof (session_by_id_in _ _ _ Hs) as Hin.
  assert (Hlogged : exists e c, exercise_of s db = Some e
                                /\ Exercise.completed_reps e = Some c).
  { apply (ended_session_exercise (WorkoutSession.user_id s)); try assumption.
    apply ended_sessions_In. repeat split; assumption. }
  split; [|exact Hlogged].
  destruct (handle_step env db r) as [->|Htr]; [reflexivity|].
  destruct Htr as [name email _ _|u a n usr _ _ _
                  |sid0 c0 s0 e0 _ Hs0 Hact0 He0|sid0 s0 e0 c0 _ _ _ _];
    unfold exercise_of in *; cbn [exercises]; try reflexivity.
  - rewrite find_snoc. destruct Hlogged as (e & c & -> & _). reflexivity.
  - apply find_update_where_other; [reflexivity|].
    intros x Hx Hsx. apply Z.eqb_eq in Hsx. apply Z.eqb_neq. intros Hid.
    apply find_some in He0. destruct He0 as [Hin0 Hs0x].
    apply Z.eqb_eq in Hs0x.
    pose proof (unique_key_row Exercise.id _ x e0 Heids Hx Hin0 Hid) as ->.
    assert (Hsame : s = s0).
    { apply (unique_key_row WorkoutSession.id (workout_sessions db));
        [exact Hsids|exact Hin|exact (session_by_id_in _ _ _ Hs0)|].
      congruence. }
    subst s0. congruence.
Qed.

Lemma ended_exercise_is_final_witness :
  reachable api_flow_ended
  /\ exercise_of (WorkoutSession.mk 1 1 1 (Some 3) false)
       (handle (mkEnv 9 true) api_flow_ended (LogExercise 1 3))
     = exercise_of (WorkoutSession.mk 1 1 1 (Some 3) false) api_flow_ended.
Proof.
  split; [exact api_flow_reachable|].
  exact (proj1 (ended_exercise_is_final (mkEnv 9 true) api_flow_ended
                  (LogExercise 1 3) 1 _ api_flow_reachable
                  eq_refl eq_refl)).
Defined.

(** X22.  The stored recommendations change only when a session ends:
    every other request leaves the recommendation table as it was, and a
    request that changes it has ended an active, logged session and
    stored [calculate_next_reps] of its reps for its user. *)
Theorem recommendation_changes_only_at_end env db r :
  workout_recommendations (handle env db r) = workout_recommendations db
  \/ exists sid s e c rec,
       r = EndSession sid
       /\ session_by_id sid db = Some s
       /\ WorkoutSession.is_active s = true
       /\ exercise_of s db = Some e
       /\ Exercise.completed_reps e = Some c
       /\ recommendation_of (WorkoutSession.user_id s) (handle env db r)
          = Some rec
       /\ WorkoutRecommendation.next_recommended_reps rec
          = calculate_next_reps (Exercise.assigned_reps e) c.
Proof.
  destruct r as [name email|u a n|sid c|sid|u].
  - left. cbn [handle]. rewrite create_user_run.
    destruct (UserCreate_errors name email); [|reflexivity].
    destruct (email_taken (email_value email) db); [reflexivity|].
    destruct (commit_succeeds env); reflexivity.
  - left. cbn [handle]. rewrite start_workout_run.
    destruct (WorkoutSessionCreate_errors a n); [|reflexivity].
    destruct (user_by_id u db); [|reflexivity].
    destruct (hd_error (active_sessions u db)); [reflexivity|].
    destruct (commit_succeeds env); reflexivity.
  - left. cbn [handle]. rewrite log_exercise_result_run.
    destruct (ExerciseLog_errors c); [|reflexivity].
    destruct (session_by_id sid db) as [s|]; [|reflexivity].
    destruct (negb (WorkoutSession.is_active s)); [reflexivity|].
    destruct (exercise_of s db); [|reflexivity].
    destruct (commit_succeeds env); reflexivity.
  - cbn [handle].
    destruct (request (end_workout sid) env db) as [[[s' next]|x] db']
      eqn:Hrun; cbn [snd].
    + right. unfold end_workout in Hrun.
      apply end_workout_session_commits in Hrun.
      destruct Hrun as (s & e & c & rec & Hs & Hact & He & Hc & _ & Hnext
                        & Hs' & _ & Hrec & Hval & _).
      exists sid, s, e, c, rec. rewrite Hs' in Hrec.
      cbn [WorkoutSession.user_id] in Hrec.
      repeat split; try assumption. congruence.
    + left. unfold end_workout in Hrun.
      rewrite end_workout_session_run in Hrun.
      destruct (session_by_id sid db) as [s|]; [|congruence].
      destruct (negb (WorkoutSession.is_active s)); [congruence|].
      destruct (exercise_of s db) as [e|]; [|congruence].
      destruct (Exercise.completed_reps e); [|congruence].
      destruct (commit_succeeds env); [discriminate|congruence].
  - left. cbn [handle]. rewrite get_recommendation_reads. reflexivity.
Qed.

(** ** Timestamps under a clock that never goes back *)

Lemma consecutive_at before s1 rest :
  consecutive (before ++ s1 :: rest) ->
  forall s2, In s2 rest ->
    WorkoutSession.user_id s1 = WorkoutSession.user_id s2 ->
    exists e1, WorkoutSession.ended_at s1 = Some e1
               /\ e1 <= WorkoutSession.started_at s2.
Proof.
  induction before as [|x before IH]; cbn [app consecutive].
  - intros [H _] s2 Hin Hu. exact (proj2 (H s2 Hin Hu)).
  - intros [_ H]. exact (IH H).
Qed.

(** X23.  When the clock never goes back, every session of a reachable
    database started no later than now, an ended session ended between
    its start and now (so its duration is not negative), and of two
    sessions of one user the earlier in the table has ended before the
    later one starts: a user's sessions never overlap. *)
Theorem sessions_do_not_overlap t db :
  reachable_by t db ->
  (forall s, In s (workout_sessions db) ->
     WorkoutSession.started_at s <= t
     /\ forall e, WorkoutSession.ended_at s = Some e ->
          WorkoutSession.started_at s <= e <= t)
  /\ (forall before s1 between s2 after,
        workout_sessions db = before ++ s1 :: between ++ s2 :: after ->
        WorkoutSession.user_id s1 = WorkoutSession.user_id s2 ->
        exists e1, WorkoutSession.ended_at s1 = Some e1
                   /\ e1 <= WorkoutSession.started_at s2).
Proof.
  intros Hr. pose proof (reachable_by_in_time t db Hr) as (Hst & Hco & _).
  pose proof (reachable_consistent db (reachable_by_reachable t db Hr))
    as (_ & _ & _ & _ & _ & Hopen & _).
  split.
  - intros s Hin. destruct (Hst s Hin) as [Hstart Hend].
    split; [exact Hstart|]. intros e He.
    assert (Hact : WorkoutSession.is_active s = false).
    { destruct (WorkoutSession.is_active s) eqn:Ha; [|reflexivity].
      apply (Hopen s Hin) in Ha. congruence. }
    destruct (Hend Hact) as (e' & He' & Hb). congruence.
  - intros before s1 between s2 after Hsplit Hu. rewrite Hsplit in Hco.
    apply (consecutive_at before s1 (between ++ s2 :: after) Hco s2);
      [|exact Hu].
    apply in_or_app. right. left. reflexivity.
Qed.

Lemma sessions_do_not_overlap_witness :
  reachable_by 3 api_flow_ended
  /\ forall e, Some 3 = Some e -> 1 <= e <= 3.
Proof.
  split; [exact api_flow_reachable_by|].
  destruct (sessions_do_not_overlap 3 api_flow_ended api_flow_reachable_by)
    as [H _].
  exact (proj2 (H (WorkoutSession.mk 1 1 1 (Some 3) false)
                  (or_introl eq_refl))).
Defined.

(** ** No internal errors on reachable databases *)

(** X24.  On a reachable database the session operations and the reads
    fail only with their documented 4xx errors: a start, a log or an end
    that is reported as 500 is a commit the store refused, and
    [get_recommendation] and [get_user_stats] are never reported as 500
    (no [AttributeError] or [TypeError] from a missing exercise or from
    unset completed reps). *)
Theorem no_internal_errors env db :
  reachable db ->
  (forall u a n e db',
     request (start_workout u a n) env db = (Raise e, db') ->
     status_code e = 500 ->
     e = OperationalError /\ commit_succeeds env = false)
  /\ (forall sid c e db',
        request (log_exercise_result sid c) env db = (Raise e, db') ->
        status_code e = 500 ->
        e = OperationalError /\ commit_succeeds env = false)
  /\ (forall sid e db',
        request (end_workout sid) env db = (Raise e, db') ->
        status_code e = 500 ->
        e = OperationalError /\ commit_succeeds env = false)
  /\ (forall u e db',
        request (get_recommendation u) env db = (Raise e, db') ->
        e = UserNotFoundException u)
  /\ (forall u e db',
        request (get_user_stats u) env db = (Raise e, db') ->
        e = UserNotFoundException u).
Proof.
  intros Hr. pose proof (reachable_well_formed db Hr) as (Hp & Hl & _).
  split; [|split; [|split; [|split]]].
  - intros u a n e db'. rewrite start_workout_run.
    destruct (WorkoutSessionCreate_errors a n);
      [|intros [= <- _]; discriminate].
    destruct (user_by_id u db); [|intros [= <- _]; discriminate].
    destruct (hd_error (active_sessions u db));
      [intros [= <- _]; discriminate|].
    destruct (commit_succeeds env); [discriminate|].
    intros [= <- _] _. split; reflexivity.
  - intros sid c e db'. rewrite log_exercise_result_run.
    destruct (ExerciseLog_errors c); [|intros [= <- _]; discriminate].
    destruct (session_by_id sid db) as [s|] eqn:Hs;
      [|intros [= <- _]; discriminate].
    destruct (negb (WorkoutSession.is_active s));
      [intros [= <- _]; discriminate|].
    pose proof (Hp s (session_by_id_in _ _ _ Hs)) as Hex.
    destruct (exercise_of s db); [|congruence].
    destruct (commit_succeeds env); [discriminate|].
    intros [= <- _] _. split; reflexivity.
  - intros sid e db'. unfold end_workout. rewrite end_workout_session_run.
    destruct (session_by_id sid db) as [s|] eqn:Hs;
      [|intros [= <- _]; discriminate].
    destruct (negb (WorkoutSession.is_active s));
      [intros [= <- _]; discriminate|].
    pose proof (Hp s (session_by_id_in _ _ _ Hs)) as Hex.
    destruct (exercise_of s db) as [x|]; [|congruence].
    destruct (Exercise.completed_reps x);
      [|intros [= <- _]; discriminate].
    destruct (commit_succeeds env); [discriminate|].
    intros [= <- _] _. split; reflexivity.
  - intros u e db' Hrun.
    destruct (user_by_id u db) as [usr|] eqn:Hu.
    + destruct (get_recommendation_reachable env db u Hr) as (v & Hv & _);
        [congruence|]. congruence.
    + rewrite get_recommendation_run, Hu in Hrun. congruence.
  - intros u e db'. rewrite get_user_stats_run.
    destruct (user_by_id u db); [discriminate|]. congruence.
Qed.

(** The store refuses the commit of an end, of a log and of a start:
    each is reported as 500 and is an [OperationalError]; the reads of
    an unknown user fail with [UserNotFoundException], a 404. *)
Lemma no_internal_errors_witness :
  reachable two_users_logged
  /\ (request (end_workout 2) (mkEnv 8 false) two_users_logged
      = (Raise OperationalError, two_users_logged)
      /\ status_code OperationalError = 500
      /\ commit_succeeds (mkEnv 8 false) = false)
  /\ (request (log_exercise_result 3 12) (mkEnv 8 false) two_users_logged
      = (Raise OperationalError, two_users_logged))
  /\ (forall e db',
        request (get_recommendation 9) (mkEnv 8 false) two_users_logged
        = (Raise e, db') ->
        e = UserNotFoundException 9 /\ status_code e = 404)
  /\ (forall e db',
        request (get_user_stats 9) (mkEnv 8 false) two_users_logged
        = (Raise e, db') ->
        e = UserNotFoundException 9 /\ status_code e = 404)
  /\ fst (request (get_recommendation 9) (mkEnv 8 false) two_users_logged)
     = Raise (UserNotFoundException 9).
Proof.
  pose proof two_users_logged_reachable as Hr.
  destruct (no_internal_errors (mkEnv 8 false) two_users_logged Hr)
    as (_ & Hlog & Hend & Hrec & Hstats).
  assert (Hrun : request (end_workout 2) (mkEnv 8 false) two_users_logged
                 = (Raise OperationalError, two_users_logged))
    by reflexivity.
  assert (Hrun' : request (log_exercise_result 3 12) (mkEnv 8 false)
                    two_users_logged
                  = (Raise OperationalError, two_users_logged))
    by reflexivity.
  pose proof (Hend 2 _ _ Hrun eq_refl) as [_ Hflag].
  pose proof (Hlog 3 12 _ _ Hrun' eq_refl) as [_ _].
  split; [exact Hr|].
  split; [split; [exact Hrun|split; [reflexivity|exact Hflag]]|].
  split; [exact Hrun'|].
  split; [intros e db' H; rewrite (Hrec 9 e db' H); split; reflexivity|].
  split; [intros e db' H; rewrite (Hstats 9 e db' H); split; reflexivity|].
  reflexivity.
Defined.

(** ** The reported recommendation, row by row *)

Lemma no_row_no_recommendation u db :
  (forall r, In r (workout_recommendations db) ->
     WorkoutRecommendation.user_id r <> u) ->
  recommendation_of u db = None.
Proof.
  intros Hnone. unfold recommendation_of.
  destruct (find _ (workout_recommendations db)) as [r|] eqn:Hf;
    [|reflexivity].
  apply find_some in Hf. destruct Hf as [Hin Hu]. apply Z.eqb_eq in Hu.
  elim (Hnone r Hin Hu).
Qed.

Lemma all_active_none_ended u db :
  (forall s, In s (workout_sessions db) ->
     WorkoutSession.user_id s = u -> WorkoutSession.is_active s = true) ->
  ended_sessions u db = [].
Proof.
  intros Hall. destruct (ended_sessions u db) as [|s rest] eqn:He;
    [reflexivity|].
  assert (Hin : In s (ended_sessions u db))
    by (rewrite He; left; reflexivity).
  apply ended_sessions_In in Hin. destruct Hin as (Hin & Hu & Hact).
  rewrite (Hall s Hin Hu) in Hact. discriminate.
Qed.

(** C2.  For an existing user of a well-formed database,
    [get_recommendation] returns, and the recommended reps it reports
    are resolved in this order.  If the recommendation table holds a row
    for the user, the value of a row of the user is reported, and of that
    very row when the table has one row per user (the column is unique).
    Otherwise, if the session table holds an ended session of the user,
    [calculate_next_reps] of the assigned and completed reps of the
    exercise of the most recently ended one.  Otherwise 10; a user with
    no session and no row gets 10 with trend "new". *)
Theorem get_recommendation_resolution env db u :
  paired db -> ended_logged db ->
  user_by_id u db <> None ->
  exists v,
    request (get_recommendation u) env db = (Ok v, db)
    /\ (forall r, In r (workout_recommendations db) ->
          WorkoutRecommendation.user_id r = u ->
          exists r0,
            In r0 (workout_recommendations db)
            /\ WorkoutRecommendation.user_id r0 = u
            /\ recommended_reps v
               = WorkoutRecommendation.next_recommended_reps r0
            /\ (NoDup (map WorkoutRecommendation.user_id
                           (workout_recommendations db)) ->
                r0 = r))
    /\ ((forall r, In r (workout_recommendations db) ->
           WorkoutRecommendation.user_id r <> u) ->
        forall s0, In s0 (workout_sessions db) ->
          WorkoutSession.user_id s0 = u ->
          WorkoutSession.is_active s0 = false ->
          exists s e c,
            In s (workout_sessions db)
            /\ WorkoutSession.user_id s = u
            /\ WorkoutSession.is_active s = false
            /\ (forall s' t', In s' (workout_sessions db) ->
                  WorkoutSession.user_id s' = u ->
                  WorkoutSession.is_active s' = false ->
                  WorkoutSession.ended_at s' = Some t' ->
                  exists t, WorkoutSession.ended_at s = Some t /\ t' <= t)
            /\ In e (exercises db)
            /\ Exercise.session_id e = WorkoutSession.id s
            /\ exercise_of s db = Some e
            /\ Exercise.completed_reps e = Some c
            /\ recommended_reps v
               = calculate_next_reps (Exercise.assigned_reps e) c)
    /\ ((forall r, In r (workout_recommendations db) ->
           WorkoutRecommendation.user_id r <> u) ->
        (forall s, In s (workout_sessions db) ->
           WorkoutSession.user_id s = u ->
           WorkoutSession.is_active s = true) ->
        recommended_reps v = 10)
    /\ ((forall r, In r (workout_recommendations db) ->
           WorkoutRecommendation.user_id r <> u) ->
        (forall s, In s (workout_sessions db) ->
           WorkoutSession.user_id s <> u) ->
        recommended_reps v = 10
        /\ trend (progression v) = "new"%string).
Proof.
  intros Hp Hl Hu.
  (* the value in terms of the two lookups *)
  assert (Hv : exists v,
    request (get_recommendation u) env db = (Ok v, db)
    /\ (forall r0, recommendation_of u db = Some r0 ->
          recommended_reps v
          = WorkoutRecommendation.next_recommended_reps r0)
    /\ (recommendation_of u db = None -> ended_sessions u db = [] ->
        recommended_reps v = 10 /\ trend (progression v) = "new"%string)
    /\ (recommendation_of u db = None -> ended_sessions u db <> [] ->
        exists s e c,
          last_ended_session u db = Some s
          /\ exercise_of s db = Some e
          /\ Exercise.completed_reps e = Some c
          /\ recommended_reps v
             = calculate_next_reps (Exercise.assigned_reps e) c)).
  { destruct (ended_sessions u db) as [|s0 rest] eqn:Hended.
    - eexists. split; [apply get_recommendation_new; assumption|].
      cbn [recommended_reps progression trend].
      split; [intros r0 ->; reflexivity|].
      split; [intros -> _; split; reflexivity|].
      intros _ H. elim H. reflexivity.
    - destruct (get_recommendation_history env db u Hp Hl Hu)
        as (s & e & c & s1 & e1 & Hlast & He & Hc & _ & _ & Hrun);
        [rewrite Hended; discriminate|].
      cbv zeta in Hrun. rewrite Hended in Hrun.
      eexists. split; [exact Hrun|].
      cbn [recommended_reps progression trend].
      split; [intros r0 ->; reflexivity|].
      split; [intros _ H; discriminate H|].
      intros -> _. exists s, e, c. repeat split; assumption. }
  destruct Hv as (v & Hrun & Hstored & Hnew & Hhist).
  exists v. split; [exact Hrun|]. split; [|split; [|split]].
  - intros r Hin Hur.
    destruct (recommendation_of u db) as [r0|] eqn:Hrec.
    + pose proof Hrec as Hf. unfold recommendation_of in Hf.
      apply find_some in Hf. destruct Hf as [Hin0 Hu0].
      apply Z.eqb_eq in Hu0.
      exists r0. split; [exact Hin0|]. split; [exact Hu0|].
      split; [apply Hstored; reflexivity|].
      intros Hnd.
      apply (unique_key_row WorkoutRecommendation.user_id _ r0 r Hnd
               Hin0 Hin). congruence.
    + exfalso. unfold recommendation_of in Hrec.
      apply (find_none _ _ Hrec) in Hin. cbn in Hin.
      rewrite Hur, Z.eqb_refl in Hin. discriminate.
  - intros Hnone s0 Hin0 Hu0 Hact0.
    pose proof (no_row_no_recommendation u db Hnone) as Hrec.
    destruct (Hhist Hrec) as (s & e & c & Hlast & He & Hc & Hval).
    { intros Hnil.
      assert (Hin : In s0 (ended_sessions u db))
        by (apply ended_sessions_In; repeat split; assumption).
      rewrite Hnil in Hin. destruct Hin. }
    apply last_ended_session_latest in Hlast.
    destruct Hlast as [Hin Hmax].
    apply ended_sessions_In in Hin. destruct Hin as (Hin & Hus & Hact).
    exists s, e, c.
    do 3 (split; [assumption|]). split.
    + intros s' t' Hin' Hu' Hact' Ht'. apply (Hmax s' t'); [|exact Ht'].
      apply ended_sessions_In. repeat split; assumption.
    + pose proof He as Hf. unfold exercise_of in Hf.
      apply find_some in Hf. destruct Hf as [Hine Hsid].
      apply Z.eqb_eq in Hsid. repeat split; assumption.
  - intros Hnone Hall.
    exact (proj1 (Hnew (no_row_no_recommendation u db Hnone)
                       (all_active_none_ended u db Hall))).
  - intros Hnone Hnosession.
    apply (Hnew (no_row_no_recommendation u db Hnone)).
    apply all_active_none_ended. intros s Hin Hus.
    elim (Hnosession s Hin Hus).
Qed.

Lemma db_with_recommendation_well_formed :
  paired db_with_recommendation /\ ended_logged db_with_recommendation.
Proof.
  split.
  - intros s [<-|[]]. discriminate.
  - intros s e [<-|[]] _ [= <-]. discriminate.
Defined.

Lemma get_recommendation_resolution_witness :
  (paired db_with_recommendation
   /\ ended_logged db_with_recommendation
   /\ user_by_id 1 db_with_recommendation <> None
   /\ exists v,
        request (get_recommendation 1) (mkEnv 4 true)
                db_with_recommendation
        = (Ok v, db_with_recommendation)
        /\ recommended_reps v = 50)
  /\ (paired db_without_recommendation
      /\ ended_logged db_without_recommendation
      /\ user_by_id 1 db_without_recommendation <> None
      /\ exists v,
           request (get_recommendation 1) (mkEnv 4 true)
                   db_without_recommendation
           = (Ok v, db_without_recommendation)
           /\ recommended_reps v = calculate_next_reps 10 5).
Proof.
  split.
  - destruct db_with_recommendation_well_formed as [Hp Hl].
    assert (Hu : user_by_id 1 db_with_recommendation <> None)
      by discriminate.
    split; [exact Hp|]. split; [exact Hl|]. split; [exact Hu|].
    destruct (get_recommendation_resolution (mkEnv 4 true)
                db_with_recommendation 1 Hp Hl Hu)
      as (v & Hrun & Hstored & _).
    exists v. split; [exact Hrun|].
    destruct (Hstored (WorkoutRecommendation.mk 2 1 50 3))
      as (r0 & _ & _ & Hval & Hsame);
      [right; left; reflexivity|reflexivity|].
    rewrite Hval, Hsame; [reflexivity|].
    cbn. repeat constructor; cbn; intuition discriminate.
  - destruct db_without_recommendation_well_formed as [Hp Hl].
    assert (Hu : user_by_id 1 db_without_recommendation <> None)
      by discriminate.
    split; [exact Hp|]. split; [exact Hl|]. split; [exact Hu|].
    destruct (get_recommendation_resolution (mkEnv 4 true)
                db_without_recommendation 1 Hp Hl Hu)
      as (v & Hrun & _ & Hlast & _).
    exists v. split; [exact Hrun|].
    destruct (Hlast (fun r (H : In r []) => match H with end)
                    (WorkoutSession.mk 1 1 1 (Some 3) false))
      as (s & e & c & _ & _ & _ & _ & Hine & _ & _ & Hc & Hv);
      [left; reflexivity|reflexivity|reflexivity|].
    destruct Hine as [<-|[]]. injection Hc as <-. exact Hv.
Defined.

(** ** Atomic writes, call by call *)






